(** * CV ingestion pipeline: a shallow embedding and its properties

    The development follows the Python sources file by file:

    - [Py]                   the few builtins the code relies on
                             ([str.lower], [str.startswith], [str.strip],
                             [os.path.splitext], [re.search] for a digit run);
    - [Eff]                  a state-and-exception monad for the code that
                             talks to the outside world inside [try] blocks;
    - [Claude_as_OCR]        [combine_ocr_results],
                             [process_file_with_combined_ocr];
    - [pandas]               the data frames, and the workbook file as
                             pandas and openpyxl read and write it;
    - [excel_to_concepts]    [excel_to_concept_mapping],
                             [create_empty_workbook];
    - [Process_files]        [extract_file_id], [process_single_file],
                             [update_excel_with_json_data],
                             [process_client_files];
    - [debug_OCR_THROW_PNG]  the conversion cascade
                             ([convert_pdf_to_png], [convert_docx_to_png], ...)
                             and the loop of [process_client_files_folder].

    Python [str] values are modelled as [string] (the bytes of their UTF-8
    encoding); [re]'s [\d] and [str.strip] see the characters of the string
    and class them as Python 3.11 does (the decimal digits and the white
    space of Unicode 14.0); [str.lower] is modelled on the ASCII letters.
    External collaborators
    (the OCR back ends, the Anthropic client, Word automation, the PDF
    renderers, the spreadsheet library) are oracles collected in environment
    records; each oracle either returns a value or raises. *)

From Stdlib Require Import ssreflect ZArith Ascii String List Bool Lia.
From stdpp Require Import base option list gmap strings fin_maps.

Set Warnings "-rewrite-rw".

Local Open Scope string_scope.
Local Open Scope list_scope.

#[global] Arguments String.append !_ _ / : simpl nomatch.

(** ** Python builtins *)

Module Py.

Definition is_upper (c : ascii) : bool :=
  let n := nat_of_ascii c in (65 <=? n)%nat && (n <=? 90)%nat.

Definition is_lower (c : ascii) : bool :=
  let n := nat_of_ascii c in (97 <=? n)%nat && (n <=? 122)%nat.

Definition lower_char (c : ascii) : ascii :=
  if is_upper c then ascii_of_nat (nat_of_ascii c + 32) else c.

Definition upper_char (c : ascii) : ascii :=
  if is_lower c then ascii_of_nat (nat_of_ascii c - 32) else c.

Fixpoint map_string (f : ascii -> ascii) (s : string) : string :=
  match s with
  | EmptyString => EmptyString
  | String c r => String (f c) (map_string f r)
  end.

(** [s.lower()] and [s.upper()]. *)
Definition lower : string -> string := map_string lower_char.
Definition upper : string -> string := map_string upper_char.

(** [s.startswith(p)]. *)
Definition startswith (s p : string) : bool := String.prefix p s.

(** [sub in s] on strings. *)
Fixpoint contains (sub s : string) : bool :=
  String.prefix sub s ||
  match s with
  | EmptyString => false
  | String _ r => contains sub r
  end.

(** Truth value of a string: [if s:]. *)
Definition truthy (s : string) : bool :=
  match s with EmptyString => false | _ => true end.

(** Truth value of an optional string ([None] and [''] are false). *)
Definition truthy_opt (o : option string) : bool :=
  match o with Some s => truthy s | None => false end.

(** [s.replace(c, '')] for a one-character [c]. *)
Fixpoint remove_char (c : ascii) (s : string) : string :=
  match s with
  | EmptyString => EmptyString
  | String d r => if Ascii.eqb c d then remove_char c r else String d (remove_char c r)
  end.

(** [s[n:]]. *)
Fixpoint drop (n : nat) (s : string) : string :=
  match n, s with
  | O, _ => s
  | S _, EmptyString => EmptyString
  | S k, String _ r => drop k r
  end.

(** [s[:n]]. *)
Fixpoint take (n : nat) (s : string) : string :=
  match n, s with
  | O, _ => EmptyString
  | S _, EmptyString => EmptyString
  | S k, String c r => String c (take k r)
  end.

(** The characters of a [str]: each code point, as the bytes that encode
    it. The first byte of an encoding tells how many bytes it has. *)
Definition utf8_width (c : ascii) : nat :=
  let n := nat_of_ascii c in
  if (n <? 192)%nat then 1%nat
  else if (n <? 224)%nat then 2%nat
  else if (n <? 240)%nat then 3%nat
  else 4%nat.

Fixpoint chars_from (fuel : nat) (s : string) : list string :=
  match fuel, s with
  | S fuel', String c _ =>
      take (utf8_width c) s :: chars_from fuel' (drop (utf8_width c) s)
  | _, _ => []
  end.

Definition chars (s : string) : list string := chars_from (String.length s) s.

(** [ord(ch)] for a character [ch]. *)
Fixpoint continuation (acc : N) (s : string) : N :=
  match s with
  | EmptyString => acc
  | String c r => continuation (acc * 64 + N_of_ascii c mod 64)%N r
  end.

Definition code_point (ch : string) : N :=
  match ch with
  | EmptyString => 0%N
  | String c r =>
      let n := N_of_ascii c in
      let lead :=
        if (n <? 128)%N then n
        else if (n <? 224)%N then (n mod 32)%N
        else if (n <? 240)%N then (n mod 16)%N
        else (n mod 8)%N in
      continuation lead r
  end.

Definition in_ranges (ranges : list (N * N)) (ch : string) : bool :=
  existsb (fun r => (fst r <=? code_point ch)%N && (code_point ch <=? snd r)%N) ranges.

(** The decimal digits (category Nd), which [\d] matches in a [str]
    pattern and for which [str.isdecimal] holds. *)
Definition decimal_digits : list (N * N) :=
  [(48, 57); (1632, 1641); (1776, 1785); (1984, 1993); (2406, 2415); (2534, 2543);
   (2662, 2671); (2790, 2799); (2918, 2927); (3046, 3055); (3174, 3183); (3302, 3311);
   (3430, 3439); (3558, 3567); (3664, 3673); (3792, 3801); (3872, 3881); (4160, 4169);
   (4240, 4249); (6112, 6121); (6160, 6169); (6470, 6479); (6608, 6617); (6784, 6793);
   (6800, 6809); (6992, 7001); (7088, 7097); (7232, 7241); (7248, 7257);
   (42528, 42537); (43216, 43225); (43264, 43273); (43472, 43481); (43504, 43513);
   (43600, 43609); (44016, 44025); (65296, 65305); (66720, 66729); (68912, 68921);
   (69734, 69743); (69872, 69881); (69942, 69951); (70096, 70105); (70384, 70393);
   (70736, 70745); (70864, 70873); (71248, 71257); (71360, 71369); (71472, 71481);
   (71904, 71913); (72016, 72025); (72784, 72793); (73040, 73049); (73120, 73129);
   (92768, 92777); (92864, 92873); (93008, 93017); (120782, 120831); (123200, 123209);
   (123632, 123641); (125264, 125273); (130032, 130041)]%N.

Definition is_decimal (ch : string) : bool := in_ranges decimal_digits ch.

(** The white space that [str.strip] removes ([str.isspace]). *)
Definition white_space : list (N * N) :=
  [(9, 13); (28, 32); (133, 133); (160, 160); (5760, 5760); (8192, 8202);
   (8232, 8233); (8239, 8239); (8287, 8287); (12288, 12288)]%N.

Definition is_space (ch : string) : bool := in_ranges white_space ch.

Fixpoint lstrip (l : list string) : list string :=
  match l with
  | [] => []
  | ch :: r => if is_space ch then lstrip r else l
  end.

Definition rstrip (l : list string) : list string := rev (lstrip (rev l)).

(** [s.strip()]. *)
Definition strip (s : string) : string :=
  String.concat EmptyString (rstrip (lstrip (chars s))).

(** [s.rfind(c)] for a one-character [c]: the last index, or [-1]. *)
Fixpoint rfind_from (c : ascii) (s : string) (i : Z) (last : Z) : Z :=
  match s with
  | EmptyString => last
  | String d r => rfind_from c r (i + 1) (if Ascii.eqb c d then i else last)
  end.

Definition rfind (c : ascii) (s : string) : Z := rfind_from c s 0 (-1).

Fixpoint all_chars (f : ascii -> bool) (s : string) : bool :=
  match s with
  | EmptyString => true
  | String c r => f c && all_chars f r
  end.

(** [os.path.splitext] of [posixpath]: the extension starts at the last dot
    of the last path component, leading dots of that component excepted. *)
Definition splitext (p : string) : string * string :=
  let sepIndex := rfind "/" p in
  let dotIndex := rfind "." p in
  if (sepIndex <? dotIndex)%Z then
    let filenameIndex := Z.to_nat (sepIndex + 1) in
    let d := Z.to_nat dotIndex in
    if all_chars (Ascii.eqb ".") (take (d - filenameIndex) (drop filenameIndex p))
    then (p, EmptyString)
    else (take d p, drop d p)
  else (p, EmptyString).

(** [os.path.basename] of [posixpath]. *)
Definition basename (p : string) : string :=
  drop (Z.to_nat (rfind "/" p + 1)) p.

(** [pathlib.Path(p).stem]: the last component without its suffix, which
    starts at its last dot when that dot is neither its first nor its
    last character. *)
Definition stem (p : string) : string :=
let name := basename p in
let i := rfind "." name in
if (0 <? i)%Z && (i <? Z.of_nat (String.length name) - 1)%Z
then take (Z.to_nat i) name
else name.

(** The leading run of digits of a sequence of characters, and a search for
    the first digit: [re.search(r'(\d+)', s)] is the leftmost match, and [+]
    is greedy. *)
Fixpoint digit_run (l : list string) : list string :=
  match l with
  | [] => []
  | ch :: r => if is_decimal ch then ch :: digit_run r else []
  end.

Fixpoint search_digit_run (l : list string) : option (list string) :=
  match l with
  | [] => None
  | ch :: r => if is_decimal ch then Some (ch :: digit_run r) else search_digit_run r
  end.

Definition search_digits (s : string) : option string :=
  String.concat EmptyString <$> search_digit_run (chars s).

(** [x in l] for a list of strings. *)
Definition str_in (x : string) (l : list string) : bool :=
  existsb (String.eqb x) l.

(** [str(n)] for an integer. *)
Definition digit_char (n : nat) : ascii := ascii_of_nat (48 + n).

Fixpoint str_of_pos_fuel (fuel : nat) (n : N) (acc : string) : string :=
  match fuel with
  | O => acc
  | S f =>
      let acc' := String (digit_char (N.to_nat (n mod 10))) acc in
      if (n <? 10)%N then acc' else str_of_pos_fuel f (n / 10)%N acc'
  end.

Definition str_of_N (n : N) : string :=
  str_of_pos_fuel (S (N.to_nat (N.log2 n))) n EmptyString.

Definition str_of_Z (z : Z) : string :=
  if (z <? 0)%Z then String "-" (str_of_N (Z.to_N (- z))) else str_of_N (Z.to_N z).

(** No character of [s] is a digit. *)
Definition no_digit (s : string) : bool :=
  forallb (fun ch => negb (is_decimal ch)) (chars s).

(** A sequence of characters that is empty or starts with a character that
    is not a digit. *)
Definition stops_run (l : list string) : bool :=
  match l with
  | [] => true
  | ch :: _ => negb (is_decimal ch)
  end.

End Py.

(** ** Outcomes of calls that may raise, and the effect monad *)

(** What a call into the outside world does: it returns, or it raises an
    [Exception] whose [str(e)] is the carried message. *)
Inductive Outcome (A : Type) : Type :=
| Returns (a : A)
| Raises (msg : string).
Arguments Returns {A} a.
Arguments Raises {A} msg.

Module Eff.

Section Monad.
Context {S : Type}.

(** A computation over a state [S] that returns or raises. *)
Definition M (A : Type) : Type := S -> Outcome A * S.

Definition ret {A} (a : A) : M A := fun s => (Returns a, s).

Definition bind {A B} (m : M A) (k : A -> M B) : M B :=
  fun s =>
    match m s with
    | (Returns a, s') => k a s'
    | (Raises e, s') => (Raises e, s')
    end.

(** Lift the outcome of an oracle. *)
Definition call {A} (o : Outcome A) : M A := fun s => (o, s).

Definition modify (f : S -> S) : M unit := fun s => (Returns tt, f s).

(** [try: m  except Exception as e: h e]. *)
Definition try_except {A} (m : M A) (h : string -> M A) : M A :=
  fun s =>
    match m s with
    | (Returns a, s') => (Returns a, s')
    | (Raises e, s') => h e s'
    end.

(** [try: m  finally: f], where [f] swallows its own exceptions. *)
Definition try_finally {A} (m : M A) (f : M unit) : M A :=
  fun s =>
    match m s with
    | (r, s') => (r, snd (f s'))
    end.

(** [try: m  except: pass]. *)
Definition attempt (m : M unit) : M unit :=
  try_except m (fun _ => ret tt).
End Monad.

Arguments M : clear implicits.

End Eff.

#[global] Instance eff_ret {S} : MRet (Eff.M S) := fun _ a => Eff.ret a.
#[global] Instance eff_bind {S} : MBind (Eff.M S) := fun _ _ k m => Eff.bind m k.

#[global] Instance outcome_ret : MRet Outcome := fun _ a => Returns a.
#[global] Instance outcome_bind : MBind Outcome := fun _ _ k o =>
  match o with
  | Returns a => k a
  | Raises e => Raises e
  end.

(** The newline character and the one-character string holding it. *)
Definition nl : string := String "010"%char EmptyString.

(** ** Claude_as_OCR.py *)

Module Claude_as_OCR.

(** A value of the [ocr_results] dictionary: a [str], or any other object. *)
Inductive OcrValue : Type :=
| OStr (text : string)
| ONotStr.

(** The [ocr_results] dictionary, in the order of [items()]. *)
Definition OcrResults : Type := list (string * OcrValue).

(** The collaborators of this module. [messages_create] stands for
    [client.messages.create(...)] followed by [message.content[0].text];
    the three [process_*_file] functions and the import that brings them in
    belong to the module [OCR_Combined]. *)
Record Env : Type := {
  anthropic_vertex : Outcome unit;
  messages_create : string -> Outcome string;
  import_OCR_Combined : Outcome unit;
  process_png_file : string -> Outcome OcrResults;
  process_pdf_file : string -> Outcome OcrResults;
  process_docx_file : string -> Outcome OcrResults
}.

(** The instructions that open the prompt of [combine_ocr_results]. *)
Definition guidelines : string :=
"You are an expert OCR text optimizer. You've been given multiple text extractions from the same document, 
each produced by a different OCR method. Your task is to create a single, optimized version that combines the best elements 
from each extraction.

Follow these guidelines:
1. Prioritize completeness - include all meaningful content from all versions
2. Fix obvious OCR errors (e.g., misrecognized characters, broken words)
3. Maintain the original document structure (paragraphs, lists, tables)
4. Preserve proper names, numbers, and technical terms accurately
5. If versions conflict, prefer the version that appears most grammatically and contextually correct
6. Remove any extraction artifacts or error messages that aren't part of the original document
7. For Hebrew text, ensure proper right-to-left formatting and character recognition
8. Pay special attention to numbers, dates, and other critical information
9. Maintain the original formatting as much as possible (bullet points, numbering, etc.)
10. If a section appears in one version but not others, include it if it seems legitimate

".

(** The test of the loop over [ocr_results.items()]:
    [isinstance(text, str) and not text.startswith("Failed")
     and not text.startswith("Error")]. *)
Definition usable (v : OcrValue) : bool :=
  match v with
  | OStr text => negb (Py.startswith text "Failed") && negb (Py.startswith text "Error")
  | ONotStr => false
  end.

(** The text of a value that passed the test. *)
Definition text_of (v : OcrValue) : string :=
  match v with
  | OStr text => text
  | ONotStr => EmptyString
  end.

(** [f"--- {method} ---\n{text}\n\n"]. *)
Definition extraction (method text : string) : string :=
  "--- " +:+ method +:+ " ---" +:+ nl +:+ text +:+ nl +:+ nl.

(** One turn of the loop that adds the OCR results to the prompt. *)
Definition add_extraction (prompt : string) (item : string * OcrValue) : string :=
  if usable (snd item)
  then prompt +:+ extraction (fst item) (text_of (snd item))
  else prompt.

(** The prompt before the loop: guidelines, file type and language. *)
Definition prompt_head (file_type language : option string) : string :=
  let prompt := guidelines in
  let prompt :=
    match file_type with
    | Some ft =>
        if Py.truthy ft
        then prompt +:+ nl +:+ "This text was extracted from a " +:+ Py.upper ft +:+ " file. "
        else prompt
    | None => prompt
    end in
  let prompt :=
    match language with
    | Some lang =>
        if Py.truthy lang then
          let prompt :=
            prompt +:+ nl +:+ "The primary language of the document is " +:+ Py.upper lang +:+ ". " in
          if String.eqb (Py.lower lang) "hebrew"
          then prompt +:+ "Pay special attention to right-to-left text direction and Hebrew characters. "
          else prompt
        else prompt
    | None => prompt
    end in
  prompt +:+ nl +:+ nl +:+ "Here are the different OCR extractions:" +:+ nl +:+ nl.

Definition prompt_tail : string :=
  nl +:+ "Please provide a single, optimized version of the text that combines the best elements from all extractions. Return ONLY the optimized text without any explanations or notes:".

(** The whole prompt sent to the model. *)
Definition build_prompt (ocr_results : OcrResults) (file_type language : option string) : string :=
  fold_left add_extraction ocr_results (prompt_head file_type language) +:+ prompt_tail.

(** The body of the [try] block of [combine_ocr_results]. *)
Definition combine_ocr_results_try (env : Env) (ocr_results : OcrResults)
    (file_type language : option string) : Outcome string :=
  _ ← anthropic_vertex env;
  let prompt := build_prompt ocr_results file_type language in
  messages_create env prompt.

Definition combine_ocr_results (env : Env) (ocr_results : OcrResults)
    (file_type language : option string) : Outcome string :=
  match combine_ocr_results_try env ocr_results file_type language with
  | Returns text => Returns text
  | Raises e => Returns ("Error combining OCR results with Claude: " +:+ e)
  end.

(** [dict.get]-like lookup in the results, first binding of the key. *)
Fixpoint lookup_result (key : string) (r : OcrResults) : option OcrValue :=
  match r with
  | [] => None
  | (k, v) :: r' => if String.eqb k key then Some v else lookup_result key r'
  end.

(** The loop that looks for the word "hebrew" in any string result. *)
Definition mentions_hebrew (r : OcrResults) : bool :=
  existsb (fun item =>
             match snd item with
             | OStr value => Py.contains "hebrew" (Py.lower value)
             | ONotStr => false
             end) r.

(** The language read off the ["Note"] entry of a DOCX result;
    [.lower()] on a value that is not a string raises. *)
Definition docx_language (r : OcrResults) : Outcome string :=
  match lookup_result "Note" r with
  | Some (OStr note) =>
      if Py.contains "hebrew" (Py.lower note) then Returns "hebrew" else Returns "english"
  | Some ONotStr => Raises "object has no attribute 'lower'"
  | None => Returns "english"
  end.

(** [not ocr_results]: [None] or an empty dictionary. *)
Definition no_results (o : option OcrResults) : bool :=
  match o with
  | None => true
  | Some [] => true
  | Some _ => false
  end.

(** What the [try] block of [process_file_with_combined_ocr] does up to the
    call of [combine_ocr_results]: either an early [return] of a message, or
    the results and the language to combine. *)
Inductive Gathered : Type :=
| EarlyReturn (message : string)
| ToCombine (ocr_results : OcrResults) (language : option string).

Definition gather (env : Env) (file_path : string) (ocr_results : option OcrResults)
    : Outcome Gathered :=
  let file_extension := snd (Py.splitext file_path) in
  if no_results ocr_results then
    _ ← import_OCR_Combined env;
    if String.eqb (Py.lower file_extension) ".png" then
      r ← process_png_file env file_path; mret (ToCombine r None)
    else if String.eqb (Py.lower file_extension) ".pdf" then
      r ← process_pdf_file env file_path; mret (ToCombine r None)
    else if String.eqb (Py.lower file_extension) ".docx" then
      r ← process_docx_file env file_path;
      language ← docx_language r;
      mret (ToCombine r (Some language))
    else mret (EarlyReturn ("Unsupported file type: " +:+ file_extension))
  else
    mret (ToCombine (default [] ocr_results) None).

Definition process_file_with_combined_ocr_try (env : Env) (file_path : string)
    (ocr_results : option OcrResults) : Outcome string :=
  let file_extension := snd (Py.splitext file_path) in
  let file_type := Py.remove_char "." (Py.lower file_extension) in
  g ← gather env file_path ocr_results;
  match g with
  | EarlyReturn message => mret message
  | ToCombine ocr_results language =>
      let language :=
        if Py.truthy_opt language then language
        else if mentions_hebrew ocr_results then Some "hebrew" else Some "english" in
      combine_ocr_results env ocr_results (Some file_type) language
  end.

Definition process_file_with_combined_ocr (env : Env) (file_path : string)
    (ocr_results : option OcrResults) : Outcome string :=
  match process_file_with_combined_ocr_try env file_path ocr_results with
  | Returns text => Returns text
  | Raises e => Returns ("Error processing file with combined OCR: " +:+ e)
  end.

(** [get_mime_type(file_extension)]: the dictionary of the known
    extensions, read with [.get(file_extension.lower(), default)]. *)
Definition mime_types : list (string * string) :=
  [(".pdf", "application/pdf");
   (".doc", "application/msword");
   (".docx", "application/vnd.openxmlformats-officedocument.wordprocessingml.document");
   (".png", "image/png");
   (".jpg", "image/jpeg");
   (".jpeg", "image/jpeg");
   (".tiff", "image/tiff");
   (".bmp", "image/bmp")].

Definition get_mime_type (file_extension : string) : string :=
  match find (fun kv => String.eqb (fst kv) (Py.lower file_extension)) mime_types with
  | Some kv => snd kv
  | None => "application/octet-stream"
  end.

(** The file system as [process_client_files_folder] uses it: the entries
    of the folder that are files ([None] when the folder does not exist),
    [Path.mkdir(exist_ok=True)], and [open(path, 'w')] followed by
    [f.write(text)]. *)
Record Folder : Type := {
  listing : option (list string);
  mkdir : string -> Outcome unit;
  write_text : string -> string -> Outcome unit
}.

(** One turn of the loop of [process_client_files_folder]; the state is the
    list of the files written so far, each with its text. *)
Definition save_combined_result (env : Env) (folder : Folder) (file_path : string)
    : Eff.M (list (string * string)) unit :=
  let file_extension := Py.lower (snd (Py.splitext file_path)) in
  if negb (Py.str_in file_extension [".png"; ".pdf"; ".docx"]) then mret tt
  else
    result ← Eff.call (process_file_with_combined_ocr env file_path None);
    Eff.call (mkdir folder "OCR_Results");;
    let output_file := "OCR_Results" +:+ "/" +:+ Py.stem file_path +:+ "_combined.txt" in
    Eff.call (write_text folder output_file result);;
    Eff.modify (fun saved => saved ++ [(output_file, result)]).

Fixpoint save_combined_results (env : Env) (folder : Folder) (files : list string)
    : Eff.M (list (string * string)) unit :=
  match files with
  | [] => mret tt
  | file_path :: rest =>
      save_combined_result env folder file_path;;
      save_combined_results env folder rest
  end.

(** [process_client_files_folder()]. *)
Definition process_client_files_folder (env : Env) (folder : Folder)
    : Eff.M (list (string * string)) unit :=
  match listing folder with
  | None => mret tt
  | Some files =>
      let files := filter (fun f => Py.startswith (Py.basename f) "~$" = false) files in
      match files with
      | [] => mret tt
      | _ => save_combined_results env folder files
      end
  end.

(** *** Vocabulary for the properties of the folder loop *)

(** The text that [process_file_with_combined_ocr] gives for a file. *)
Definition combined_text (env : Env) (file_path : string) : string :=
  match process_file_with_combined_ocr env file_path None with
  | Returns text => text
  | Raises e => e
  end.

(** The files of a listing that the loop sends to OCR, in order. *)
Definition processed (files : list string) : list string :=
  filter (fun f => Py.lower (snd (Py.splitext f)) ∈ [".png"; ".pdf"; ".docx"])
         (filter (fun f => Py.startswith (Py.basename f) "~$" = false) files).

(** The file written for a document, and its text. *)
Definition combined_file (env : Env) (file_path : string) : string * string :=
  ("OCR_Results/" +:+ Py.stem file_path +:+ "_combined.txt", combined_text env file_path).

(** The entries that the loop of [combine_ocr_results] adds to the prompt,
    written as a filter: the method and the text of each string entry that
    starts neither with "Failed" nor with "Error". *)
Definition retained (ocr_results : OcrResults) : list (string * string) :=
  map (fun item => (fst item, text_of (snd item)))
      (filter (fun item => usable (snd item) = true) ocr_results).

(** The extractions of a list of retained entries, one after the other. *)
Definition extractions (entries : list (string * string)) : string :=
  String.concat EmptyString (map (fun e => extraction (fst e) (snd e)) entries).

(** What [combine_ocr_results] returns when no entry is retained: the
    model is still asked, with a prompt that holds no extraction. *)
Definition reply_without_extractions (env : Env) (file_type language : option string)
    : Outcome string :=
  match anthropic_vertex env with
  | Raises e => Returns ("Error combining OCR results with Claude: " +:+ e)
  | Returns _ =>
      match messages_create env (prompt_head file_type language +:+ prompt_tail) with
      | Returns text => Returns text
      | Raises e => Returns ("Error combining OCR results with Claude: " +:+ e)
      end
  end.

End Claude_as_OCR.

(** ** The tabular data the code handles through pandas *)

Module pandas.

(** A cell of a data frame: a string, an integer, the missing value [NaN], or
    a dictionary (the metadata block that [process_single_file] stores next
    to the extracted aspects). Floating-point cells are outside the model. *)
Inductive Cell : Type :=
| CStr (s : string)
| CInt (z : Z)
| CNaN
| CDict (items : list (string * string)).

#[global] Instance Cell_eq_dec : EqDecision Cell.
Proof. solve_decision. Defined.

(** [pd.isna] on a cell. *)
Definition isna (c : Cell) : bool :=
  match c with CNaN => true | _ => false end.

Definition render_item (kv : string * string) : string :=
  "'" +:+ fst kv +:+ "': '" +:+ snd kv +:+ "'".

(** [str(x)], the cast that [astype(str)] applies to each cell (for a
    dictionary, the rendering of keys and values free of quotes). *)
Definition astype_str (c : Cell) : string :=
  match c with
  | CStr s => s
  | CInt z => Py.str_of_Z z
  | CNaN => "nan"
  | CDict items => "{" +:+ String.concat ", " (map render_item items) +:+ "}"
  end.

(** An insertion-ordered [dict] with string keys, as a list of bindings. *)
Definition Dict (V : Type) : Type := list (string * V).

(** [d[k] = v]: an existing key keeps its place, a new key goes last. *)
Fixpoint dict_set {V} (k : string) (v : V) (d : Dict V) : Dict V :=
  match d with
  | [] => [(k, v)]
  | (k', v') :: d' =>
      if String.eqb k' k then (k', v) :: d' else (k', v') :: dict_set k v d'
  end.

Fixpoint dict_get {V} (k : string) (d : Dict V) : option V :=
  match d with
  | [] => None
  | (k', v') :: d' => if String.eqb k' k then Some v' else dict_get k d'
  end.

Definition dict_keys {V} (d : Dict V) : list string := map fst d.

(** A data frame with a default integer index: its column labels in order,
    and its rows; a column a row does not bind holds [NaN] there. *)
Record DataFrame : Type := {
  columns : list string;
  rows : list (gmap string Cell)
}.

(** [pd.DataFrame(columns=cols)]. *)
Definition empty_frame (cols : list string) : DataFrame :=
  {| columns := cols; rows := [] |}.

(** [pd.DataFrame([row])] for a dictionary [row]. *)
Definition frame_of_row (row : Dict Cell) : DataFrame :=
  {| columns := dict_keys row; rows := [list_to_map row] |}.

(** The cell of a row under a column label. *)
Definition cell (r : gmap string Cell) (col : string) : Cell :=
  default CNaN (r !! col).

(** [df[col].astype(str).tolist()]. *)
Definition column_as_str (df : DataFrame) (col : string) : list string :=
  map (fun r => astype_str (cell r col)) (rows df).

(** [col in df.columns]. *)
Definition has_column (df : DataFrame) (col : string) : bool :=
  Py.str_in col (columns df).

(** [pd.concat([a, b], ignore_index=True)]: the rows of [a] then those of
    [b]; the columns of [a], then those of [b] that [a] lacks. *)
Definition concat (a b : DataFrame) : DataFrame :=
  {| columns := columns a ++ filter (fun c => Py.str_in c (columns a) = false) (columns b);
     rows := rows a ++ rows b |}.

(** The workbook file at a path: missing, holding the sheets that a writer
    saved (each sheet as the frame that was handed to [to_excel]), or left
    unreadable by a writer that raised. *)
Inductive Store : Type :=
| Missing
| Saved (sheets : gmap string DataFrame)
| Damaged.

(** pandas and openpyxl on a workbook file, where the code does not
    determine what they do:
    - [read_excel sheets] is what [pd.ExcelFile] and [pd.read_excel] give
      for a file that holds [sheets] (the cells are typed anew when they
      are read: a column of digit strings comes back as integers), or the
      exception they raise;
    - [setitem df idx key value] tells whether [df.at[idx, key] = value]
      raises (pandas 3 refuses a value that the dtype of the column cannot
      hold, earlier versions change the dtype);
    - [to_excel before sheets] is [None] when the writer saves [sheets]
      over the file [before], and the file it leaves when it raises;
    - [save_workbook before names] is the same for the [wb.save] of a
      workbook of empty sheets. *)
Record Excel : Type := {
  read_excel : gmap string DataFrame -> Outcome (gmap string DataFrame);
  setitem : DataFrame -> nat -> string -> Cell -> Outcome unit;
  to_excel : Store -> gmap string DataFrame -> option Store;
  save_workbook : Store -> list string -> option Store
}.

(** [df.at[idx, key] = value]: when the assignment does not raise, the cell
    holds the value and every other cell holds what it held. *)
Definition set_at (xl : Excel) (df : DataFrame) (idx : nat) (key : string) (value : Cell)
    : Outcome DataFrame :=
  _ ← setitem xl df idx key value;
  mret {| columns := columns df;
          rows := alter (fun r => <[key := value]> r) idx (rows df) |}.

(** [with pd.ExcelFile(path) as xls: for name in xls.sheet_names:
     existing_data[name] = pd.read_excel(xls, sheet_name=name)]. *)
Definition read_sheets (xl : Excel) (store : Store) : Outcome (gmap string DataFrame) :=
  match store with
  | Saved sheets => read_excel xl sheets
  | Damaged => Raises "File is not a zip file"
  | Missing => Raises "No such file or directory"
  end.

(** [with pd.ExcelWriter(path, engine='openpyxl') as writer:
     for name, df in sheets.items(): df.to_excel(writer, sheet_name=name,
     index=False)]: whether the block ended without an exception, and the
    file afterwards. A workbook without a sheet cannot be saved. *)
Definition write_sheets (xl : Excel) (store : Store) (sheets : gmap string DataFrame)
    : bool * Store :=
  match map_to_list sheets with
  | [] => (false, Damaged)
  | _ =>
      match to_excel xl store sheets with
      | None => (true, Saved sheets)
      | Some store' => (false, store')
      end
  end.

(** [df.index[df[col].astype(str) == key].tolist()], the positions of the
    rows whose cell under [col] reads [key]. *)
Fixpoint positions_from (i : nat) (key : string) (l : list string) : list nat :=
  match l with
  | [] => []
  | s :: l' =>
      if String.eqb s key then i :: positions_from (S i) key l'
      else positions_from (S i) key l'
  end.

Definition matching_index (df : DataFrame) (col key : string) : list nat :=
  positions_from 0 key (column_as_str df col).

End pandas.

(** ** excel_to_concepts.py *)

Module excel_to_concepts.
Import pandas.

(** A sheet parsed with [header=None]: its rows of cells, read as a
    rectangle as wide as the widest row (short rows end in [NaN]). *)
Definition Sheet : Type := list (list Cell).

(** The workbook behind [pd.ExcelFile]: its sheets in order, each with what
    [xls.parse(sheet, header=None)] does. Sheet names are unique. *)
Definition Workbook : Type := list (string * Outcome Sheet).

(** The identifier of a concept: an integer after [astype(int)], or the
    cell as it is when the cast raised. *)
Inductive Id : Type :=
| IdInt (z : Z)
| IdRaw (c : Cell).

(** [{"id": ..., "value": ...}]. *)
Record Concept : Type := {
  concept_id : Id;
  concept_value : string
}.

Definition ConceptMapping : Type := Dict (list Concept).

Section Parsing.

(** [int(s)] on a string: the integer it denotes, or [None] when it raises. *)
Variable py_int : string -> option Z.

(** [df.shape[1]]. *)
Definition width (df : Sheet) : nat :=
  fold_right (fun r w => Nat.max (length r) w) 0%nat df.

(** [df.dropna(how='all').reset_index(drop=True)]. *)
Definition dropna_all (df : Sheet) : Sheet :=
  filter (fun r => existsb (fun c => negb (isna c)) r = true) df.

(** [data.iloc[:, j]]. *)
Definition iloc_col (j : nat) (data : Sheet) : list Cell :=
  map (fun r => nth j r CNaN) data.

(** [int(x)] on a cell. *)
Definition int_of_cell (c : Cell) : option Z :=
  match c with
  | CInt z => Some z
  | CStr s => py_int s
  | CNaN => None
  | CDict _ => None
  end.

(** [raw_ids.astype(int).tolist()], or [raw_ids.tolist()] when that raises. *)
Definition cast_ids (raw_ids : list Cell) : list Id :=
  match mapM int_of_cell raw_ids with
  | Some zs => map IdInt zs
  | None => map IdRaw raw_ids
  end.

(** [raw_vals.dropna().astype(str).str.strip().tolist()]. *)
Definition clean_vals (raw_vals : list Cell) : list string :=
  map (fun c => Py.strip (astype_str c)) (filter (fun c => isna c = false) raw_vals).

(** The pairs of one sheet that has at least two rows left. *)
Definition sheet_pairs (w : nat) (df : Sheet) : list Concept :=
  let data := tail df in
  let raw :=
    if (2 <=? w)%nat
    then (iloc_col 0 data, iloc_col 1 data)
    else (map (fun i => CInt (Z.of_nat i)) (seq 0 (length data)), iloc_col 0 data) in
  let ids := cast_ids (fst raw) in
  let vals := clean_vals (snd raw) in
  zip_with (fun i v => {| concept_id := i; concept_value := v |}) ids vals.

(** One turn of the loop over [xls.sheet_names]. *)
Definition parse_sheet (mapping : ConceptMapping) (entry : string * Outcome Sheet)
    : Outcome ConceptMapping :=
  parsed ← snd entry;
  let df := dropna_all parsed in
  if (length df <? 2)%nat then mret mapping
  else mret (dict_set (fst entry) (sheet_pairs (width parsed) df) mapping).

(** One turn of the loop for a sheet that [xls.parse] returned. *)
Definition keep_sheet (mapping : ConceptMapping) (entry : string * Sheet)
    : ConceptMapping :=
  if (length (dropna_all (snd entry)) <? 2)%nat then mapping
  else dict_set (fst entry)
                (sheet_pairs (width (snd entry)) (dropna_all (snd entry))) mapping.

Fixpoint parse_sheets (mapping : ConceptMapping) (sheets : Workbook)
    : Outcome ConceptMapping :=
  match sheets with
  | [] => mret mapping
  | entry :: sheets' =>
      mapping' ← parse_sheet mapping entry;
      parse_sheets mapping' sheets'
  end.

(** [if values] on a list. *)
Definition nonempty {A} (l : list A) : bool :=
  match l with [] => false | _ => true end.

Definition excel_to_concept_mapping_try (xls : Outcome Workbook) : Outcome ConceptMapping :=
  sheets ← xls;
  mapping ← parse_sheets [] sheets;
  mret (filter (fun kv => nonempty (snd kv) = true) mapping).

(** [excel_to_concept_mapping(xlsx_path)], where [xls] is what opening the
    file at [xlsx_path] gives. *)
Definition excel_to_concept_mapping (xls : Outcome Workbook) : ConceptMapping :=
  match excel_to_concept_mapping_try xls with
  | Returns mapping => mapping
  | Raises _ => []
  end.

End Parsing.

(** [create_empty_workbook(sheet_names, output_path)]: the returned flag
    and the file afterwards. *)
Definition create_empty_workbook (xl : Excel) (sheet_names : list string) (store : Store)
    : bool * Store :=
  match sheet_names with
  | [] => (false, Damaged)
  | _ =>
      match save_workbook xl store sheet_names with
      | None =>
          (true, Saved (list_to_map (map (fun name => (name, empty_frame [])) sheet_names)))
      | Some store' => (false, store')
      end
  end.

(** A workbook all of whose sheets parse. *)
Definition readable (book : list (string * Sheet)) : Outcome Workbook :=
  Returns (map (fun entry => (fst entry, Returns (snd entry))) book).

(** The rows of a sheet below its header, blank rows left out. *)
Definition data_rows (sheet : Sheet) : Sheet := tail (dropna_all sheet).

(** The cells that hold the concept labels of a sheet: the second column of
    its data rows, or the only column of a sheet that has just one. *)
Definition value_cells (sheet : Sheet) : list Cell :=
  iloc_col (if (2 <=? width sheet)%nat then 1 else 0) (data_rows sheet).

(** The labels among them that are not blank. *)
Definition labels (sheet : Sheet) : list Cell :=
  filter (fun c => isna c = false) (value_cells sheet).

(** The cells that hold the identifiers of a sheet: the first column of its
    data rows, or the positions of the rows for a sheet that has just one
    column. *)
Definition id_cells (sheet : Sheet) : list Cell :=
  if (2 <=? width sheet)%nat then iloc_col 0 (data_rows sheet)
  else map (fun i => CInt (Z.of_nat i)) (seq 0 (length (data_rows sheet))).

End excel_to_concepts.

(** ** Process_files.py *)

Module Process_files.
Import pandas excel_to_concepts.

(** [extract_file_id(filename)]: group 1 of [re.search(r'(\d+)', filename)]. *)
Definition extract_file_id (filename : string) : option string :=
  Py.search_digits filename.

(** The dictionary [{"id": ..., "data": ..., "file_type": ...}] that
    [process_single_file] returns and [update_excel_with_json_data] reads. *)
Record JsonData : Type := {
  file_id : string;
  extracted_data : gmap string Cell;
  file_type : string
}.

(** The collaborators of [process_single_file]. *)
Record Env : Type := {
  ocr_env : Claude_as_OCR.Env;
  extract_aspects_with_claude : string -> list string -> string -> Outcome (gmap string Cell);
  now : string;
  mkdir : string -> Outcome unit;
  dump_json : string -> gmap string Cell -> Outcome unit
}.

(** What [process_single_file] does to the outside world. *)
Inductive Event : Type :=
| OcrCalled (file_path : string)
| AspectsRequested (ocr_text : string) (concepts : list string) (document_type : string)
| JsonWritten (json_path : string) (data : gmap string Cell).

Definition log (e : Event) : Eff.M (list Event) unit :=
  Eff.modify (fun trace => trace ++ [e]).

(** The extensions that [process_single_file] accepts. *)
Definition supported_extensions : list string := [".png"; ".pdf"; ".docx"].

(** The loop that collects the concept values of all sheets, each once. *)
Definition add_concept_value (all_concept_values : list string) (concept : Concept)
    : list string :=
  if Py.str_in (concept_value concept) all_concept_values
  then all_concept_values
  else all_concept_values ++ [concept_value concept].

Definition collect_concept_values (concept_mapping : ConceptMapping) : list string :=
  fold_left (fun acc sheet => fold_left add_concept_value (snd sheet) acc)
            concept_mapping [].

Definition metadata_key : string := "מטא-נתונים".

Definition metadata (file_name file_extension timestamp : string) : Cell :=
  CDict [("שם_קובץ", file_name);
         ("סוג_קובץ", Py.drop 1 file_extension);
         ("תאריך_עיבוד", timestamp)].

(** The body of the [try] block of [process_single_file]. *)
Definition process_single_file_try (env : Env) (file_path : string)
    (concept_mapping : ConceptMapping) (output_dir : string)
    : Eff.M (list Event) (option JsonData) :=
  let file_name := Py.basename file_path in
  let file_id := extract_file_id file_name in
  let file_extension := Py.lower (snd (Py.splitext file_path)) in
  if negb (Py.str_in file_extension supported_extensions) then mret None
  else if negb (Py.truthy_opt file_id) then mret None
  else
    log (OcrCalled file_path);;
    ocr_text ← Eff.call (Claude_as_OCR.process_file_with_combined_ocr (ocr_env env) file_path None);
    let all_concept_values := collect_concept_values concept_mapping in
    log (AspectsRequested ocr_text all_concept_values (Py.drop 1 file_extension));;
    extracted ← Eff.call (extract_aspects_with_claude env ocr_text all_concept_values
                                                      (Py.drop 1 file_extension));
    let extracted := <[metadata_key := metadata file_name file_extension (now env)]> extracted in
    Eff.call (mkdir env output_dir);;
    let json_path := output_dir +:+ "/" +:+ Py.stem file_path +:+ "_aspects.json" in
    Eff.call (dump_json env json_path extracted);;
    log (JsonWritten json_path extracted);;
    mret (Some {| file_id := default EmptyString file_id;
                  extracted_data := extracted;
                  file_type := Py.drop 1 file_extension |}).

Definition process_single_file (env : Env) (file_path : string)
    (concept_mapping : ConceptMapping) (output_dir : string)
    : Eff.M (list Event) (option JsonData) :=
  Eff.try_except (process_single_file_try env file_path concept_mapping output_dir)
                 (fun _ => mret None).

(** *** The store and [update_excel_with_json_data] *)

(** The row built for one sheet: the two identity columns, then one entry
    per concept of the sheet. *)
Definition add_concept (data : gmap string Cell) (row : Dict Cell) (concept : Concept)
    : Dict Cell :=
  match data !! concept_value concept with
  | Some v => dict_set (concept_value concept) v row
  | None => dict_set (concept_value concept) (CStr "Not found") row
  end.

Definition make_row (json_data : JsonData) (concepts : list Concept) : Dict Cell :=
  fold_left (add_concept (extracted_data json_data)) concepts
            [("ID", CStr (file_id json_data)); ("File Type", CStr (file_type json_data))].

(** The loop [for key, value in row.items()] of the update of a found row;
    an assignment that raises ends it. *)
Definition overwrite_cell (xl : Excel) (idx : nat) (df : DataFrame) (item : string * Cell)
    : Outcome DataFrame :=
  if has_column df (fst item) then set_at xl df idx (fst item) (snd item) else mret df.

Fixpoint overwrite_row (xl : Excel) (df : DataFrame) (idx : nat) (row : Dict Cell)
    : Outcome DataFrame :=
  match row with
  | [] => mret df
  | item :: rest =>
      df' ← overwrite_cell xl idx df item;
      overwrite_row xl df' idx rest
  end.

(** What one turn of the loop over the sheets does to the frame of its sheet. *)
Definition upsert_sheet (xl : Excel) (json_data : JsonData) (concepts : list Concept)
    (df : DataFrame) : Outcome DataFrame :=
  let row := make_row json_data concepts in
  if has_column df "ID" then
    let existing_ids := column_as_str df "ID" in
    if Py.str_in (file_id json_data) existing_ids then
      match matching_index df "ID" (file_id json_data) with
      | idx :: _ => overwrite_row xl df idx row
      | [] => Raises "list index out of range"
      end
    else Returns (concat df (frame_of_row row))
  else Returns (concat df (frame_of_row row)).

(** One turn of the loop over [concept_mapping.items()] when the file exists. *)
Definition update_sheet (xl : Excel) (json_data : JsonData)
    (existing_data : gmap string DataFrame) (sheet : string * list Concept)
    : Outcome (gmap string DataFrame) :=
  let df := default (empty_frame ["ID"; "File Type"]) (existing_data !! fst sheet) in
  df' ← upsert_sheet xl json_data (snd sheet) df;
  mret (<[fst sheet := df']> existing_data).

Fixpoint update_sheets (xl : Excel) (json_data : JsonData)
    (existing_data : gmap string DataFrame) (concept_mapping : ConceptMapping)
    : Outcome (gmap string DataFrame) :=
  match concept_mapping with
  | [] => mret existing_data
  | sheet :: rest =>
      existing_data' ← update_sheet xl json_data existing_data sheet;
      update_sheets xl json_data existing_data' rest
  end.

(** The loop over [concept_mapping.items()] when the file does not exist. *)
Definition new_sheets (json_data : JsonData) (concept_mapping : ConceptMapping)
    : gmap string DataFrame :=
  fold_left (fun sheet_data sheet =>
               <[fst sheet := frame_of_row (make_row json_data (snd sheet))]> sheet_data)
            concept_mapping ∅.

(** [update_excel_with_json_data(json_data, concept_mapping, path)]: the
    returned flag and the file at [path] afterwards. Whatever raises before
    the writer is opened leaves the file as it was. *)
Definition update_excel_with_json_data (xl : Excel) (json_data : JsonData)
    (concept_mapping : ConceptMapping) (store : Store) : bool * Store :=
  match store with
  | Missing =>
      let store := snd (create_empty_workbook xl (dict_keys concept_mapping) store) in
      write_sheets xl store (new_sheets json_data concept_mapping)
  | _ =>
      match existing_data ← read_sheets xl store;
            update_sheets xl json_data existing_data concept_mapping with
      | Returns existing_data => write_sheets xl store existing_data
      | Raises _ => (false, store)
      end
  end.

(** One turn of the loop of [process_client_files] (and the single-file
    branch of [main]): the file is processed, and the store updated when a
    result came back. *)
Definition process_and_store (xl : Excel) (env : Env) (concept_mapping : ConceptMapping)
    (output_dir : string) (acc : nat * Store * list Event) (file_path : string)
    : nat * Store * list Event :=
  let '(successful_files, store, trace) := acc in
  match process_single_file env file_path concept_mapping output_dir trace with
  | (Returns (Some json_data), trace') =>
      let '(ok, store') :=
        update_excel_with_json_data xl json_data concept_mapping store in
      ((if ok then S successful_files else successful_files), store', trace')
  | (_, trace') => (successful_files, store, trace')
  end.

(** The loop of [process_client_files] over the files of the directory
    (lock files, whose names start with [~$], are left out). *)
Definition process_client_files (xl : Excel) (env : Env) (concept_mapping : ConceptMapping)
    (output_dir : string) (files : list string) (store : Store)
    : nat * Store * list Event :=
  let files := filter (fun f => Py.startswith (Py.basename f) "~$" = false) files in
  fold_left (process_and_store xl env concept_mapping output_dir) files (0%nat, store, []).

(** *** Vocabulary for the properties of the store *)

(** The identifiers of a sheet, as the code compares them with [file_id]. *)
Definition ids (df : DataFrame) : list string := column_as_str df "ID".

(** The number of rows of a sheet whose identifier reads [id]. *)
Definition rows_with_id (df : DataFrame) (id : string) : nat :=
  length (filter (fun s => s = id) (ids df)).

(** What the loop over a dictionary [row] writes into a row [r] of a sheet
    whose columns are [cols]. *)
Definition written (cols : list string) (row : Dict Cell) (r : gmap string Cell)
    : gmap string Cell :=
  fold_left (fun r item => if Py.str_in (fst item) cols then <[fst item := snd item]> r else r)
            row r.

(** A sheet has the identity column and no two rows with the same identifier. *)
Definition well_keyed (df : DataFrame) : Prop :=
  has_column df "ID" = true /\ NoDup (ids df).

(** Every sheet of a workbook is well keyed. *)
Definition store_keyed (m : gmap string DataFrame) : Prop :=
  forall sheet df, m !! sheet = Some df -> well_keyed df.

(** The workbook has a row for the identifier [id] in the sheet [sheet]. *)
Definition holds (m : gmap string DataFrame) (sheet id : string) : Prop :=
  exists df, m !! sheet = Some df /\ id ∈ ids df.

(** A workbook just made for one document: every sheet has the identity
    column and the one row of the document. *)
Definition fresh_for (id : string) (m : gmap string DataFrame) : Prop :=
  forall s df, m !! s = Some df -> has_column df "ID" = true /\ ids df = [id].

(** No concept of the mapping is labelled like the identity column. *)
Definition no_ID_concept (concept_mapping : ConceptMapping) : Prop :=
  forall sheet concepts concept,
    (sheet, concepts) ∈ concept_mapping -> concept ∈ concepts ->
    concept_value concept <> "ID".

(** A run of calls of [update_excel_with_json_data] on the same path, each
    with its document and the concept mapping of its batch. *)
Definition upserts (xl : Excel) (calls : list (JsonData * ConceptMapping)) (store : Store)
    : Store :=
  fold_left (fun st call => snd (update_excel_with_json_data xl (fst call) (snd call) st))
            calls store.

(** The sheets that the file holds, as they were saved. *)
Definition saved_sheets (store : Store) : option (gmap string DataFrame) :=
  match store with
  | Saved sheets => Some sheets
  | _ => None
  end.

(** The frame that the update of a sheet starts from: the sheet as it was
    read, or an empty sheet with the identity columns when the file has no
    such sheet (or when there is no file to read). *)
Definition sheet_as_read (xl : Excel) (store : Store) (sheet : string) : DataFrame :=
  match read_sheets xl store with
  | Returns existing_data =>
      default (empty_frame ["ID"; "File Type"]) (existing_data !! sheet)
  | Raises _ => empty_frame ["ID"; "File Type"]
  end.

(** What the loop over the sheets leaves of a frame [df] whose row [idx]
    was found: the row is overwritten, nothing else changes. *)
Definition overwritten (df : DataFrame) (idx : nat) (row : Dict Cell) : DataFrame :=
  {| columns := columns df;
     rows := alter (written (columns df) row) idx (rows df) |}.



(** The cell stored for a concept label: the extracted value, or the text
    "Not found" when the extraction has no entry for the label. *)
Definition aspect (data : gmap string Cell) (label : string) : Cell :=
  default (CStr "Not found") (data !! label).

(** *** Vocabulary for the properties of the batch *)

(** The event is the writing of a JSON file. *)
Definition json_written (e : Event) : bool :=
  match e with JsonWritten _ _ => true | _ => false end.

(** The number of JSON files written in a trace. *)
Definition written_count (trace : list Event) : nat :=
  length (filter (fun e => json_written e = true) trace).

(** The files that were sent to OCR in a trace. *)
Definition ocr_paths (trace : list Event) : list string :=
  omap (fun e => match e with OcrCalled p => Some p | _ => None end) trace.

(** The path of the JSON file of a document. *)
Definition json_path_of (output_dir file_path : string) : string :=
  output_dir +:+ "/" +:+ Py.stem file_path +:+ "_aspects.json".

(** The file is one that [process_single_file] sends to OCR. *)
Definition eligible (file_path : string) : Prop :=
  Py.lower (snd (Py.splitext file_path)) ∈ [".png"; ".pdf"; ".docx"] /\
  is_Some (extract_file_id (Py.basename file_path)).

End Process_files.

(** ** debug_OCR_THROW_PNG.py *)

Module debug_OCR_THROW_PNG.

(** A file: one the user supplied, or the [n]-th file made by
    [tempfile.NamedTemporaryFile(suffix=..., delete=False)]. *)
Inductive Path : Type :=
| UserFile (name : string)
| TempFile (n : nat) (suffix : string).

#[global] Instance Path_eq_dec : EqDecision Path.
Proof. solve_decision. Defined.

Inductive Strategy : Type :=
| Pdf2image
| PyMuPDF
| ImageMagick.

#[global] Instance Strategy_eq_dec : EqDecision Strategy.
Proof. solve_decision. Defined.

(** The calls to the renderers, with the page they ask for, and the
    messages printed when a strategy of [convert_pdf_to_png] ends. *)
Inductive Event : Type :=
| ConvertFromPath (pdf : Path) (first_page last_page dpi : nat) (poppler_path : option string)
| FitzGetPixmap (pdf : Path) (page_index zoom : nat)
| MagickConvert (pdf : Path) (page_index density : nat) (out : Path)
| Converted (s : Strategy) (png : Path)
| NotConverted (s : Strategy).

(** The world the conversions act on: the files on disk (the user's and the
    temporary ones), the number of temporary files made so far, and the
    events so far. *)
Record World : Type := {
  files : list Path;
  made : nat;
  events : list Event
}.

(** The collaborators: imports, renderers, Word automation, text
    extraction and file removal; each returns or raises. *)
Record Env : Type := {
  platform_system : string;
  script_dir : string;
  path_exists : string -> bool;
  import_pdf2image : Outcome unit;
  convert_from_path : Path -> option string -> Outcome nat;
  image_save : Path -> Outcome unit;
  import_fitz : Outcome unit;
  fitz_open : Path -> Outcome nat;
  get_pixmap : Path -> Outcome unit;
  pix_save : Path -> Outcome unit;
  run_magick : Path -> Path -> Outcome unit;
  import_win32com : Outcome unit;
  word_dispatch : Outcome unit;
  word_open : Path -> Outcome unit;
  word_save_as : Path -> Path -> nat -> Outcome unit;
  word_close : Outcome unit;
  word_quit : Outcome unit;
  docx_text : Path -> Outcome string;
  antiword : Path -> Outcome string;
  catdoc : Path -> Outcome string;
  import_reportlab : Outcome unit;
  build_pdf : string -> Path -> Outcome unit;
  import_PIL : Outcome unit;
  draw_text : string -> Outcome unit;
  text_image_save : Path -> Outcome unit;
  os_remove : Path -> Outcome unit;
  claude_ocr : Path -> string
}.

Abbreviation M := (Eff.M World).

Definition log (e : Event) : M unit :=
  Eff.modify (fun w => {| files := files w; made := made w;
                          events := events w ++ [e] |}).

(** [with tempfile.NamedTemporaryFile(suffix=s, delete=False) as f:
     path = f.name]: a new, empty file that stays on disk. *)
Definition named_temporary_file (suffix : string) : M Path :=
  fun w =>
    let p := TempFile (made w) suffix in
    (Returns p, {| files := files w ++ [p]; made := S (made w);
                   events := events w |}).

Definition unlink (p : Path) : M unit :=
  Eff.modify (fun w => {| files := filter (fun q => q ≠ p) (files w);
                          made := made w; events := events w |}).

(** [os.remove(p)]: the file is gone when the call returns. *)
Definition remove (env : Env) (p : Path) : M unit :=
  Eff.call (os_remove env p);; unlink p.

(** [os.path.exists(p)]. *)
Definition exists_file (p : Path) : M bool :=
  fun w => (Returns (bool_decide (p ∈ files w)), w).

Definition join (a b : string) : string := a +:+ "/" +:+ b.

(** [get_poppler_path()]. *)
Definition get_poppler_path (env : Env) : option string :=
  if String.eqb (platform_system env) "Windows" then
    let p1 := join (join (join (script_dir env) "poppler") "Library") "bin" in
    if path_exists env p1 then Some p1 else
    let p2 := join (join (script_dir env) "poppler") "bin" in
    if path_exists env p2 then Some p2 else
    find (fun p => path_exists env p)
         ["C:\Program Files\poppler\bin"; "C:\Program Files (x86)\poppler\bin"; "C:\poppler\bin"]
  else None.

(** [convert_pdf_to_png_with_pymupdf(pdf_path)]. *)
Definition convert_pdf_to_png_with_pymupdf (env : Env) (pdf_path : Path) : M (option Path) :=
  Eff.try_except
    (Eff.call (import_fitz env);;
     page_count ← Eff.call (fitz_open env pdf_path);
     if (page_count =? 0)%nat then
       log (NotConverted PyMuPDF);; mret None
     else
       log (FitzGetPixmap pdf_path 0 3);;
       Eff.call (get_pixmap env pdf_path);;
       temp_path ← named_temporary_file ".png";
       Eff.call (pix_save env temp_path);;
       log (Converted PyMuPDF temp_path);;
       mret (Some temp_path))
    (fun _ => log (NotConverted PyMuPDF);; mret None).

(** The first [try] block of [convert_pdf_to_png]: [Some] is its [return],
    [None] the fall through to the next method. *)
Definition convert_with_pdf2image (env : Env) (pdf_path : Path) : M (option Path) :=
  Eff.try_except
    (Eff.call (import_pdf2image env);;
     let poppler_path := get_poppler_path env in
     let poppler_arg := if Py.truthy_opt poppler_path then poppler_path else None in
     log (ConvertFromPath pdf_path 1 1 300 poppler_arg);;
     images ← Eff.call (convert_from_path env pdf_path poppler_arg);
     if (0 <? images)%nat then
       temp_path ← named_temporary_file ".png";
       Eff.call (image_save env temp_path);;
       log (Converted Pdf2image temp_path);;
       mret (Some temp_path)
     else
       log (NotConverted Pdf2image);; mret None)
    (fun _ => log (NotConverted Pdf2image);; mret None).

(** The last [try] block of [convert_pdf_to_png]. *)
Definition convert_with_imagemagick (env : Env) (pdf_path : Path) : M (option Path) :=
  Eff.try_except
    (temp_path ← named_temporary_file ".png";
     log (MagickConvert pdf_path 0 300 temp_path);;
     Eff.call (run_magick env pdf_path temp_path);;
     log (Converted ImageMagick temp_path);;
     mret (Some temp_path))
    (fun _ => log (NotConverted ImageMagick);; mret None).

(** [convert_pdf_to_png(pdf_path)]. *)
Definition convert_pdf_to_png (env : Env) (pdf_path : Path) : M (option Path) :=
  r1 ← convert_with_pdf2image env pdf_path;
  match r1 with
  | Some temp_path => mret (Some temp_path)
  | None =>
      png_path ← convert_pdf_to_png_with_pymupdf env pdf_path;
      match png_path with
      | Some p => mret (Some p)
      | None => convert_with_imagemagick env pdf_path
      end
  end.

(** [create_text_image(text)]. *)
Definition create_text_image (env : Env) (text : string) : M (option Path) :=
  Eff.try_except
    (Eff.call (import_PIL env);;
     Eff.call (draw_text env text);;
     temp_path ← named_temporary_file ".png";
     Eff.call (text_image_save env temp_path);;
     mret (Some temp_path))
    (fun _ => mret None).

(** [extract_text_from_docx(docx_path)]. *)
Definition extract_text_from_docx (env : Env) (docx_path : Path) : M string :=
  Eff.try_except
    (Eff.call (docx_text env docx_path))
    (fun _ => mret "Error extracting text from document.").

(** [create_pdf_from_text(text)]. *)
Definition create_pdf_from_text (env : Env) (text : string) : M (option Path) :=
  Eff.try_except
    (Eff.call (import_reportlab env);;
     temp_pdf_path ← named_temporary_file ".pdf";
     Eff.call (build_pdf env text temp_pdf_path);;
     mret (Some temp_pdf_path))
    (fun _ => mret None).

(** The control flow of a method of a conversion function: it makes the
    function [return] a value, or falls through to the next method. *)
Inductive Flow : Type :=
| Return (png_path : option Path)
| FallThrough.

Definition return_if_some (png_path : option Path) : Flow :=
  match png_path with
  | Some p => Return (Some p)
  | None => FallThrough
  end.

(** Method 1 of [convert_docx_to_png] and of [convert_doc_to_png]: Word
    saves the document as a PDF, which goes through the PDF cascade. *)
Definition convert_with_word_to_pdf (env : Env) (doc_path : Path) : M Flow :=
  Eff.try_except
    (Eff.call (import_win32com env);;
     temp_pdf_path ← named_temporary_file ".pdf";
     Eff.call (word_dispatch env);;
     Eff.try_finally
       (Eff.call (word_open env doc_path);;
        Eff.call (word_save_as env doc_path temp_pdf_path 17);;
        Eff.call (word_close env);;
        png_path ← convert_pdf_to_png env temp_pdf_path;
        Eff.attempt (remove env temp_pdf_path);;
        mret (return_if_some png_path))
       (Eff.attempt (Eff.call (word_quit env))))
    (fun _ => mret FallThrough).

(** The last method of both functions, after the text was extracted: a PDF
    made from the text goes through the PDF cascade, and the text is drawn
    on an image when that gives nothing. *)
Definition convert_text (env : Env) (text : string) : M Flow :=
  if Py.truthy text then
    pdf_path ← create_pdf_from_text env text;
    flow ← match pdf_path with
           | Some pdf =>
               png_path ← convert_pdf_to_png env pdf;
               Eff.attempt (remove env pdf);;
               mret (return_if_some png_path)
           | None => mret FallThrough
           end;
    match flow with
    | Return r => mret (Return r)
    | FallThrough => r ← create_text_image env text; mret (Return r)
    end
  else mret FallThrough.

(** [convert_docx_to_png(docx_path)]. *)
Definition convert_docx_to_png (env : Env) (docx_path : Path) : M (option Path) :=
  flow1 ← convert_with_word_to_pdf env docx_path;
  match flow1 with
  | Return r => mret r
  | FallThrough =>
      flow2 ← Eff.try_except
                (text ← extract_text_from_docx env docx_path;
                 convert_text env text)
                (fun _ => mret FallThrough);
      match flow2 with
      | Return r => mret r
      | FallThrough => mret None
      end
  end.

(** [extract_text_from_doc(doc_path)]. *)
Definition extract_text_from_doc (env : Env) (doc_path : Path) : M string :=
  fun w =>
    match antiword env doc_path with
    | Returns out => (Returns out, w)
    | Raises _ =>
        match catdoc env doc_path with
        | Returns out => (Returns out, w)
        | Raises _ =>
            (Returns "Could not extract text from DOC file. Please convert to DOCX or PDF.", w)
        end
    end.

(** Method 2 of [convert_doc_to_png]: Word saves the document as a DOCX,
    which goes through [convert_docx_to_png]. *)
Definition convert_with_word_to_docx (env : Env) (doc_path : Path) : M Flow :=
  Eff.try_except
    (Eff.call (import_win32com env);;
     temp_docx_path ← named_temporary_file ".docx";
     Eff.call (word_dispatch env);;
     Eff.try_finally
       (Eff.call (word_open env doc_path);;
        Eff.call (word_save_as env doc_path temp_docx_path 16);;
        Eff.call (word_close env);;
        png_path ← convert_docx_to_png env temp_docx_path;
        Eff.attempt (remove env temp_docx_path);;
        mret (return_if_some png_path))
       (Eff.attempt (Eff.call (word_quit env))))
    (fun _ => mret FallThrough).

(** [convert_doc_to_png(doc_path)]. *)
Definition convert_doc_to_png (env : Env) (doc_path : Path) : M (option Path) :=
  flow1 ← convert_with_word_to_pdf env doc_path;
  match flow1 with
  | Return r => mret r
  | FallThrough =>
      flow2 ← convert_with_word_to_docx env doc_path;
      match flow2 with
      | Return r => mret r
      | FallThrough =>
          flow3 ← Eff.try_except
                    (text ← extract_text_from_doc env doc_path;
                     convert_text env text)
                    (fun _ => mret FallThrough);
          match flow3 with
          | Return r => mret r
          | FallThrough => mret None
          end
      end
  end.

Definition path_name (p : Path) : string :=
  match p with
  | UserFile name => name
  | TempFile n suffix => "tmp" +:+ Py.str_of_Z (Z.of_nat n) +:+ suffix
  end.

(** What [convert_file_to_png] returns for a file it could convert: the
    name of a temporary file, a [str], or, for an image, the very
    [pathlib.Path] object it was given. *)
Inductive Converted_path : Type :=
| Name (p : Path)
| PathObject (p : Path).

Definition file_of (c : Converted_path) : Path :=
  match c with
  | Name p => p
  | PathObject p => p
  end.

(** [convert_file_to_png(file_path)]. *)
Definition convert_file_to_png (env : Env) (file_path : Path) : M (option Converted_path) :=
  let file_extension := Py.lower (snd (Py.splitext (path_name file_path))) in
  if String.eqb file_extension ".pdf" then
    r ← convert_pdf_to_png env file_path; mret (Name <$> r)
  else if String.eqb file_extension ".docx" then
    r ← convert_docx_to_png env file_path; mret (Name <$> r)
  else if String.eqb file_extension ".doc" then
    r ← convert_doc_to_png env file_path; mret (Name <$> r)
  else if Py.str_in file_extension [".png"; ".jpg"; ".jpeg"; ".gif"; ".webp"]
       then mret (Some (PathObject file_path))
  else mret None.

(** [png_path != str(file_path)]: a [pathlib.Path] object never equals a
    [str], two names are compared as such. *)
Definition differs_from_str (png_path : Converted_path) (file_path : Path) : bool :=
  match png_path with
  | Name p => bool_decide (p ≠ file_path)
  | PathObject _ => true
  end.

(** One turn of the loop of [process_client_files_folder]: conversion, OCR
    on the image, then removal of the image file. *)
Definition process_file (env : Env) (file_path : Path) : M (option string) :=
  png_path ← convert_file_to_png env file_path;
  match png_path with
  | Some png =>
      let text := claude_ocr env (file_of png) in
      present ← exists_file (file_of png);
      (if differs_from_str png file_path && present
       then Eff.attempt (remove env (file_of png))
       else mret tt);;
      mret (Some text)
  | None => mret None
  end.

(** *** Vocabulary for the properties of the cascade *)

(** How a strategy ended, read off the message it printed. *)
Definition outcome_of (e : Event) : option (Strategy * option Path) :=
  match e with
  | Converted s png => Some (s, Some png)
  | NotConverted s => Some (s, None)
  | _ => None
  end.

(** The strategies that ran, in order, each with the image it gave. *)
Definition outcomes (evs : list Event) : list (Strategy * option Path) :=
  omap outcome_of evs.

(** A call to a renderer asks for the first page and no other. *)
Definition first_page_only (e : Event) : bool :=
  match e with
  | ConvertFromPath _ first_page last_page _ _ => (first_page =? 1)%nat && (last_page =? 1)%nat
  | FitzGetPixmap _ page_index _ => (page_index =? 0)%nat
  | MagickConvert _ page_index _ _ => (page_index =? 0)%nat
  | _ => true
  end.

(** The renderers that were called, in order. *)
Definition asked (evs : list Event) : list Strategy :=
  omap (fun e => match e with
                 | ConvertFromPath _ _ _ _ _ => Some Pdf2image
                 | FitzGetPixmap _ _ _ => Some PyMuPDF
                 | MagickConvert _ _ _ _ => Some ImageMagick
                 | _ => None
                 end) evs.

Definition returns {A} (o : Outcome A) : bool :=
  match o with
  | Returns _ => true
  | Raises _ => false
  end.

(** The [poppler_path] argument that [convert_from_path] is called with. *)
Definition poppler_arg (env : Env) : option string :=
  if Py.truthy_opt (get_poppler_path env) then get_poppler_path env else None.

(** What the host lets each strategy do. pdf2image is called when it can be
    imported; it reserves a temporary file when it returned a page; it
    gives the image [png] when the page could also be saved there. *)
Definition pdf2image_called (env : Env) : bool := returns (import_pdf2image env).

Definition pdf2image_reserves (env : Env) (pdf_path : Path) : bool :=
  pdf2image_called env &&
  match convert_from_path env pdf_path (poppler_arg env) with
  | Returns images => (0 <? images)%nat
  | Raises _ => false
  end.

Definition pdf2image_renders (env : Env) (pdf_path png : Path) : bool :=
  pdf2image_reserves env pdf_path && returns (image_save env png).

(** PyMuPDF is asked for the page when it can be imported and the document
    opens with a page; it reserves a temporary file when the page was
    rendered; it gives the image [png] when the page could be saved there. *)
Definition pymupdf_called (env : Env) (pdf_path : Path) : bool :=
  returns (import_fitz env) &&
  match fitz_open env pdf_path with
  | Returns page_count => negb (page_count =? 0)%nat
  | Raises _ => false
  end.

Definition pymupdf_reserves (env : Env) (pdf_path : Path) : bool :=
  pymupdf_called env pdf_path && returns (get_pixmap env pdf_path).

Definition pymupdf_renders (env : Env) (pdf_path png : Path) : bool :=
  pymupdf_reserves env pdf_path && returns (pix_save env png).

(** ImageMagick is always called, on a temporary file it reserved. *)
Definition imagemagick_renders (env : Env) (pdf_path png : Path) : bool :=
  returns (run_magick env pdf_path png).

Definition temp_png (n : nat) : Path := TempFile n ".png".

(** What the claim on the cascade expects of a host on which [made]
    temporary files were made so far: the image of the first strategy that
    renders, in the order pdf2image, PyMuPDF, ImageMagick, each strategy
    writing to the temporary file that is next when its turn comes; and the
    renderers that are called up to there. *)
Definition first_rendering (env : Env) (pdf_path : Path) (made : nat) : option Path :=
  if pdf2image_renders env pdf_path (temp_png made) then Some (temp_png made) else
  let made := if pdf2image_reserves env pdf_path then S made else made in
  if pymupdf_renders env pdf_path (temp_png made) then Some (temp_png made) else
  let made := if pymupdf_reserves env pdf_path then S made else made in
  if imagemagick_renders env pdf_path (temp_png made) then Some (temp_png made) else None.

Definition expected_calls (env : Env) (pdf_path : Path) (made : nat) : list Strategy :=
  (if pdf2image_called env then [Pdf2image] else []) ++
  if pdf2image_renders env pdf_path (temp_png made) then [] else
  let made := if pdf2image_reserves env pdf_path then S made else made in
  (if pymupdf_called env pdf_path then [PyMuPDF] else []) ++
  if pymupdf_renders env pdf_path (temp_png made) then [] else [ImageMagick].

(** What a strategy of [convert_pdf_to_png] does: it does not raise, it
    prints how it ended, its renderer is asked for the first page only, and
    an image it gives is a new temporary PNG file that is on disk. *)
Definition runs_as (s : Strategy) (m : M (option Path)) : Prop :=
  forall w, exists r new,
    fst (m w) = Returns r /\
    events (snd (m w)) = events w ++ new /\
    outcomes new = [(s, r)] /\
    Forall (fun e => first_page_only e = true) new /\
    (forall p, r = Some p ->
               p = TempFile (made w) ".png" /\ p ∈ files (snd (m w))).

(** *** Vocabulary for the properties of the files on disk *)

(** The two steps of [create_text_image] that can fail once PIL is
    imported: the text is drawn, then the image is saved at [png]. *)
Definition draw_text_image (env : Env) (text : string) (png : Path) : Outcome unit :=
  match draw_text env text with
  | Returns _ => text_image_save env png
  | Raises e => Raises e
  end.

(** Every file of the user that is on disk in [w] is on disk in [w']. *)
Definition keeps_user_files (w w' : World) : Prop :=
  forall name, UserFile name ∈ files w -> UserFile name ∈ files w'.

(** A returned image is a temporary PNG file that is on disk. *)
Definition image_on_disk (r : option Path) (w : World) : Prop :=
  forall p, r = Some p -> p ∈ files w /\ exists n, p = TempFile n ".png".

(** The same for the value that ends a method. *)
Definition flow_image_on_disk (flow : Flow) (w : World) : Prop :=
  match flow with
  | Return (Some p) => p ∈ files w /\ exists n, p = TempFile n ".png"
  | Return None => False
  | FallThrough => True
  end.

(** [m], run in any world, removes no file but, possibly, files in [P],
    and a value it returns is in [Q]. *)
Definition removes_only {A} (P : Path -> Prop) (Q : A -> Prop) (m : M A) : Prop :=
  forall w,
    (forall p, p ∈ files w -> ~ P p -> p ∈ files (snd (m w))) /\
    (forall a, fst (m w) = Returns a -> Q a).


(** No condition on the returned value. *)
Definition any_value {A} (a : A) : Prop := True.

(** A conversion that never raises, keeps the files of the user, and
    returns, if anything, a temporary PNG file that is on disk. *)
Definition converts_safely (m : M (option Path)) : Prop :=
  forall w, exists r w',
    m w = (Returns r, w') /\ keeps_user_files w w' /\ image_on_disk r w'.

(** The same for a method that may fall through; a method never returns
    an empty result. *)
Definition method_runs_safely (m : M Flow) : Prop :=
  forall w, exists flow w',
    m w = (Returns flow, w') /\ keeps_user_files w w' /\ flow_image_on_disk flow w'.

(** The extensions that [convert_file_to_png] takes for images. *)
Definition image_extensions : list string := [".png"; ".jpg"; ".jpeg"; ".gif"; ".webp"].

(** The extensions that [convert_file_to_png] converts. *)
Definition document_extensions : list string := [".pdf"; ".docx"; ".doc"].

(** [os.path.splitext(file_path)[1].lower()]. *)
Definition extension_of (file_path : Path) : string :=
  Py.lower (snd (Py.splitext (path_name file_path))).

(** The places where [get_poppler_path] looks on Windows, in order. *)
Definition poppler_candidates (env : Env) : list string :=
  [join (join (join (script_dir env) "poppler") "Library") "bin";
   join (join (script_dir env) "poppler") "bin";
   "C:\Program Files\poppler\bin";
   "C:\Program Files (x86)\poppler\bin";
   "C:\poppler\bin"].

End debug_OCR_THROW_PNG.


(** ** Concrete environments and inputs for the examples *)

Module Samples.
Import pandas excel_to_concepts.

(** OCR collaborators that all work; the model answers every prompt with
    the same text. *)
Definition ocr_ok : Claude_as_OCR.Env :=
  {| Claude_as_OCR.anthropic_vertex := Returns tt;
     Claude_as_OCR.messages_create := fun _ => Returns "Jane Doe, born 1980";
     Claude_as_OCR.import_OCR_Combined := Returns tt;
     Claude_as_OCR.process_png_file := fun _ => Returns [("Claude", Claude_as_OCR.OStr "Jane Doe")];
     Claude_as_OCR.process_pdf_file := fun _ => Returns [("PyPDF2", Claude_as_OCR.OStr "Jane Doe")];
     Claude_as_OCR.process_docx_file := fun _ => Returns [("python-docx", Claude_as_OCR.OStr "Jane Doe")] |}.

(** The same, with an Anthropic client that cannot be created. *)
Definition ocr_no_client : Claude_as_OCR.Env :=
  {| Claude_as_OCR.anthropic_vertex := Raises "no credentials";
     Claude_as_OCR.messages_create := fun _ => Returns "Jane Doe, born 1980";
     Claude_as_OCR.import_OCR_Combined := Returns tt;
     Claude_as_OCR.process_png_file := fun _ => Returns [("Claude", Claude_as_OCR.OStr "Jane Doe")];
     Claude_as_OCR.process_pdf_file := fun _ => Returns [("PyPDF2", Claude_as_OCR.OStr "Jane Doe")];
     Claude_as_OCR.process_docx_file := fun _ => Returns [("python-docx", Claude_as_OCR.OStr "Jane Doe")] |}.

(** The same as [ocr_ok], without the module [OCR_Combined]. *)
Definition ocr_no_module : Claude_as_OCR.Env :=
  {| Claude_as_OCR.anthropic_vertex := Returns tt;
     Claude_as_OCR.messages_create := fun _ => Returns "Jane Doe, born 1980";
     Claude_as_OCR.import_OCR_Combined := Raises "No module named 'OCR_Combined'";
     Claude_as_OCR.process_png_file := fun _ => Returns [];
     Claude_as_OCR.process_pdf_file := fun _ => Returns [];
     Claude_as_OCR.process_docx_file := fun _ => Returns [] |}.

(** Two OCR results that are both failure sentinels. *)
Definition failed_results : Claude_as_OCR.OcrResults :=
  [("Tesseract", Claude_as_OCR.OStr "Error extracting text from image: no such file");
   ("Word", Claude_as_OCR.OStr "Failed to convert DOC file: cv.doc")].

Definition with_ocr (ocr : Claude_as_OCR.Env) : Process_files.Env :=
  {| Process_files.ocr_env := ocr;
     Process_files.extract_aspects_with_claude := fun _ _ _ => Returns ∅;
     Process_files.now := "2025-01-01 00:00:00";
     Process_files.mkdir := fun _ => Returns tt;
     Process_files.dump_json := fun _ _ => Returns tt |}.

(** A vocabulary sheet of three data rows, the second without label. *)
Definition languages_with_gap : Sheet :=
  [[CStr "id"; CStr "value"];
   [CInt 1; CStr "Hebrew"];
   [CInt 2; CNaN];
   [CNaN; CNaN];
   [CInt 3; CStr " English "]].

(** The sheet "Languages" with a header and two data rows. *)
Definition languages : Sheet :=
  [[CStr "id"; CStr "value"]; [CInt 1; CStr "Hebrew"]; [CInt 2; CStr "English"]].

(** An [int] that raises on every string. *)
Definition no_int : string -> option Z := fun _ => None.

(** A document with identifier 482 and one extracted aspect. *)
Definition request_482 : Process_files.JsonData :=
  {| Process_files.file_id := "482";
     Process_files.extracted_data := {["Name" := CStr "Jane Doe"]};
     Process_files.file_type := "pdf" |}.

(** The same document after a second extraction. *)
Definition request_482_again : Process_files.JsonData :=
  {| Process_files.file_id := "482";
     Process_files.extracted_data := {["Name" := CStr "Jane R. Doe"; "City" := CStr "Haifa"]};
     Process_files.file_type := "pdf" |}.

Definition concept (n : Z) (label : string) : Concept :=
  {| concept_id := IdInt n; concept_value := label |}.


(** A vocabulary of one sheet and one concept, then the same with a second
    concept added. *)
Definition personal : ConceptMapping := [("Personal", [concept 1 "Name"])].

(** A vocabulary with a concept labelled like the identity column. *)
Definition with_ID_label : ConceptMapping :=
  [("Personal", [concept 1 "Name"; concept 2 "ID"])].

(** The sheet "Personal" after [request_482] was stored under [personal]. *)
Definition personal_sheet : DataFrame :=
  {| columns := ["ID"; "File Type"; "Name"];
     rows := [ {["ID" := CStr "482"; "File Type" := CStr "pdf"; "Name" := CStr "Jane Doe"]} ] |}.

(** The integer that a string of ASCII digits denotes. *)
Fixpoint digits_value_from (acc : Z) (s : string) : option Z :=
  match s with
  | EmptyString => Some acc
  | String c r =>
      let n := nat_of_ascii c in
      if (48 <=? n)%nat && (n <=? 57)%nat
      then digits_value_from (acc * 10 + Z.of_nat (n - 48)) r
      else None
  end.

Definition digits_value (s : string) : option Z :=
  match s with
  | EmptyString => None
  | _ => digits_value_from 0 s
  end.

Definition numeric (c : Cell) : option Z :=
  match c with
  | CInt z => Some z
  | CStr s => digits_value s
  | _ => None
  end.

(** How [read_excel] types the sheets of the examples: a column all of
    whose cells are integers or strings of digits comes back as a column of
    integers (the string "482" as 482, "007" as 7); every other cell comes
    back as it was written. *)
Definition numeric_column (rws : list (gmap string Cell)) (col : string) : bool :=
  forallb (fun r => match r !! col ≫= numeric with Some _ => true | None => false end) rws.

Definition retype_cell (col : string) (r : gmap string Cell) : gmap string Cell :=
  match r !! col ≫= numeric with
  | Some z => <[col := CInt z]> r
  | None => r
  end.

Definition retype (df : DataFrame) : DataFrame :=
  {| columns := columns df;
     rows := fold_left (fun rws col =>
                          if numeric_column rws col then map (retype_cell col) rws else rws)
                       (columns df) (rows df) |}.

(** A column that holds integers in every row, and has a row. *)
Definition int_column (df : DataFrame) (key : string) : bool :=
  match rows df with
  | [] => false
  | rws => forallb (fun r => match r !! key with Some (CInt _) => true | _ => false end) rws
  end.

(** pandas 2 with a workbook that can be read and written: an assignment
    never raises. *)
Definition pandas_2 : Excel :=
  {| read_excel := fun sheets => Returns (retype <$> sheets);
     setitem := fun _ _ _ _ => Returns tt;
     to_excel := fun _ _ => None;
     save_workbook := fun _ _ => None |}.

(** pandas 3 with the same workbook: a string assigned to a column of
    integers raises. *)
Definition pandas_3 : Excel :=
  {| read_excel := fun sheets => Returns (retype <$> sheets);
     setitem := fun df _ key value =>
       match value with
       | CStr _ => if int_column df key
                   then Raises "Invalid value for dtype 'int64'"
                   else Returns tt
       | _ => Returns tt
       end;
     to_excel := fun _ _ => None;
     save_workbook := fun _ _ => None |}.

(** A host on which nothing is installed: every import and every external
    tool raises; files can be removed. *)
Definition bare_host : debug_OCR_THROW_PNG.Env :=
  {| debug_OCR_THROW_PNG.platform_system := "Linux";
     debug_OCR_THROW_PNG.script_dir := "/app";
     debug_OCR_THROW_PNG.path_exists := fun _ => false;
     debug_OCR_THROW_PNG.import_pdf2image := Raises "No module named 'pdf2image'";
     debug_OCR_THROW_PNG.convert_from_path := fun _ _ => Raises "poppler not installed";
     debug_OCR_THROW_PNG.image_save := fun _ => Raises "cannot save";
     debug_OCR_THROW_PNG.import_fitz := Raises "No module named 'fitz'";
     debug_OCR_THROW_PNG.fitz_open := fun _ => Raises "cannot open";
     debug_OCR_THROW_PNG.get_pixmap := fun _ => Raises "cannot render";
     debug_OCR_THROW_PNG.pix_save := fun _ => Raises "cannot save";
     debug_OCR_THROW_PNG.run_magick := fun _ _ => Raises "magick: not found";
     debug_OCR_THROW_PNG.import_win32com := Raises "No module named 'win32com'";
     debug_OCR_THROW_PNG.word_dispatch := Raises "Invalid class string";
     debug_OCR_THROW_PNG.word_open := fun _ => Raises "cannot open";
     debug_OCR_THROW_PNG.word_save_as := fun _ _ _ => Raises "cannot save";
     debug_OCR_THROW_PNG.word_close := Raises "cannot close";
     debug_OCR_THROW_PNG.word_quit := Raises "cannot quit";
     debug_OCR_THROW_PNG.docx_text := fun _ => Raises "No module named 'docx'";
     debug_OCR_THROW_PNG.antiword := fun _ => Raises "antiword: not found";
     debug_OCR_THROW_PNG.catdoc := fun _ => Raises "catdoc: not found";
     debug_OCR_THROW_PNG.import_reportlab := Raises "No module named 'reportlab'";
     debug_OCR_THROW_PNG.build_pdf := fun _ _ => Raises "cannot build";
     debug_OCR_THROW_PNG.import_PIL := Raises "No module named 'PIL'";
     debug_OCR_THROW_PNG.draw_text := fun _ => Raises "cannot draw";
     debug_OCR_THROW_PNG.text_image_save := fun _ => Raises "cannot save";
     debug_OCR_THROW_PNG.os_remove := fun _ => Returns tt;
     debug_OCR_THROW_PNG.claude_ocr := fun _ => "Jane Doe" |}.

(** The bare host with PyMuPDF installed. *)
Definition host_with_pymupdf : debug_OCR_THROW_PNG.Env :=
  {| debug_OCR_THROW_PNG.platform_system := "Linux";
     debug_OCR_THROW_PNG.script_dir := "/app";
     debug_OCR_THROW_PNG.path_exists := fun _ => false;
     debug_OCR_THROW_PNG.import_pdf2image := Raises "No module named 'pdf2image'";
     debug_OCR_THROW_PNG.convert_from_path := fun _ _ => Raises "poppler not installed";
     debug_OCR_THROW_PNG.image_save := fun _ => Raises "cannot save";
     debug_OCR_THROW_PNG.import_fitz := Returns tt;
     debug_OCR_THROW_PNG.fitz_open := fun _ => Returns 2%nat;
     debug_OCR_THROW_PNG.get_pixmap := fun _ => Returns tt;
     debug_OCR_THROW_PNG.pix_save := fun _ => Returns tt;
     debug_OCR_THROW_PNG.run_magick := fun _ _ => Raises "magick: not found";
     debug_OCR_THROW_PNG.import_win32com := Raises "No module named 'win32com'";
     debug_OCR_THROW_PNG.word_dispatch := Raises "Invalid class string";
     debug_OCR_THROW_PNG.word_open := fun _ => Raises "cannot open";
     debug_OCR_THROW_PNG.word_save_as := fun _ _ _ => Raises "cannot save";
     debug_OCR_THROW_PNG.word_close := Raises "cannot close";
     debug_OCR_THROW_PNG.word_quit := Raises "cannot quit";
     debug_OCR_THROW_PNG.docx_text := fun _ => Raises "No module named 'docx'";
     debug_OCR_THROW_PNG.antiword := fun _ => Raises "antiword: not found";
     debug_OCR_THROW_PNG.catdoc := fun _ => Raises "catdoc: not found";
     debug_OCR_THROW_PNG.import_reportlab := Raises "No module named 'reportlab'";
     debug_OCR_THROW_PNG.build_pdf := fun _ _ => Raises "cannot build";
     debug_OCR_THROW_PNG.import_PIL := Raises "No module named 'PIL'";
     debug_OCR_THROW_PNG.draw_text := fun _ => Raises "cannot draw";
     debug_OCR_THROW_PNG.text_image_save := fun _ => Raises "cannot save";
     debug_OCR_THROW_PNG.os_remove := fun _ => Returns tt;
     debug_OCR_THROW_PNG.claude_ocr := fun _ => "Jane Doe" |}.

(** A host on which the three renderers work. *)
Definition host_with_poppler : debug_OCR_THROW_PNG.Env :=
  {| debug_OCR_THROW_PNG.platform_system := "Linux";
     debug_OCR_THROW_PNG.script_dir := "/app";
     debug_OCR_THROW_PNG.path_exists := fun _ => false;
     debug_OCR_THROW_PNG.import_pdf2image := Returns tt;
     debug_OCR_THROW_PNG.convert_from_path := fun _ _ => Returns 1%nat;
     debug_OCR_THROW_PNG.image_save := fun _ => Returns tt;
     debug_OCR_THROW_PNG.import_fitz := Returns tt;
     debug_OCR_THROW_PNG.fitz_open := fun _ => Returns 2%nat;
     debug_OCR_THROW_PNG.get_pixmap := fun _ => Returns tt;
     debug_OCR_THROW_PNG.pix_save := fun _ => Returns tt;
     debug_OCR_THROW_PNG.run_magick := fun _ _ => Returns tt;
     debug_OCR_THROW_PNG.import_win32com := Raises "No module named 'win32com'";
     debug_OCR_THROW_PNG.word_dispatch := Raises "Invalid class string";
     debug_OCR_THROW_PNG.word_open := fun _ => Raises "cannot open";
     debug_OCR_THROW_PNG.word_save_as := fun _ _ _ => Raises "cannot save";
     debug_OCR_THROW_PNG.word_close := Raises "cannot close";
     debug_OCR_THROW_PNG.word_quit := Raises "cannot quit";
     debug_OCR_THROW_PNG.docx_text := fun _ => Raises "No module named 'docx'";
     debug_OCR_THROW_PNG.antiword := fun _ => Raises "antiword: not found";
     debug_OCR_THROW_PNG.catdoc := fun _ => Raises "catdoc: not found";
     debug_OCR_THROW_PNG.import_reportlab := Raises "No module named 'reportlab'";
     debug_OCR_THROW_PNG.build_pdf := fun _ _ => Raises "cannot build";
     debug_OCR_THROW_PNG.import_PIL := Raises "No module named 'PIL'";
     debug_OCR_THROW_PNG.draw_text := fun _ => Raises "cannot draw";
     debug_OCR_THROW_PNG.text_image_save := fun _ => Raises "cannot save";
     debug_OCR_THROW_PNG.os_remove := fun _ => Returns tt;
     debug_OCR_THROW_PNG.claude_ocr := fun _ => "Jane Doe" |}.

(** A host on which pdf2image is installed without poppler, PyMuPDF renders
    the page but cannot save it, and ImageMagick works. *)
Definition host_with_magick : debug_OCR_THROW_PNG.Env :=
  {| debug_OCR_THROW_PNG.platform_system := "Linux";
     debug_OCR_THROW_PNG.script_dir := "/app";
     debug_OCR_THROW_PNG.path_exists := fun _ => false;
     debug_OCR_THROW_PNG.import_pdf2image := Returns tt;
     debug_OCR_THROW_PNG.convert_from_path := fun _ _ => Raises "Unable to get page count";
     debug_OCR_THROW_PNG.image_save := fun _ => Returns tt;
     debug_OCR_THROW_PNG.import_fitz := Returns tt;
     debug_OCR_THROW_PNG.fitz_open := fun _ => Returns 2%nat;
     debug_OCR_THROW_PNG.get_pixmap := fun _ => Returns tt;
     debug_OCR_THROW_PNG.pix_save := fun _ => Raises "cannot save";
     debug_OCR_THROW_PNG.run_magick := fun _ _ => Returns tt;
     debug_OCR_THROW_PNG.import_win32com := Raises "No module named 'win32com'";
     debug_OCR_THROW_PNG.word_dispatch := Raises "Invalid class string";
     debug_OCR_THROW_PNG.word_open := fun _ => Raises "cannot open";
     debug_OCR_THROW_PNG.word_save_as := fun _ _ _ => Raises "cannot save";
     debug_OCR_THROW_PNG.word_close := Raises "cannot close";
     debug_OCR_THROW_PNG.word_quit := Raises "cannot quit";
     debug_OCR_THROW_PNG.docx_text := fun _ => Raises "No module named 'docx'";
     debug_OCR_THROW_PNG.antiword := fun _ => Raises "antiword: not found";
     debug_OCR_THROW_PNG.catdoc := fun _ => Raises "catdoc: not found";
     debug_OCR_THROW_PNG.import_reportlab := Raises "No module named 'reportlab'";
     debug_OCR_THROW_PNG.build_pdf := fun _ _ => Raises "cannot build";
     debug_OCR_THROW_PNG.import_PIL := Raises "No module named 'PIL'";
     debug_OCR_THROW_PNG.draw_text := fun _ => Raises "cannot draw";
     debug_OCR_THROW_PNG.text_image_save := fun _ => Raises "cannot save";
     debug_OCR_THROW_PNG.os_remove := fun _ => Returns tt;
     debug_OCR_THROW_PNG.claude_ocr := fun _ => "Jane Doe" |}.

(** A Windows host with pywin32 and PyMuPDF, on which Word is not
    installed: the automation object cannot be created. *)
Definition host_without_word : debug_OCR_THROW_PNG.Env :=
  {| debug_OCR_THROW_PNG.platform_system := "Windows";
     debug_OCR_THROW_PNG.script_dir := "C:/app";
     debug_OCR_THROW_PNG.path_exists := fun _ => false;
     debug_OCR_THROW_PNG.import_pdf2image := Raises "No module named 'pdf2image'";
     debug_OCR_THROW_PNG.convert_from_path := fun _ _ => Raises "poppler not installed";
     debug_OCR_THROW_PNG.image_save := fun _ => Raises "cannot save";
     debug_OCR_THROW_PNG.import_fitz := Returns tt;
     debug_OCR_THROW_PNG.fitz_open := fun _ => Returns 1%nat;
     debug_OCR_THROW_PNG.get_pixmap := fun _ => Returns tt;
     debug_OCR_THROW_PNG.pix_save := fun _ => Returns tt;
     debug_OCR_THROW_PNG.run_magick := fun _ _ => Raises "magick: not found";
     debug_OCR_THROW_PNG.import_win32com := Returns tt;
     debug_OCR_THROW_PNG.word_dispatch := Raises "Invalid class string";
     debug_OCR_THROW_PNG.word_open := fun _ => Raises "cannot open";
     debug_OCR_THROW_PNG.word_save_as := fun _ _ _ => Raises "cannot save";
     debug_OCR_THROW_PNG.word_close := Raises "cannot close";
     debug_OCR_THROW_PNG.word_quit := Raises "cannot quit";
     debug_OCR_THROW_PNG.docx_text := fun _ => Returns "Jane Doe";
     debug_OCR_THROW_PNG.antiword := fun _ => Raises "antiword: not found";
     debug_OCR_THROW_PNG.catdoc := fun _ => Raises "catdoc: not found";
     debug_OCR_THROW_PNG.import_reportlab := Returns tt;
     debug_OCR_THROW_PNG.build_pdf := fun _ _ => Returns tt;
     debug_OCR_THROW_PNG.import_PIL := Returns tt;
     debug_OCR_THROW_PNG.draw_text := fun _ => Returns tt;
     debug_OCR_THROW_PNG.text_image_save := fun _ => Returns tt;
     debug_OCR_THROW_PNG.os_remove := fun _ => Returns tt;
     debug_OCR_THROW_PNG.claude_ocr := fun _ => "Jane Doe" |}.



(** A disk that holds the two documents of the examples. *)
Definition disk : debug_OCR_THROW_PNG.World :=
  {| debug_OCR_THROW_PNG.files :=
       [debug_OCR_THROW_PNG.UserFile "request_482.pdf";
        debug_OCR_THROW_PNG.UserFile "cv_12.docx"];
     debug_OCR_THROW_PNG.made := 0;
     debug_OCR_THROW_PNG.events := [] |}.

(** A disk that holds a scanned image and a document. *)
Definition scans : debug_OCR_THROW_PNG.World :=
  {| debug_OCR_THROW_PNG.files :=
       [debug_OCR_THROW_PNG.UserFile "scan_7.PNG";
        debug_OCR_THROW_PNG.UserFile "cv_12.docx"];
     debug_OCR_THROW_PNG.made := 0;
     debug_OCR_THROW_PNG.events := [] |}.

(** An environment in which every collaborator of [process_single_file] works. *)
Definition env_ok : Process_files.Env := with_ocr ocr_ok.

End Samples.
(** * Properties *)

(** ** Strings *)

Module Py_facts.
Import Py.

Lemma digit_run_app (run post : list string) :
  forallb is_decimal run = true -> stops_run post = true ->
  digit_run (run ++ post) = run.
Proof.
  induction run as [|ch run IH]; simpl; intros Hrun Hpost.
  - destruct post as [|d post]; simpl in *; [done|].
    apply negb_true_iff in Hpost. by rewrite Hpost.
  - apply andb_true_iff in Hrun as [Hc Hrun]. rewrite Hc.
    by rewrite IH.
Qed.

Lemma search_digit_run_app (pre run post : list string) :
  forallb (fun ch => negb (is_decimal ch)) pre = true -> run <> [] ->
  forallb is_decimal run = true -> stops_run post = true ->
  search_digit_run (pre ++ run ++ post) = Some run.
Proof.
  induction pre as [|ch pre IH]; simpl; intros Hpre Hne Hrun Hpost.
  - destruct run as [|d run]; [done|]. simpl in *.
    apply andb_true_iff in Hrun as [Hd Hrun]. rewrite Hd.
    by rewrite digit_run_app.
  - apply andb_true_iff in Hpre as [Hc Hpre].
    apply negb_true_iff in Hc. rewrite Hc. by apply IH.
Qed.

Lemma search_digits_chars (s : string) (pre run post : list string) :
  chars s = pre ++ run ++ post ->
  forallb (fun ch => negb (is_decimal ch)) pre = true -> run <> [] ->
  forallb is_decimal run = true -> stops_run post = true ->
  search_digits s = Some (String.concat EmptyString run).
Proof.
  intros Hs Hpre Hne Hrun Hpost.
  by rewrite /search_digits Hs search_digit_run_app.
Qed.

Lemma search_digits_none (s : string) :
  no_digit s = true -> search_digits s = None.
Proof.
  rewrite /no_digit /search_digits. generalize (chars s).
  induction l as [|ch l IH]; simpl; [done|].
  intros [Hc Hs]%andb_true_iff. apply negb_true_iff in Hc. rewrite Hc. by apply IH.
Qed.

Lemma search_digits_some_nonempty (s run : string) :
  search_digits s = Some run -> truthy run = true.
Proof.
  rewrite /search_digits. generalize (chars s).
  induction l as [|ch l IH]; simpl; [done|].
  destruct (is_decimal ch) eqn:Hch; [|done].
  intros [= <-]. destruct ch as [|c ch]; [done|].
  by destruct (digit_run l).
Qed.

Lemma str_in_true (x : string) (l : list string) : str_in x l = true <-> x ∈ l.
Proof.
  unfold str_in. rewrite existsb_exists. split.
  - intros (y & Hin & Heq). apply String.eqb_eq in Heq as ->. by apply list_elem_of_In.
  - intros Hin. exists x. split; [by apply list_elem_of_In | apply String.eqb_refl].
Qed.

Lemma str_in_false (x : string) (l : list string) : str_in x l = false <-> x ∉ l.
Proof.
  rewrite <- str_in_true. destruct (str_in x l); naive_solver.
Qed.

Lemma append_assoc (a b c : string) : (a +:+ b) +:+ c = a +:+ b +:+ c.
Proof. induction a as [|x a IH]; simpl; congruence. Qed.

Lemma append_empty_r (a : string) : a +:+ EmptyString = a.
Proof. induction a as [|x a IH]; simpl; congruence. Qed.

End Py_facts.

(** ** Claude_as_OCR.py *)

Module Claude_as_OCR_facts.
Import Py Py_facts Claude_as_OCR.

Lemma concat_empty_cons (x : string) (l : list string) :
  String.concat EmptyString (x :: l) = x +:+ String.concat EmptyString l.
Proof. destruct l; simpl; [by rewrite append_empty_r | done]. Qed.

Lemma extractions_cons (e : string * string) (l : list (string * string)) :
  extractions (e :: l) = extraction (fst e) (snd e) +:+ extractions l.
Proof. apply concat_empty_cons. Qed.

(** The loop over the results appends the extractions of the retained
    entries, in order, and nothing else. *)
Lemma fold_add_extraction (r : OcrResults) (prompt : string) :
  fold_left add_extraction r prompt = prompt +:+ extractions (retained r).
Proof.
  revert prompt. induction r as [|[method v] r IH]; intros prompt.
  - by rewrite /= append_empty_r.
  - rewrite /= IH /add_extraction /retained /=.
    destruct (usable v) eqn:Hv.
    + rewrite filter_cons_True //= extractions_cons /=. by rewrite append_assoc.
    + rewrite filter_cons_False //. by rewrite /= Hv.
Qed.

Lemma build_prompt_retained (r : OcrResults) (file_type language : option string) :
  build_prompt r file_type language =
  prompt_head file_type language +:+ extractions (retained r) +:+ prompt_tail.
Proof. by rewrite /build_prompt fold_add_extraction append_assoc. Qed.

Lemma elem_of_retained (r : OcrResults) (method text : string) :
  (method, text) ∈ retained r <->
  (method, OStr text) ∈ r /\
  startswith text "Failed" = false /\ startswith text "Error" = false.
Proof.
  rewrite /retained list_elem_of_fmap. split.
  - intros ([m v] & [= -> ->] & [Hu Hin]%list_elem_of_filter). simpl in *.
    destruct v as [t|]; [|done]. simpl in *.
    apply andb_true_iff in Hu as [H1 H2].
    by rewrite !negb_true_iff in H1, H2.
  - intros (Hin & H1 & H2). exists (method, OStr text). split; [done|].
    apply list_elem_of_filter. split; [|done]. by rewrite /= H1 H2.
Qed.

(** C3. Before fusion, [combine_ocr_results] leaves out every result that
    is not a string or whose text starts with the failure prefix "Failed"
    or "Error": the prompt it sends to the model is the instructions, then
    the extractions of exactly the string entries that start with neither
    prefix, then the closing request. *)
Theorem fusion_input_excludes_failure_sentinels
    (env : Env) (r : OcrResults) (file_type language : option string) :
  combine_ocr_results_try env r file_type language =
    (anthropic_vertex env ≫= fun _ =>
     messages_create env
       (prompt_head file_type language +:+ extractions (retained r) +:+ prompt_tail))
  /\ (forall method text,
        (method, text) ∈ retained r <->
        (method, OStr text) ∈ r /\
        startswith text "Failed" = false /\ startswith text "Error" = false).
Proof.
  split.
  - by rewrite /combine_ocr_results_try build_prompt_retained.
  - apply elem_of_retained.
Qed.

Lemma fusion_input_excludes_failure_sentinels_witness :
  ("Claude", "Jane Doe") ∈
    retained (("Claude", OStr "Jane Doe") :: Samples.failed_results)
  /\ ~ ("Word", "Failed to convert DOC file: cv.doc") ∈
        retained (("Claude", OStr "Jane Doe") :: Samples.failed_results).
Proof.
  destruct (fusion_input_excludes_failure_sentinels Samples.ocr_ok
              (("Claude", OStr "Jane Doe") :: Samples.failed_results) None None)
    as [_ Hin].
  split.
  - apply Hin. split; [apply list_elem_of_here | split; reflexivity].
  - intros H. apply Hin in H as (_ & H & _). discriminate H.
Defined.

(** C4, as the code has it. When every OCR result is a failure sentinel (no
    entry is retained), [combine_ocr_results] reports no failure of its own:
    it sends the instructions with no extraction to the model and returns
    the reply of the model as the combined text (or an "Error combining ..."
    message when the call raised). *)
Theorem no_usable_input_still_asks_model
    (env : Env) (r : OcrResults) (file_type language : option string) :
  retained r = [] ->
  combine_ocr_results env r file_type language =
  reply_without_extractions env file_type language.
Proof.
  intros Hr.
  rewrite /combine_ocr_results /reply_without_extractions /combine_ocr_results_try.
  rewrite build_prompt_retained Hr /extractions /=.
  by destruct (anthropic_vertex env).
Qed.

Lemma no_usable_input_still_asks_model_witness :
  combine_ocr_results Samples.ocr_ok Samples.failed_results (Some "pdf") (Some "english")
  = reply_without_extractions Samples.ocr_ok (Some "pdf") (Some "english").
Proof.
  apply (no_usable_input_still_asks_model Samples.ocr_ok Samples.failed_results).
  reflexivity.
Defined.

(** The claim C4 fails when every OCR result is a failure sentinel: no
    entry is retained, yet [combine_ocr_results] returns the text the model
    made up, which is not the empty string, and records no failure. *)
Lemma no_usable_input_returns_model_text :
  retained Samples.failed_results = []
  /\ combine_ocr_results Samples.ocr_ok Samples.failed_results (Some "pdf") (Some "english")
     = Returns "Jane Doe, born 1980"
  /\ combine_ocr_results Samples.ocr_ok Samples.failed_results (Some "pdf") (Some "english")
     <> Returns EmptyString.
Proof. split; [|split]; by vm_compute. Qed.

End Claude_as_OCR_facts.

(** ** excel_to_concepts.py *)

Module excel_to_concepts_facts.
Import Py Py_facts pandas excel_to_concepts.

Lemma dict_get_set_eq {V} (k : string) (v : V) (d : Dict V) :
  dict_get k (dict_set k v d) = Some v.
Proof.
  induction d as [|[k' v'] d IH]; simpl.
  - by rewrite String.eqb_refl.
  - destruct (String.eqb k' k) eqn:Hk; simpl; by rewrite Hk.
Qed.

Lemma dict_get_set_ne {V} (k k' : string) (v : V) (d : Dict V) :
  k <> k' -> dict_get k' (dict_set k v d) = dict_get k' d.
Proof.
  intros Hne. induction d as [|[k0 v0] d IH]; simpl.
  - destruct (String.eqb k k') eqn:Hk; [by apply String.eqb_eq in Hk | done].
  - destruct (String.eqb k0 k) eqn:Hk; simpl.
    + apply String.eqb_eq in Hk as ->.
      destruct (String.eqb k k') eqn:Hk'; [by apply String.eqb_eq in Hk' | done].
    + by rewrite IH.
Qed.

Lemma dict_keys_set {V} (k : string) (v : V) (d : Dict V) :
  dict_keys (dict_set k v d) =
  if str_in k (dict_keys d) then dict_keys d else dict_keys d ++ [k].
Proof.
  rewrite /dict_keys /str_in. induction d as [|[k' v'] d IH]; simpl; [done|].
  rewrite (String.eqb_sym k k').
  destruct (String.eqb k' k) eqn:Hk; simpl; [done|].
  rewrite IH. by destruct (existsb _ _).
Qed.

Lemma dict_set_NoDup {V} (k : string) (v : V) (d : Dict V) :
  NoDup (dict_keys d) -> NoDup (dict_keys (dict_set k v d)).
Proof.
  intros Hd. rewrite dict_keys_set.
  destruct (str_in k (dict_keys d)) eqn:Hin; [done|].
  apply str_in_false in Hin. apply NoDup_app. split; [done|].
  split; [|apply NoDup_singleton].
  intros x Hx ->%list_elem_of_singleton. done.
Qed.

Lemma dict_get_None {V} (k : string) (d : Dict V) :
  dict_get k d = None <-> k ∉ dict_keys d.
Proof.
  rewrite /dict_keys. induction d as [|[k' v'] d IH]; simpl.
  - split; [intros _; apply not_elem_of_nil | done].
  - rewrite not_elem_of_cons. destruct (String.eqb k' k) eqn:Hk.
    + apply String.eqb_eq in Hk. split; [done | by intros [Hne _]].
    + apply String.eqb_neq in Hk. rewrite IH. split; [by auto | by intros [_ H]].
Qed.

(** Dropping the bindings that fail a test on the value does not let
    another binding of the same key show, when keys are unique. *)
Lemma dict_get_filter {V} (P : V -> bool) (k : string) (d : Dict V) :
  NoDup (dict_keys d) ->
  dict_get k (filter (fun kv => P (snd kv) = true) d) =
  match dict_get k d with
  | Some v => if P v then Some v else None
  | None => None
  end.
Proof.
  rewrite /dict_keys. induction d as [|[k' v'] d IH]; simpl; [done|].
  intros [Hk' Hd]%NoDup_cons. specialize (IH Hd).
  destruct (String.eqb k' k) eqn:Hk.
  - apply String.eqb_eq in Hk as ->.
    destruct (P v') eqn:HP.
    + rewrite filter_cons_True //=. by rewrite String.eqb_refl.
    + rewrite filter_cons_False /=; [by rewrite HP|].
      rewrite IH. assert (dict_get k d = None) as ->; [|done].
      by apply dict_get_None.
  - destruct (P v') eqn:HP.
    + rewrite filter_cons_True //=. by rewrite Hk.
    + rewrite filter_cons_False /=; [by rewrite HP | done].
Qed.

Section Parsing.
Variable py_int : string -> option Z.

Lemma parse_sheets_readable (book : list (string * Sheet)) (mapping : ConceptMapping) :
  parse_sheets py_int mapping (map (fun entry => (fst entry, Returns (snd entry))) book)
  = Returns (fold_left (keep_sheet py_int) book mapping).
Proof.
  revert mapping. induction book as [|[name sheet] book IH]; intros mapping; [done|].
  rewrite /= /parse_sheet /keep_sheet /=.
  destruct (length (dropna_all sheet) <? 2)%nat; simpl; apply IH.
Qed.

Lemma keep_sheets_NoDup (book : list (string * Sheet)) (mapping : ConceptMapping) :
  NoDup (dict_keys mapping) -> NoDup (dict_keys (fold_left (keep_sheet py_int) book mapping)).
Proof.
  revert mapping. induction book as [|entry book IH]; intros mapping Hm; [done|].
  apply IH. rewrite /keep_sheet.
  destruct (_ <? _)%nat; [done | by apply dict_set_NoDup].
Qed.

Lemma keep_sheets_other (book : list (string * Sheet)) (mapping : ConceptMapping)
    (name : string) :
  name ∉ map fst book ->
  dict_get name (fold_left (keep_sheet py_int) book mapping) = dict_get name mapping.
Proof.
  revert mapping. induction book as [|[n sh] book IH]; intros mapping Hn; [done|].
  simpl in Hn. apply not_elem_of_cons in Hn as [Hne Hn].
  rewrite /= IH // /keep_sheet /=.
  destruct (_ <? _)%nat; [done | by apply dict_get_set_ne].
Qed.

Lemma keep_sheets_lookup (book : list (string * Sheet)) (mapping : ConceptMapping)
    (name : string) (sheet : Sheet) :
  NoDup (map fst book) -> (name, sheet) ∈ book ->
  dict_get name (fold_left (keep_sheet py_int) book mapping) =
  if (length (dropna_all sheet) <? 2)%nat then dict_get name mapping
  else Some (sheet_pairs py_int (width sheet) (dropna_all sheet)).
Proof.
  revert mapping. induction book as [|[n sh] book IH]; intros mapping Hnd Hin.
  - by apply elem_of_nil in Hin.
  - simpl in Hnd. apply NoDup_cons in Hnd as [Hn Hnd].
    apply elem_of_cons in Hin as [[= <- <-]|Hin].
    + rewrite /= keep_sheets_other // /keep_sheet /=.
      destruct (_ <? _)%nat; [done | apply dict_get_set_eq].
    + rewrite /= IH //. destruct (_ <? _)%nat eqn:Hlen; [|done].
      rewrite /keep_sheet /=. destruct (length (dropna_all sh) <? 2)%nat; [done|].
      apply dict_get_set_ne. intros ->. apply Hn.
      apply list_elem_of_fmap. by exists (name, sheet).
Qed.

Lemma length_cast_ids (raw_ids : list Cell) :
  length (cast_ids py_int raw_ids) = length raw_ids.
Proof.
  rewrite /cast_ids. destruct (mapM _ raw_ids) as [zs|] eqn:Hm.
  - rewrite length_map. symmetry. by eapply length_mapM.
  - by rewrite length_map.
Qed.

Lemma zip_with_values (ids : list Id) (vals : list string) :
  length vals <= length ids ->
  map concept_value
      (zip_with (fun i v => {| concept_id := i; concept_value := v |}) ids vals) = vals.
Proof.
  revert ids. induction vals as [|v vals IH]; intros [|i ids] Hlen; simpl in *;
    try done; try lia.
  f_equal. apply IH. lia.
Qed.

(** The values of the pairs of a sheet are its labels that are not blank,
    cast to string and stripped, in order. *)
Lemma sheet_pairs_values (sheet : Sheet) :
  map concept_value (sheet_pairs py_int (width sheet) (dropna_all sheet))
  = map (fun c => strip (astype_str c)) (labels sheet).
Proof.
  rewrite /sheet_pairs /labels /value_cells /data_rows /clean_vals.
  destruct (2 <=? width sheet)%nat; simpl; apply zip_with_values;
    rewrite length_map length_cast_ids.
  - etrans; [apply length_filter|]. by rewrite /iloc_col !length_map.
  - etrans; [apply length_filter|]. by rewrite /iloc_col !length_map length_seq.
Qed.

(** The pairs of a sheet, one by one: the identifiers of the data rows
    and the labels that are not blank, both in order. *)
Lemma sheet_pairs_lookup (sheet : Sheet) (i : nat) :
  sheet_pairs py_int (width sheet) (dropna_all sheet) !! i =
  id ← cast_ids py_int (id_cells sheet) !! i;
  label ← labels sheet !! i;
  Some {| concept_id := id; concept_value := strip (astype_str label) |}.
Proof.
  rewrite /sheet_pairs /labels /value_cells /id_cells /data_rows /clean_vals.
  destruct (2 <=? width sheet)%nat; simpl; rewrite lookup_zip_with;
    destruct (cast_ids _ _ !! i) as [id|]; simpl; try done;
    change (map ?f ?l) with (f <$> l); rewrite list_lookup_fmap;
    by destruct (filter _ _ !! i).
Qed.

(** C8, as the code has it. [excel_to_concept_mapping] leaves out every
    sheet with fewer than two rows once fully-blank rows are removed (the
    header counts as a row), and every sheet none of whose data rows has a
    label. For any other sheet it returns one pair per data row whose label
    cell is not blank, in order: the value of the i-th pair is the i-th
    label that is not blank, cast to string and stripped of surrounding
    white space, and its identifier is the identifier cell of the i-th data
    row (cast to an integer when every identifier of the sheet casts, as it
    was read otherwise). When no data row lacks its label this is one pair
    per data row, with the identifier and the label of that row. *)
Theorem concept_mapping_of_sheet
    (book : list (string * Sheet)) (name : string) (sheet : Sheet) :
  NoDup (map fst book) -> (name, sheet) ∈ book ->
  let mapping := excel_to_concept_mapping py_int (readable book) in
  (length (dropna_all sheet) < 2 -> dict_get name mapping = None)
  /\ (labels sheet = [] -> dict_get name mapping = None)
  /\ (2 <= length (dropna_all sheet) -> labels sheet <> [] ->
      exists pairs,
        dict_get name mapping = Some pairs /\
        map concept_value pairs = map (fun c => strip (astype_str c)) (labels sheet) /\
        length pairs = length (labels sheet) /\
        (forall i,
            pairs !! i =
            id ← cast_ids py_int (id_cells sheet) !! i;
            label ← labels sheet !! i;
            Some {| concept_id := id; concept_value := strip (astype_str label) |}) /\
        (labels sheet = value_cells sheet ->
         length pairs = length (data_rows sheet) /\
         forall i row,
           data_rows sheet !! i = Some row ->
           exists id,
             cast_ids py_int (id_cells sheet) !! i = Some id /\
             pairs !! i =
               Some {| concept_id := id;
                       concept_value :=
                         strip (astype_str
                                  (nth (if (2 <=? width sheet)%nat then 1 else 0)%nat
                                       row CNaN)) |})).
Proof.
  intros Hnd Hin mapping.
  assert (dict_get name mapping =
          if (length (dropna_all sheet) <? 2)%nat then None
          else if nonempty (sheet_pairs py_int (width sheet) (dropna_all sheet))
               then Some (sheet_pairs py_int (width sheet) (dropna_all sheet))
               else None) as Hget.
  { rewrite /mapping /excel_to_concept_mapping /excel_to_concept_mapping_try /readable /=.
    rewrite parse_sheets_readable /=.
    rewrite (dict_get_filter nonempty); [by apply keep_sheets_NoDup, NoDup_nil|].
    rewrite (keep_sheets_lookup _ _ name sheet) //.
    by destruct (_ <? _)%nat. }
  pose proof (sheet_pairs_values sheet) as Hvals.
  split; [|split].
  - intros Hlen. rewrite Hget. by apply Nat.ltb_lt in Hlen as ->.
  - intros Hl. rewrite Hget. rewrite Hl /= in Hvals.
    destruct (_ <? _)%nat; [done|].
    by destruct (sheet_pairs _ _ _).
  - intros Hlen Hl. rewrite Hget. apply Nat.ltb_ge in Hlen as ->.
    exists (sheet_pairs py_int (width sheet) (dropna_all sheet)).
    assert (length (sheet_pairs py_int (width sheet) (dropna_all sheet))
            = length (labels sheet)) as Hlength.
    { by rewrite -(length_map concept_value) Hvals length_map. }
    split; [|split; [done|split; [done|split; [apply sheet_pairs_lookup|]]]].
    + destruct (sheet_pairs _ _ _) eqn:Hp; [|done].
      destruct (labels sheet); [done | by simpl in Hlength].
    + intros Heq. split.
      { rewrite Hlength Heq /value_cells /iloc_col. by rewrite length_map. }
      intros i row Hrow. rewrite sheet_pairs_lookup Heq /value_cells /iloc_col.
      change (map ?f ?l) with (f <$> l). rewrite list_lookup_fmap Hrow /=.
      assert (is_Some (cast_ids py_int (id_cells sheet) !! i)) as [id Hid].
      { apply lookup_lt_is_Some. rewrite length_cast_ids /id_cells.
        apply lookup_lt_Some in Hrow.
        destruct (2 <=? width sheet)%nat;
          [by rewrite /iloc_col length_map | by rewrite length_map length_seq]. }
      exists id. by rewrite Hid.
Qed.

End Parsing.

Lemma concept_mapping_of_sheet_witness :
  dict_get "Languages"
    (excel_to_concept_mapping Samples.no_int (readable [("Languages", Samples.languages)]))
  = Some [ {| concept_id := IdInt 1; concept_value := "Hebrew" |};
           {| concept_id := IdInt 2; concept_value := "English" |} ].
Proof.
  destruct (concept_mapping_of_sheet Samples.no_int
              [("Languages", Samples.languages)] "Languages" Samples.languages)
    as (_ & _ & Hpairs).
  - apply NoDup_singleton.
  - apply list_elem_of_singleton. reflexivity.
  - destruct Hpairs as (pairs & Hget & _); [vm_compute; lia | discriminate |].
    rewrite Hget. vm_compute in Hget. symmetry. exact Hget.
Defined.

(** The claim C8 fails on a sheet with a blank label: three data rows are
    left after the blank row is removed, and two pairs come back. *)
Lemma blank_label_gives_fewer_pairs :
  length (data_rows Samples.languages_with_gap) = 3%nat
  /\ excel_to_concept_mapping Samples.no_int
       (readable [("Languages", Samples.languages_with_gap)])
     = [("Languages", [ {| concept_id := IdInt 1; concept_value := "Hebrew" |};
                        {| concept_id := IdInt 2; concept_value := "English" |} ])].
Proof. by vm_compute. Qed.

End excel_to_concepts_facts.

(** ** Process_files.py: identifiers and the single-file pipeline *)

Module Process_files_facts.
Import Py Py_facts Claude_as_OCR pandas excel_to_concepts Process_files.

Ltac eff_unfold :=
  rewrite /mbind /mret /eff_bind /eff_ret /Eff.bind /Eff.ret /Eff.call
          /Eff.try_except /Eff.modify /log /=.

Lemma process_file_with_combined_ocr_returns (env : Claude_as_OCR.Env)
    (file_path : string) (given : option OcrResults) :
  exists text, process_file_with_combined_ocr env file_path given = Returns text.
Proof.
  rewrite /process_file_with_combined_ocr.
  destruct (process_file_with_combined_ocr_try env file_path given); eauto.
Qed.

(** A file without identifier is skipped before any collaborator is called. *)
Lemma process_single_file_no_id (env : Process_files.Env) (file_path : string)
    (cm : ConceptMapping) (output_dir : string) (trace : list Event) :
  extract_file_id (basename file_path) = None ->
  process_single_file env file_path cm output_dir trace = (Returns None, trace).
Proof.
  intros Hid. rewrite /process_single_file /process_single_file_try Hid.
  eff_unfold. by case: (negb _).
Qed.

(** A file with another extension is skipped before any collaborator is called. *)
Lemma process_single_file_unsupported (env : Process_files.Env) (file_path : string)
    (cm : ConceptMapping) (output_dir : string) (trace : list Event) :
  lower (snd (splitext file_path)) ∉ supported_extensions ->
  process_single_file env file_path cm output_dir trace = (Returns None, trace).
Proof.
  intros Hext%str_in_false. rewrite /process_single_file /process_single_file_try Hext.
  by eff_unfold.
Qed.

(** A file with a supported extension and an identifier goes through OCR,
    and the text that comes back is what aspect extraction is asked about. *)
Lemma process_single_file_supported (env : Process_files.Env) (file_path : string)
    (cm : ConceptMapping) (output_dir : string) (trace : list Event) (id : string) :
  lower (snd (splitext file_path)) ∈ supported_extensions ->
  extract_file_id (basename file_path) = Some id ->
  exists ocr_text rest r,
    process_file_with_combined_ocr (ocr_env env) file_path None = Returns ocr_text /\
    process_single_file env file_path cm output_dir trace =
      (Returns r,
       trace ++ OcrCalled file_path ::
                AspectsRequested ocr_text (collect_concept_values cm)
                                 (drop 1 (lower (snd (splitext file_path)))) :: rest).
Proof.
  intros Hext%str_in_true Hid.
  destruct (process_file_with_combined_ocr_returns (ocr_env env) file_path None)
    as [ocr_text Hocr].
  exists ocr_text.
  rewrite /process_single_file /process_single_file_try Hext Hid.
  rewrite /truthy_opt (search_digits_some_nonempty _ _ Hid). eff_unfold. rewrite Hocr /=.
  destruct (extract_aspects_with_claude env _ _ _) as [data|e] eqn:Hx; simpl.
  2: { exists [], None. split; [done|]. by rewrite -assoc. }
  destruct (mkdir env output_dir) as [[]|e]; simpl.
  2: { exists [], None. split; [done|]. by rewrite -assoc. }
  destruct (dump_json env _ _) as [[]|e]; simpl.
  2: { exists [], None. split; [done|]. by rewrite -assoc. }
  eexists [_], (Some _). split; [done|]. by rewrite -!assoc.
Qed.

(** C9. [extract_file_id] returns the first run of digits of the file name
    (for "request_482.pdf", the run "482"; a digit is a decimal digit of
    any script, as [\d] has it) and [None] when the name holds no digit;
    [process_single_file] then returns [None] without calling any
    collaborator or writing anything, and the loop over the files leaves
    the workbook file as it was. *)
Theorem extract_file_id_first_digit_run :
  (forall filename pre run post,
      chars filename = pre ++ run ++ post ->
      forallb (fun ch => negb (is_decimal ch)) pre = true -> run <> [] ->
      forallb is_decimal run = true -> stops_run post = true ->
      extract_file_id filename = Some (String.concat EmptyString run))
  /\ (forall filename, no_digit filename = true -> extract_file_id filename = None)
  /\ (forall xl env file_path cm output_dir successful store trace,
        no_digit (basename file_path) = true ->
        process_single_file env file_path cm output_dir trace = (Returns None, trace)
        /\ process_and_store xl env cm output_dir (successful, store, trace) file_path
           = (successful, store, trace)).
Proof.
  split; [|split].
  - intros. by apply (search_digits_chars filename pre run post).
  - intros. by apply search_digits_none.
  - intros xl env file_path cm output_dir successful store trace Hno.
    apply search_digits_none in Hno.
    pose proof (process_single_file_no_id env file_path cm output_dir trace Hno) as Hp.
    split; [done|]. by rewrite /process_and_store Hp.
Qed.

Lemma extract_file_id_first_digit_run_witness :
  extract_file_id "request_482.pdf" = Some "482"
  /\ extract_file_id "scan_٤٨٢.pdf" = Some "٤٨٢"
  /\ extract_file_id "a٤8b.pdf" = Some "٤8"
  /\ extract_file_id "resume.pdf" = None
  /\ process_and_store Samples.pandas_2 Samples.env_ok [] "out" (0%nat, Missing, [])
       "resume.pdf"
     = (0%nat, Missing, []).
Proof.
  destruct extract_file_id_first_digit_run as (Hrun & Hnone & Hskip).
  split; [|split; [|split; [|split]]].
  - exact (Hrun "request_482.pdf" (chars "request_") (chars "482") (chars ".pdf")
             eq_refl eq_refl ltac:(discriminate) eq_refl eq_refl).
  - exact (Hrun "scan_٤٨٢.pdf" (chars "scan_") (chars "٤٨٢") (chars ".pdf")
             eq_refl eq_refl ltac:(discriminate) eq_refl eq_refl).
  - exact (Hrun "a٤8b.pdf" (chars "a") (chars "٤8") (chars "b.pdf")
             eq_refl eq_refl ltac:(discriminate) eq_refl eq_refl).
  - apply Hnone. reflexivity.
  - apply Hskip. reflexivity.
Defined.

(** C7, as the code has it. [process_single_file] goes on to OCR and aspect
    extraction for the files whose lower-cased extension is [.png], [.pdf]
    or [.docx] (and whose name holds an identifier); for any other
    extension, [.doc] and the other image types included, it returns [None]
    without calling OCR or any other collaborator. *)
Theorem process_single_file_supported_extensions
    (env : Process_files.Env) (file_path : string) (cm : ConceptMapping)
    (output_dir : string) (trace : list Event) :
  (lower (snd (splitext file_path)) ∉ [".png"; ".pdf"; ".docx"] ->
   process_single_file env file_path cm output_dir trace = (Returns None, trace))
  /\ (lower (snd (splitext file_path)) ∈ [".png"; ".pdf"; ".docx"] ->
      forall id, extract_file_id (basename file_path) = Some id ->
      exists ocr_text rest r,
        process_file_with_combined_ocr (ocr_env env) file_path None = Returns ocr_text /\
        process_single_file env file_path cm output_dir trace =
          (Returns r,
           trace ++ OcrCalled file_path ::
                    AspectsRequested ocr_text (collect_concept_values cm)
                                     (drop 1 (lower (snd (splitext file_path)))) :: rest)).
Proof.
  split.
  - apply process_single_file_unsupported.
  - intros Hext id Hid. by eapply process_single_file_supported.
Qed.

Lemma process_single_file_supported_extensions_witness :
  process_single_file Samples.env_ok "scans/cv_12.txt" [] "out" [] = (Returns None, [])
  /\ exists ocr_text rest r,
       process_single_file Samples.env_ok "scans/cv_12.PDF" [] "out" [] =
       (Returns r, OcrCalled "scans/cv_12.PDF" :: AspectsRequested ocr_text [] "pdf" :: rest).
Proof.
  split.
  - apply (proj1 (process_single_file_supported_extensions
                    Samples.env_ok "scans/cv_12.txt" [] "out" [])).
    by apply str_in_false.
  - destruct (proj2 (process_single_file_supported_extensions
                       Samples.env_ok "scans/cv_12.PDF" [] "out" [])
                    ltac:(by apply str_in_true)
                    "12" eq_refl) as (ocr_text & rest & r & _ & H).
    exists ocr_text, rest, r. exact H.
Defined.

(** The claim C7 fails for the legacy word-processor format and for images
    other than PNG: with every collaborator working, a [.doc] file and a
    [.jpg] file that carry an identifier are skipped, and OCR is not called. *)
Lemma doc_and_jpg_files_are_skipped :
  process_single_file Samples.env_ok "cv_12.doc" [] "out" [] = (Returns None, [])
  /\ process_single_file Samples.env_ok "scan_12.jpg" [] "out" [] = (Returns None, [])
  /\ extract_file_id "cv_12.doc" = Some "12"
  /\ extract_file_id "scan_12.jpg" = Some "12".
Proof. by vm_compute. Qed.

(** C10. [combine_ocr_results] and [process_file_with_combined_ocr] always
    return a string and never raise: an exception raised inside either is
    returned as a message that starts with "Error" (so is a failure to
    create the model client once the OCR results were gathered). The text
    they return, error message or not, is what [process_single_file] passes
    on to aspect extraction as the text of the document. *)
Theorem failures_are_returned_as_error_text
    (env : Process_files.Env) (file_path : string) (given : option OcrResults)
    (r : OcrResults) (file_type language : option string)
    (cm : ConceptMapping) (output_dir : string) (trace : list Event) :
  (exists text,
      combine_ocr_results (ocr_env env) r file_type language = Returns text /\
      forall e, combine_ocr_results_try (ocr_env env) r file_type language = Raises e ->
                text = "Error combining OCR results with Claude: " +:+ e /\
                startswith text "Error" = true)
  /\ (exists text,
        process_file_with_combined_ocr (ocr_env env) file_path given = Returns text /\
        (forall e, process_file_with_combined_ocr_try (ocr_env env) file_path given = Raises e ->
                   text = "Error processing file with combined OCR: " +:+ e /\
                   startswith text "Error" = true) /\
        (forall e r' l',
            anthropic_vertex (ocr_env env) = Raises e ->
            gather (ocr_env env) file_path given = Returns (ToCombine r' l') ->
            text = "Error combining OCR results with Claude: " +:+ e /\
            startswith text "Error" = true))
  /\ (lower (snd (splitext file_path)) ∈ [".png"; ".pdf"; ".docx"] ->
      forall id, extract_file_id (basename file_path) = Some id ->
      exists ocr_text rest res,
        process_file_with_combined_ocr (ocr_env env) file_path None = Returns ocr_text /\
        process_single_file env file_path cm output_dir trace =
          (Returns res,
           trace ++ OcrCalled file_path ::
                    AspectsRequested ocr_text (collect_concept_values cm)
                                     (drop 1 (lower (snd (splitext file_path)))) :: rest)).
Proof.
  split; [|split].
  - rewrite /combine_ocr_results.
    destruct (combine_ocr_results_try _ r file_type language) as [text|e'] eqn:Htry.
    + exists text. split; [done | by intros e [=]].
    + eexists. split; [done|]. by intros e [= <-].
  - rewrite /process_file_with_combined_ocr /process_file_with_combined_ocr_try.
    destruct (gather (ocr_env env) file_path given) as [[message|r' l']|e'] eqn:Hg; simpl.
    + exists message. split; [done|]. split; [by intros e [=] | by intros e r'' l'' _ [=]].
    + rewrite /combine_ocr_results /combine_ocr_results_try.
      destruct (anthropic_vertex (ocr_env env)) as [[]|e'] eqn:Hc; simpl.
      * destruct (messages_create _ _) as [text|e']; simpl;
          (eexists; split; [done|]; split; [by intros e [=] | by intros e r'' l'' [=]]).
      * eexists. split; [done|]. split; [by intros e [=]|].
        by intros e r'' l'' [= <-] _.
    + eexists. split; [done|]. split; [by intros e [= <-] | by intros e r'' l'' _ [=]].
  - intros Hext id Hid. by eapply process_single_file_supported.
Qed.

Lemma failures_are_returned_as_error_text_witness :
  exists rest res,
    process_single_file (Samples.with_ocr Samples.ocr_no_client) "cv_12.pdf" [] "out" [] =
    (Returns res,
     OcrCalled "cv_12.pdf" ::
     AspectsRequested "Error combining OCR results with Claude: no credentials" [] "pdf" ::
     rest).
Proof.
  destruct (failures_are_returned_as_error_text
              (Samples.with_ocr Samples.ocr_no_client) "cv_12.pdf" None [] None None
              [] "out" [])
    as (_ & (text & Htext & _ & Hclient) & Hdown).
  destruct (Hdown ltac:(by apply str_in_true) "12" eq_refl)
    as (ocr_text & rest & res & Hocr & Hrun).
  destruct (Hclient "no credentials" [("PyPDF2", OStr "Jane Doe")] None eq_refl eq_refl)
    as [Heq _].
  exists rest, res. rewrite Hrun.
  rewrite Htext in Hocr. injection Hocr as <-. by rewrite Heq.
Defined.

End Process_files_facts.

(** ** Process_files.py: the store *)

Module Store_facts.
Import Py Py_facts pandas excel_to_concepts excel_to_concepts_facts Process_files.

(** *** The row of a document *)

Lemma make_row_keys_NoDup (json_data : JsonData) (concepts : list Concept) :
  NoDup (dict_keys (make_row json_data concepts)).
Proof.
  rewrite /make_row.
  assert (NoDup (dict_keys [("ID", CStr (file_id json_data));
                            ("File Type", CStr (file_type json_data))])) as Hinit.
  { apply NoDup_cons. split; [|apply NoDup_singleton].
    by intros [=]%list_elem_of_singleton. }
  revert Hinit. generalize [("ID", CStr (file_id json_data));
                            ("File Type", CStr (file_type json_data))].
  induction concepts as [|c concepts IH]; intros row Hrow; [done|].
  apply IH. rewrite /add_concept.
  destruct (_ !! _); by apply dict_set_NoDup.
Qed.

Lemma make_row_ID (json_data : JsonData) (concepts : list Concept) :
  Forall (fun c => concept_value c <> "ID") concepts ->
  dict_get "ID" (make_row json_data concepts) = Some (CStr (file_id json_data)).
Proof.
  rewrite /make_row.
  assert (dict_get "ID" [("ID", CStr (file_id json_data));
                         ("File Type", CStr (file_type json_data))]
          = Some (CStr (file_id json_data))) as Hinit by done.
  revert Hinit. generalize [("ID", CStr (file_id json_data));
                            ("File Type", CStr (file_type json_data))].
  induction concepts as [|c concepts IH]; intros row Hrow Hc; [done|].
  apply Forall_cons in Hc as [Hc Hcs]. apply IH; [|done].
  rewrite /add_concept. destruct (_ !! _); by rewrite dict_get_set_ne.
Qed.

Lemma list_to_map_dict_get (row : Dict Cell) (col : string) :
  (list_to_map row : gmap string Cell) !! col = dict_get col row.
Proof.
  induction row as [|[k v] row IH]; simpl; [done|].
  destruct (String.eqb k col) eqn:Hk.
  - apply String.eqb_eq in Hk as ->. by rewrite lookup_insert_eq.
  - apply String.eqb_neq in Hk. by rewrite lookup_insert_ne.
Qed.

(** *** Writing a row over a found one *)

Lemma written_lookup (cols : list string) (row : Dict Cell) (r : gmap string Cell)
    (col : string) :
  NoDup (dict_keys row) ->
  written cols row r !! col =
  match dict_get col row with
  | Some v => if str_in col cols then Some v else r !! col
  | None => r !! col
  end.
Proof.
  rewrite /written /dict_keys. revert r.
  induction row as [|[k v] row IH]; intros r Hnd; simpl; [done|].
  apply NoDup_cons in Hnd as [Hk Hnd]. rewrite IH //.
  destruct (String.eqb k col) eqn:Hkc.
  - apply String.eqb_eq in Hkc as ->.
    assert (dict_get col row = None) as -> by by apply dict_get_None.
    destruct (str_in col cols); [by rewrite lookup_insert_eq | done].
  - apply String.eqb_neq in Hkc.
    assert ((if str_in k cols then <[k:=v]> r else r) !! col = r !! col) as ->.
    { destruct (str_in k cols); [by rewrite lookup_insert_ne | done]. }
    done.
Qed.

Lemma overwrite_row_acc (xl : Excel) (cols : list string) (rws : list (gmap string Cell))
    (idx : nat) (row : Dict Cell) (f : gmap string Cell -> gmap string Cell)
    (df' : DataFrame) :
  overwrite_row xl {| columns := cols; rows := alter f idx rws |} idx row = Returns df' ->
  df' = {| columns := cols; rows := alter (fun r => written cols row (f r)) idx rws |}.
Proof.
  revert f. induction row as [|[k v] row IH]; intros f; simpl.
  - by intros [= <-].
  - rewrite /overwrite_cell /has_column /set_at /=.
    destruct (str_in k cols) eqn:Hk; simpl.
    + destruct (setitem xl _ idx k v) as [[]|e]; simpl; [|done].
      rewrite list_alter_alter_eq. intros H. by apply IH in H.
    + intros H. by apply IH in H.
Qed.

(** When the loop over the row returns, the row found is overwritten and
    nothing else has changed. *)
Lemma overwrite_row_returns (xl : Excel) (df : DataFrame) (idx : nat) (row : Dict Cell)
    (df' : DataFrame) :
  overwrite_row xl df idx row = Returns df' -> df' = overwritten df idx row.
Proof.
  destruct df as [cols rws]. rewrite /overwritten /=.
  rewrite -{1}(list_alter_id (fun r => r) rws idx) //.
  apply overwrite_row_acc.
Qed.


(** The row of a document starts with its identity column. *)
Lemma make_row_head (json_data : JsonData) (concepts : list Concept) :
  exists v rest, make_row json_data concepts = ("ID", v) :: rest.
Proof.
  rewrite /make_row.
  assert (exists v rest, [("ID", CStr (file_id json_data));
                          ("File Type", CStr (file_type json_data))]
                         = ("ID", v) :: rest) as Hinit by by do 2 eexists.
  revert Hinit. generalize [("ID", CStr (file_id json_data));
                            ("File Type", CStr (file_type json_data))].
  induction concepts as [|c concepts IH]; intros row Hrow; [done|].
  apply IH. destruct Hrow as (v & rest & ->).
  rewrite /add_concept.
  destruct (_ !! _); cbn [dict_set]; destruct (String.eqb "ID" (concept_value c));
    by do 2 eexists.
Qed.


(** *** Finding the row of an identifier *)

Lemma positions_from_found (i : nat) (key : string) (l : list string) :
  str_in key l = true ->
  exists idx rest,
    positions_from i key l = (i + idx)%nat :: rest /\
    l !! idx = Some key /\
    (forall j, (j < idx)%nat -> l !! j <> Some key).
Proof.
  revert i. induction l as [|s l IH]; intros i Hin; [done|].
  simpl. destruct (String.eqb s key) eqn:Hs.
  - apply String.eqb_eq in Hs as ->. exists 0%nat. eexists.
    split; [by rewrite Nat.add_0_r|]. split; [done | lia].
  - apply String.eqb_neq in Hs.
    rewrite /str_in /= String.eqb_sym in Hin.
    assert (String.eqb s key = false) as Hs' by by apply String.eqb_neq.
    rewrite Hs' /= in Hin.
    destruct (IH (S i) Hin) as (idx & rest & Hpos & Hget & Hfirst).
    exists (S idx), rest. split; [by rewrite Hpos Nat.add_succ_r|].
    split; [done|]. intros [|j] Hj; simpl; [congruence | apply Hfirst; lia].
Qed.

(** *** One sheet *)

Lemma ids_lookup (df : DataFrame) (idx : nat) (id : string) :
  ids df !! idx = Some id ->
  exists r, rows df !! idx = Some r /\ astype_str (cell r "ID") = id.
Proof.
  rewrite /ids /column_as_str. intros H.
  change (map ?f ?l) with (f <$> l) in H.
  apply list_lookup_fmap_Some in H as (r & ? & ?). eauto.
Qed.

Lemma upsert_sheet_found (xl : Excel) (json_data : JsonData) (concepts : list Concept)
    (df : DataFrame) :
  has_column df "ID" = true -> str_in (file_id json_data) (ids df) = true ->
  exists idx r,
    ids df !! idx = Some (file_id json_data) /\
    (forall j, (j < idx)%nat -> ids df !! j <> Some (file_id json_data)) /\
    rows df !! idx = Some r /\
    astype_str (cell r "ID") = file_id json_data /\
    upsert_sheet xl json_data concepts df =
      overwrite_row xl df idx (make_row json_data concepts).
Proof.
  intros Hcol Hin. rewrite /upsert_sheet Hcol. fold (ids df). rewrite Hin /matching_index.
  fold (ids df).
  destruct (positions_from_found 0 _ _ Hin) as (idx & rest & -> & Hget & Hfirst).
  destruct (ids_lookup _ _ _ Hget) as (r & Hr & Hid).
  by exists idx, r.
Qed.

Lemma upsert_sheet_append (xl : Excel) (json_data : JsonData) (concepts : list Concept)
    (df : DataFrame) :
  has_column df "ID" = false \/ str_in (file_id json_data) (ids df) = false ->
  upsert_sheet xl json_data concepts df =
    Returns (concat df (frame_of_row (make_row json_data concepts))).
Proof.
  rewrite /upsert_sheet. fold (ids df). intros [->| ->]; [done|].
  by destruct (has_column df "ID").
Qed.



Lemma ids_alter (df : DataFrame) (idx : nat) (f : gmap string Cell -> gmap string Cell) :
  (forall r, rows df !! idx = Some r ->
             astype_str (cell (f r) "ID") = astype_str (cell r "ID")) ->
  ids {| columns := columns df; rows := alter f idx (rows df) |} = ids df.
Proof.
  intros Hf. rewrite /ids /column_as_str /=.
  change (map ?g ?l) with (g <$> l).
  apply list_eq. intros j. rewrite !list_lookup_fmap.
  destruct (decide (idx = j)) as [<-|Hne].
  - rewrite list_lookup_alter_eq. destruct (rows df !! idx) as [r|] eqn:Hr; [|done].
    simpl. f_equal. by apply Hf.
  - by rewrite list_lookup_alter_ne.
Qed.

Lemma ids_concat_row (df : DataFrame) (row : Dict Cell) :
  ids (concat df (frame_of_row row)) =
  ids df ++ [astype_str (default CNaN (dict_get "ID" row))].
Proof.
  rewrite /ids /column_as_str /concat /frame_of_row /= map_app /=.
  by rewrite /cell list_to_map_dict_get.
Qed.

Lemma has_column_concat_l (a b : DataFrame) (col : string) :
  has_column a col = true -> has_column (concat a b) col = true.
Proof.
  rewrite /has_column /concat /= !str_in_true. intros H. apply elem_of_app. by left.
Qed.

Lemma has_column_frame_of_row (df : DataFrame) (json_data : JsonData)
    (concepts : list Concept) :
  has_column (concat df (frame_of_row (make_row json_data concepts))) "ID" = true.
Proof.
  destruct (has_column df "ID") eqn:Hdf; [by apply has_column_concat_l|].
  rewrite /has_column /concat /= str_in_true. apply elem_of_app. right.
  apply list_elem_of_filter. split; [done|].
  destruct (make_row_head json_data concepts) as (v & rest & ->).
  apply list_elem_of_here.
Qed.

Lemma NoDup_snoc (l : list string) (x : string) :
  NoDup l -> x ∉ l -> NoDup (l ++ [x]).
Proof.
  intros Hl Hx. apply NoDup_app. split; [done|]. split; [|apply NoDup_singleton].
  intros y Hy ->%list_elem_of_singleton. done.
Qed.

(** On a well-keyed sheet, and with no concept labelled "ID", the update of
    one sheet, when it returns, keeps the sheet well keyed, keeps the
    identifiers it had, and leaves a row for the document: the row found,
    or a new last row. *)
Lemma upsert_sheet_keyed (xl : Excel) (json_data : JsonData) (concepts : list Concept)
    (df df' : DataFrame) :
  Forall (fun c => concept_value c <> "ID") concepts ->
  well_keyed df ->
  upsert_sheet xl json_data concepts df = Returns df' ->
  well_keyed df' /\
  ids df' = (if str_in (file_id json_data) (ids df) then ids df
             else ids df ++ [file_id json_data]).
Proof.
  intros Hc [Hcol Hnd].
  destruct (str_in (file_id json_data) (ids df)) eqn:Hin.
  - destruct (upsert_sheet_found xl json_data concepts df Hcol Hin)
      as (idx & r & Hget & _ & Hr & Hid & ->).
    intros ->%overwrite_row_returns.
    assert (ids (overwritten df idx (make_row json_data concepts)) = ids df) as Hids.
    { apply ids_alter. intros r' Hr'. rewrite Hr in Hr'. injection Hr' as <-.
      rewrite /cell written_lookup; [apply make_row_keys_NoDup|].
      rewrite make_row_ID //. rewrite /has_column in Hcol. by rewrite Hcol /= -Hid. }
    split; [|done]. split; [done | by rewrite Hids].
  - rewrite upsert_sheet_append; [by right|]. intros [= <-].
    assert (ids (concat df (frame_of_row (make_row json_data concepts)))
            = ids df ++ [file_id json_data]) as Hids.
    { by rewrite ids_concat_row make_row_ID. }
    split; [|done]. split; [apply has_column_frame_of_row|].
    rewrite Hids. apply NoDup_snoc; [done | by apply str_in_false].
Qed.

(** *** The loops over the sheets *)

Lemma well_keyed_empty_frame : well_keyed (empty_frame ["ID"; "File Type"]).
Proof. split; [done | apply NoDup_nil_2]. Qed.

(** The loop of the existing file, for a mapping whose keys are all
    different (a [dict]): when it returns, every sheet of the mapping holds
    the update of the frame that was read for it (of an empty frame with
    the identity columns when the file had no such sheet), and every other
    sheet is as it was read. *)
Lemma update_sheets_spec (xl : Excel) (json_data : JsonData) (cm : ConceptMapping)
    (existing existing' : gmap string DataFrame) :
  NoDup (dict_keys cm) ->
  update_sheets xl json_data existing cm = Returns existing' ->
  (forall sheet concepts,
      (sheet, concepts) ∈ cm ->
      exists df',
        upsert_sheet xl json_data concepts
          (default (empty_frame ["ID"; "File Type"]) (existing !! sheet)) = Returns df' /\
        existing' !! sheet = Some df') /\
  (forall s, s ∉ dict_keys cm -> existing' !! s = existing !! s).
Proof.
  revert existing. induction cm as [|[sheet concepts] cm IH]; intros existing Hnd; simpl.
  - intros [= <-]. split; [by intros ?? ?%elem_of_nil | done].
  - apply NoDup_cons in Hnd as [Hsheet Hnd]. rewrite /update_sheet /=.
    destruct (upsert_sheet xl json_data concepts _) as [df1|e] eqn:Hup; simpl; [|done].
    intros Hrest. destruct (IH _ Hnd Hrest) as [Hin Hout]. split.
    + intros s cs [[= -> ->]|Hs]%elem_of_cons.
      * exists df1. split; [done|]. by rewrite Hout // lookup_insert_eq.
      * destruct (Hin s cs Hs) as (df' & Hdf' & Hlook).
        exists df'. split; [|done]. rewrite lookup_insert_ne // in Hdf'.
        intros ->. apply Hsheet. apply list_elem_of_fmap. by exists (s, cs).
    + intros s [Hne Hs]%not_elem_of_cons. by rewrite Hout // lookup_insert_ne.
Qed.



(** The loop of the new file, for a mapping whose keys are all different:
    one frame per sheet of the mapping, holding the row of the document. *)
Lemma new_sheets_spec (json_data : JsonData) (cm : ConceptMapping) :
  NoDup (dict_keys cm) ->
  (forall sheet concepts,
      (sheet, concepts) ∈ cm ->
      new_sheets json_data cm !! sheet = Some (frame_of_row (make_row json_data concepts))) /\
  (forall s, s ∉ dict_keys cm -> new_sheets json_data cm !! s = None).
Proof.
  rewrite /new_sheets.
  assert (forall acc : gmap string DataFrame,
    NoDup (dict_keys cm) ->
    let m := fold_left (fun sheet_data sheet =>
                          <[fst sheet := frame_of_row (make_row json_data (snd sheet))]>
                            sheet_data) cm acc in
    (forall sheet concepts,
        (sheet, concepts) ∈ cm ->
        m !! sheet = Some (frame_of_row (make_row json_data concepts))) /\
    (forall s, s ∉ dict_keys cm -> m !! s = acc !! s)) as Hgen.
  { induction cm as [|[sheet concepts] cm IH]; intros acc Hnd; simpl.
    - split; [by intros ?? ?%elem_of_nil | done].
    - apply NoDup_cons in Hnd as [Hsheet Hnd].
      destruct (IH (<[sheet := frame_of_row (make_row json_data concepts)]> acc) Hnd)
        as [Hin Hout].
      split.
      + intros s cs [[= -> ->]|Hs]%elem_of_cons; [|by apply Hin].
        by rewrite Hout // lookup_insert_eq.
      + intros s [Hne Hs]%not_elem_of_cons. by rewrite Hout // lookup_insert_ne. }
  intros Hnd. destruct (Hgen ∅ Hnd) as [Hin Hout]. split; [done|].
  intros s Hs. by rewrite Hout.
Qed.

(** *** The writer and the whole function *)

Lemma write_sheets_true (xl : Excel) (store store' : Store)
    (sheets : gmap string DataFrame) :
  write_sheets xl store sheets = (true, store') -> store' = Saved sheets.
Proof.
  rewrite /write_sheets. destruct (map_to_list sheets); [done|].
  destruct (to_excel xl store sheets); [done|]. by intros [= <-].
Qed.


(** What a call that returns [True] has done. *)
Lemma update_excel_true (xl : Excel) (json_data : JsonData) (cm : ConceptMapping)
    (store store' : Store) :
  update_excel_with_json_data xl json_data cm store = (true, store') ->
  match store with
  | Missing => store' = Saved (new_sheets json_data cm)
  | _ =>
      exists existing existing',
        read_sheets xl store = Returns existing /\
        update_sheets xl json_data existing cm = Returns existing' /\
        store' = Saved existing'
  end.
Proof.
  rewrite /update_excel_with_json_data.
  destruct store as [|sheets|].
  - apply write_sheets_true.
  - destruct (read_sheets xl _) as [existing|e]; simpl; [|done].
    destruct (update_sheets xl json_data existing cm) as [existing'|e] eqn:Hloop; [|done].
    intros ->%write_sheets_true. by exists existing, existing'.
  - done.
Qed.


(** *** The claims on the workbook *)




(** C1 at a failing input. The concept mapping has a concept labelled "ID";
    document 482 is processed twice. The value of the concept ("Not found")
    replaces the identifier in the row, the second run does not find the
    row of the first, and the sheet ends with two rows for the document,
    none of them under 482 (with pandas 2 and with pandas 3). With no such
    concept the sheet ends with the one row of the document. *)
Theorem ID_concept_makes_duplicate_rows :
  (ids <$> (saved_sheets (upserts Samples.pandas_2
                            [(Samples.request_482, Samples.with_ID_label);
                             (Samples.request_482, Samples.with_ID_label)] Missing)
            ≫= fun m => m !! "Personal"))
    = Some ["Not found"; "Not found"]
  /\ (ids <$> (saved_sheets (upserts Samples.pandas_3
                               [(Samples.request_482, Samples.with_ID_label);
                                (Samples.request_482, Samples.with_ID_label)] Missing)
               ≫= fun m => m !! "Personal"))
    = Some ["Not found"; "Not found"]
  /\ (ids <$> (saved_sheets (upserts Samples.pandas_2
                               [(Samples.request_482, Samples.personal);
                                (Samples.request_482, Samples.personal)] Missing)
               ≫= fun m => m !! "Personal"))
    = Some ["482"]
  /\ (ids <$> (saved_sheets (upserts Samples.pandas_3
                               [(Samples.request_482, Samples.personal);
                                (Samples.request_482, Samples.personal)] Missing)
               ≫= fun m => m !! "Personal"))
    = Some ["482"].
Proof. by vm_compute. Qed.

End Store_facts.

(** ** debug_OCR_THROW_PNG.py *)

Module Cascade_facts.
Import Py Py_facts debug_OCR_THROW_PNG.

Ltac eff_unfold :=
  rewrite /mbind /mret /eff_bind /eff_ret /Eff.attempt /Eff.try_finally /Eff.try_except
          /Eff.bind /Eff.ret /Eff.call /Eff.modify /log /named_temporary_file
          /remove /unlink /=.

Ltac strategy_image :=
  first [ by intros p [=]
        | intros p [= <-]; split;
          [reflexivity | apply elem_of_app; right; apply list_elem_of_here] ].

Ltac finish_strategy :=
  simpl; do 2 eexists;
  split; [reflexivity|];
  split; [by rewrite -?app_assoc /=|];
  split; [reflexivity|];
  split; [repeat (apply List.Forall_cons; [reflexivity|]); apply List.Forall_nil
         | strategy_image].

Lemma convert_with_pdf2image_runs (env : Env) (pdf_path : Path) :
  runs_as Pdf2image (convert_with_pdf2image env pdf_path).
Proof.
  intros w. rewrite /convert_with_pdf2image. eff_unfold.
  destruct (import_pdf2image env) as [[]|e]; [|finish_strategy].
  simpl. destruct (convert_from_path env pdf_path _) as [[|n]|e]; simpl; try finish_strategy.
  destruct (image_save env _) as [[]|e]; finish_strategy.
Qed.

Lemma convert_pdf_to_png_with_pymupdf_runs (env : Env) (pdf_path : Path) :
  runs_as PyMuPDF (convert_pdf_to_png_with_pymupdf env pdf_path).
Proof.
  intros w. rewrite /convert_pdf_to_png_with_pymupdf. eff_unfold.
  destruct (import_fitz env) as [[]|e]; [|finish_strategy].
  simpl. destruct (fitz_open env pdf_path) as [[|n]|e]; simpl; try finish_strategy.
  destruct (get_pixmap env pdf_path) as [[]|e]; simpl; try finish_strategy.
  destruct (pix_save env _) as [[]|e]; finish_strategy.
Qed.

Lemma convert_with_imagemagick_runs (env : Env) (pdf_path : Path) :
  runs_as ImageMagick (convert_with_imagemagick env pdf_path).
Proof.
  intros w. rewrite /convert_with_imagemagick. eff_unfold.
  destruct (run_magick env pdf_path _) as [[]|e]; finish_strategy.
Qed.

Lemma outcomes_app (a b : list Event) : outcomes (a ++ b) = outcomes a ++ outcomes b.
Proof. apply omap_app. Qed.

Lemma Forall_first_page_app (a b : list Event) :
  Forall (fun e => first_page_only e = true) a ->
  Forall (fun e => first_page_only e = true) b ->
  Forall (fun e => first_page_only e = true) (a ++ b).
Proof. intros. by apply Forall_app. Qed.

(** With no pdf2image and a working PyMuPDF, the second strategy gives the image. *)
Lemma second_strategy_gives_image (env : Env) (pdf_path : Path) (w : World)
    (e : string) (pages : nat) :
  import_pdf2image env = Raises e ->
  import_fitz env = Returns tt ->
  fitz_open env pdf_path = Returns (S pages) ->
  get_pixmap env pdf_path = Returns tt ->
  pix_save env (TempFile (made w) ".png") = Returns tt ->
  fst (convert_pdf_to_png env pdf_path w) = Returns (Some (TempFile (made w) ".png")).
Proof.
  intros H1 H2 H3 H4 H5.
  rewrite /convert_pdf_to_png /convert_with_pdf2image /convert_pdf_to_png_with_pymupdf.
  eff_unfold. by rewrite H1 /= H2 /= H3 /= H4 /= H5.
Qed.

(** Each strategy against the host: what it returns, whether it reserved a
    temporary file, and whether it called its renderer. *)
Lemma convert_with_pdf2image_calls (env : Env) (pdf_path : Path) (w : World) :
  let result := convert_with_pdf2image env pdf_path w in
  fst result = Returns (if pdf2image_renders env pdf_path (temp_png (made w))
                        then Some (temp_png (made w)) else None) /\
  made (snd result) = (if pdf2image_reserves env pdf_path then S (made w) else made w) /\
  asked (skipn (List.length (events w)) (events (snd result)))
    = (if pdf2image_called env then [Pdf2image] else []).
Proof.
  rewrite /convert_with_pdf2image /pdf2image_renders /pdf2image_reserves
          /pdf2image_called /poppler_arg /temp_png /returns.
  eff_unfold.
  destruct (import_pdf2image env) as [[]|e]; simpl;
    [|by rewrite drop_app_length].
  destruct (convert_from_path env pdf_path _) as [[|n]|e]; simpl;
    try by rewrite -?app_assoc drop_app_length.
  destruct (image_save env _) as [[]|e]; simpl;
    by rewrite -?app_assoc drop_app_length.
Qed.

Lemma convert_pdf_to_png_with_pymupdf_calls (env : Env) (pdf_path : Path) (w : World) :
  let result := convert_pdf_to_png_with_pymupdf env pdf_path w in
  fst result = Returns (if pymupdf_renders env pdf_path (temp_png (made w))
                        then Some (temp_png (made w)) else None) /\
  made (snd result) = (if pymupdf_reserves env pdf_path then S (made w) else made w) /\
  asked (skipn (List.length (events w)) (events (snd result)))
    = (if pymupdf_called env pdf_path then [PyMuPDF] else []).
Proof.
  rewrite /convert_pdf_to_png_with_pymupdf /pymupdf_renders /pymupdf_reserves
          /pymupdf_called /temp_png /returns.
  eff_unfold.
  destruct (import_fitz env) as [[]|e]; simpl;
    [|by rewrite drop_app_length].
  destruct (fitz_open env pdf_path) as [[|n]|e]; simpl;
    try by rewrite -?app_assoc drop_app_length.
  destruct (get_pixmap env pdf_path) as [[]|e]; simpl;
    try by rewrite -?app_assoc drop_app_length.
  destruct (pix_save env _) as [[]|e]; simpl;
    by rewrite -?app_assoc drop_app_length.
Qed.

Lemma convert_with_imagemagick_calls (env : Env) (pdf_path : Path) (w : World) :
  let result := convert_with_imagemagick env pdf_path w in
  fst result = Returns (if imagemagick_renders env pdf_path (temp_png (made w))
                        then Some (temp_png (made w)) else None) /\
  asked (skipn (List.length (events w)) (events (snd result))) = [ImageMagick].
Proof.
  rewrite /convert_with_imagemagick /imagemagick_renders /temp_png /returns.
  eff_unfold.
  destruct (run_magick env pdf_path _) as [[]|e]; simpl;
    by rewrite -?app_assoc drop_app_length.
Qed.

Lemma asked_app (a b : list Event) : asked (a ++ b) = asked a ++ asked b.
Proof. apply omap_app. Qed.

(** The cascade against the host: the image of the first strategy that
    renders, and the renderers called up to there. *)
Lemma convert_pdf_to_png_first_rendering (env : Env) (pdf_path : Path) (w : World) :
  let result := convert_pdf_to_png env pdf_path w in
  fst result = Returns (first_rendering env pdf_path (made w)) /\
  asked (skipn (List.length (events w)) (events (snd result)))
    = expected_calls env pdf_path (made w).
Proof.
  rewrite /convert_pdf_to_png /first_rendering /expected_calls /mbind /eff_bind /Eff.bind.
  destruct (convert_with_pdf2image_calls env pdf_path w) as (Hr1 & Hm1 & Ha1).
  destruct (convert_with_pdf2image_runs env pdf_path w)
    as (r1 & new1 & _ & Hev1 & _).
  destruct (convert_with_pdf2image env pdf_path w) as [o1 w1]. simpl in *. subst o1.
  rewrite Hev1 drop_app_length in Ha1.
  destruct (pdf2image_renders env pdf_path (temp_png (made w))).
  { simpl. by rewrite Hev1 drop_app_length Ha1 app_nil_r. }
  destruct (convert_pdf_to_png_with_pymupdf_calls env pdf_path w1) as (Hr2 & Hm2 & Ha2).
  destruct (convert_pdf_to_png_with_pymupdf_runs env pdf_path w1)
    as (r2 & new2 & _ & Hev2 & _).
  destruct (convert_pdf_to_png_with_pymupdf env pdf_path w1) as [o2 w2]. simpl in *.
  subst o2. rewrite Hev2 drop_app_length in Ha2. rewrite -Hm1.
  destruct (pymupdf_renders env pdf_path (temp_png (made w1))).
  { simpl. by rewrite Hev2 Hev1 -app_assoc drop_app_length asked_app Ha1 Ha2 app_nil_r. }
  destruct (convert_with_imagemagick_calls env pdf_path w2) as (Hr3 & Ha3).
  destruct (convert_with_imagemagick_runs env pdf_path w2)
    as (r3 & new3 & _ & Hev3 & _).
  destruct (convert_with_imagemagick env pdf_path w2) as [o3 w3]. simpl in *.
  subst o3. rewrite Hev3 drop_app_length in Ha3. rewrite -Hm2.
  split; [done|].
  by rewrite Hev3 Hev2 Hev1 -!app_assoc drop_app_length !asked_app Ha1 Ha2 Ha3.
Qed.

(** C5. [convert_pdf_to_png] tries pdf2image with poppler, then PyMuPDF,
    then ImageMagick, in this order; each renderer is asked for the first
    page only; the first strategy that gives an image ends the function,
    which returns that image, a temporary PNG file on disk (so with no
    pdf2image and a working PyMuPDF the second strategy gives the image);
    when the three fail the function returns [None]; it never raises.
    Against the host: the result is the image of the first of the three
    strategies whose renderer renders and saves the page, [None] when none
    does; the renderers called are those of the strategies up to that one,
    and none after it. *)
Theorem convert_pdf_to_png_cascade (env : Env) (pdf_path : Path) (w : World) :
  let result := convert_pdf_to_png env pdf_path w in
  exists r new,
    fst result = Returns r /\
    events (snd result) = events w ++ new /\
    Forall (fun e => first_page_only e = true) new /\
    ((exists p, outcomes new = [(Pdf2image, Some p)] /\ r = Some p)
     \/ (exists p, outcomes new = [(Pdf2image, None); (PyMuPDF, Some p)] /\ r = Some p)
     \/ (exists p, outcomes new = [(Pdf2image, None); (PyMuPDF, None); (ImageMagick, Some p)]
                   /\ r = Some p)
     \/ (outcomes new = [(Pdf2image, None); (PyMuPDF, None); (ImageMagick, None)]
         /\ r = None)) /\
    (forall p, r = Some p -> p ∈ files (snd result) /\ exists n, p = TempFile n ".png") /\
    (forall e pages,
        import_pdf2image env = Raises e ->
        import_fitz env = Returns tt ->
        fitz_open env pdf_path = Returns (S pages) ->
        get_pixmap env pdf_path = Returns tt ->
        pix_save env (TempFile (made w) ".png") = Returns tt ->
        r = Some (TempFile (made w) ".png")) /\
    r = first_rendering env pdf_path (made w) /\
    asked new = expected_calls env pdf_path (made w).
Proof.
  intros result.
  assert (forall r new,
            fst result = Returns r -> events (snd result) = events w ++ new ->
            r = first_rendering env pdf_path (made w) /\
            asked new = expected_calls env pdf_path (made w)) as Hhost.
  { intros r new Hr Hev.
    destruct (convert_pdf_to_png_first_rendering env pdf_path w) as [Hfirst Hasked].
    fold result in Hfirst, Hasked. rewrite Hr in Hfirst. injection Hfirst as ->.
    by rewrite Hev drop_app_length in Hasked. }
  revert Hhost.
  assert (forall r, fst result = Returns r ->
            forall e pages,
              import_pdf2image env = Raises e ->
              import_fitz env = Returns tt ->
              fitz_open env pdf_path = Returns (S pages) ->
              get_pixmap env pdf_path = Returns tt ->
              pix_save env (TempFile (made w) ".png") = Returns tt ->
              r = Some (TempFile (made w) ".png")) as Hsecond.
  { intros r Hr e pages H1 H2 H3 H4 H5.
    rewrite /result (second_strategy_gives_image env pdf_path w e pages) // in Hr.
    by injection Hr. }
  revert Hsecond. rewrite /result /convert_pdf_to_png. clear result.
  rewrite /mbind /eff_bind /Eff.bind.
  destruct (convert_with_pdf2image_runs env pdf_path w)
    as (r1 & new1 & Hr1 & Hev1 & Hout1 & Hfp1 & Him1).
  destruct (convert_with_pdf2image env pdf_path w) as [o1 w1]. simpl in *. subst o1.
  destruct r1 as [p1|].
  { intros Hsecond Hhost. destruct (Hhost (Some p1) new1 eq_refl Hev1) as [Hfirst Hasked].
    exists (Some p1), new1. simpl. split_and!; try done.
    - left. by exists p1.
    - intros p [= <-]. destruct (Him1 p1 eq_refl) as [-> Hin]. split; [done | by eexists].
    - intros. by eapply Hsecond. }
  destruct (convert_pdf_to_png_with_pymupdf_runs env pdf_path w1)
    as (r2 & new2 & Hr2 & Hev2 & Hout2 & Hfp2 & Him2).
  destruct (convert_pdf_to_png_with_pymupdf env pdf_path w1) as [o2 w2]. simpl in *. subst o2.
  destruct r2 as [p2|].
  { intros Hsecond Hhost.
    assert (events w2 = events w ++ new1 ++ new2) as Hev by by rewrite Hev2 Hev1 -app_assoc.
    destruct (Hhost (Some p2) (new1 ++ new2) eq_refl Hev) as [Hfirst Hasked].
    exists (Some p2), (new1 ++ new2). simpl.
    rewrite Hev2 Hev1 app_assoc outcomes_app Hout1 Hout2. split_and!; try done.
    - by apply Forall_first_page_app.
    - right. left. by exists p2.
    - intros p [= <-]. destruct (Him2 p2 eq_refl) as [-> Hin]. split; [done | by eexists].
    - intros. by eapply Hsecond. }
  destruct (convert_with_imagemagick_runs env pdf_path w2)
    as (r3 & new3 & Hr3 & Hev3 & Hout3 & Hfp3 & Him3).
  destruct (convert_with_imagemagick env pdf_path w2) as [o3 w3]. simpl in *. subst o3.
  intros Hsecond Hhost.
  assert (events w3 = events w ++ new1 ++ new2 ++ new3) as Hev
    by by rewrite Hev3 Hev2 Hev1 -!app_assoc.
  destruct (Hhost r3 (new1 ++ new2 ++ new3) eq_refl Hev) as [Hfirst Hasked].
  exists r3, (new1 ++ new2 ++ new3).
  rewrite Hev3 Hev2 Hev1 -!app_assoc !outcomes_app Hout1 Hout2 Hout3.
  split_and!; try done.
  - by repeat apply Forall_first_page_app.
  - destruct r3 as [p3|]; [right; right; left; by exists p3 | by repeat right].
  - intros p Hp. destruct (Him3 p Hp) as [-> Hin]. split; [done | by eexists].
  - intros. by eapply Hsecond.
Qed.

Lemma convert_pdf_to_png_cascade_witness :
  (fst (convert_pdf_to_png Samples.host_with_pymupdf
          (UserFile "request_482.pdf") Samples.disk)
   = Returns (Some (TempFile 0 ".png")))
  /\ (let result := convert_pdf_to_png Samples.host_with_poppler
                      (UserFile "request_482.pdf") Samples.disk in
      fst result = Returns (Some (TempFile 0 ".png"))
      /\ asked (events (snd result)) = [Pdf2image])
  /\ (let result := convert_pdf_to_png Samples.host_with_magick
                      (UserFile "request_482.pdf") Samples.disk in
      fst result = Returns (Some (TempFile 1 ".png"))
      /\ asked (events (snd result)) = [Pdf2image; PyMuPDF; ImageMagick])
  /\ (let result := convert_pdf_to_png Samples.bare_host
                      (UserFile "request_482.pdf") Samples.disk in
      fst result = Returns None
      /\ asked (events (snd result)) = [ImageMagick]).
Proof.
  split_and!.
  - destruct (convert_pdf_to_png_cascade Samples.host_with_pymupdf
                (UserFile "request_482.pdf") Samples.disk)
      as (r & new & Hr & _ & _ & _ & _ & Hsecond & _).
    rewrite Hr. f_equal.
    exact (Hsecond "No module named 'pdf2image'" 1%nat eq_refl eq_refl eq_refl eq_refl eq_refl).
  - destruct (convert_pdf_to_png_cascade Samples.host_with_poppler
                (UserFile "request_482.pdf") Samples.disk)
      as (r & new & Hr & Hev & _ & _ & _ & _ & Hfirst & Hasked).
    change (events Samples.disk ++ new) with new in Hev.
    cbv zeta. rewrite Hr Hev Hfirst Hasked. by split.
  - destruct (convert_pdf_to_png_cascade Samples.host_with_magick
                (UserFile "request_482.pdf") Samples.disk)
      as (r & new & Hr & Hev & _ & _ & _ & _ & Hfirst & Hasked).
    change (events Samples.disk ++ new) with new in Hev.
    cbv zeta. rewrite Hr Hev Hfirst Hasked. by split.
  - destruct (convert_pdf_to_png_cascade Samples.bare_host
                (UserFile "request_482.pdf") Samples.disk)
      as (r & new & Hr & Hev & _ & _ & _ & _ & Hfirst & Hasked).
    change (events Samples.disk ++ new) with new in Hev.
    cbv zeta. rewrite Hr Hev Hfirst Hasked. by split.
Defined.

(** *** Conversions and the files on disk *)

Ltac keep_files :=
  let name := fresh "name" in
  let Hname := fresh "Hname" in
  intros name Hname; simpl in *;
  repeat first
    [ assumption
    | apply list_elem_of_filter; split; [discriminate|]
    | apply elem_of_app; left
    | match goal with H : keeps_user_files _ _ |- _ => apply H; simpl end ].

Ltac no_image := by intros ? [=].

Ltac not_listed H :=
  repeat (apply elem_of_cons in H as [H|H]; [discriminate H|]); by apply elem_of_nil in H.

Ltac new_image :=
  let p := fresh "p" in
  intros p [= <-]; split;
  [ simpl; repeat first [ apply list_elem_of_filter; split; [discriminate|]
                        | apply elem_of_app; right; apply list_elem_of_here ]
  | by eexists ].

Ltac leaf :=
  simpl; do 2 eexists; split; [reflexivity|]; split; [keep_files | first [no_image | new_image]].

Lemma convert_with_pdf2image_safe (env : Env) (pdf_path : Path) :
  converts_safely (convert_with_pdf2image env pdf_path).
Proof.
  intros w. rewrite /convert_with_pdf2image. eff_unfold.
  destruct (import_pdf2image env) as [[]|e]; [|leaf].
  simpl. destruct (convert_from_path env pdf_path _) as [[|n]|e]; simpl; try leaf.
  destruct (image_save env _) as [[]|e]; leaf.
Qed.

Lemma convert_pdf_to_png_with_pymupdf_safe (env : Env) (pdf_path : Path) :
  converts_safely (convert_pdf_to_png_with_pymupdf env pdf_path).
Proof.
  intros w. rewrite /convert_pdf_to_png_with_pymupdf. eff_unfold.
  destruct (import_fitz env) as [[]|e]; [|leaf].
  simpl. destruct (fitz_open env pdf_path) as [[|n]|e]; simpl; try leaf.
  destruct (get_pixmap env pdf_path) as [[]|e]; simpl; try leaf.
  destruct (pix_save env _) as [[]|e]; leaf.
Qed.

Lemma convert_with_imagemagick_safe (env : Env) (pdf_path : Path) :
  converts_safely (convert_with_imagemagick env pdf_path).
Proof.
  intros w. rewrite /convert_with_imagemagick. eff_unfold.
  destruct (run_magick env pdf_path _) as [[]|e]; leaf.
Qed.

Lemma keeps_user_files_trans (w1 w2 w3 : World) :
  keeps_user_files w1 w2 -> keeps_user_files w2 w3 -> keeps_user_files w1 w3.
Proof. intros H12 H23 name Hname. by apply H23, H12. Qed.

Lemma convert_pdf_to_png_safe (env : Env) (pdf_path : Path) :
  converts_safely (convert_pdf_to_png env pdf_path).
Proof.
  intros w. rewrite /convert_pdf_to_png /mbind /eff_bind /Eff.bind.
  destruct (convert_with_pdf2image_safe env pdf_path w) as (r1 & w1 & -> & Hk1 & Hi1).
  destruct r1 as [p1|]; [by exists (Some p1), w1|].
  destruct (convert_pdf_to_png_with_pymupdf_safe env pdf_path w1) as (r2 & w2 & -> & Hk2 & Hi2).
  destruct r2 as [p2|].
  { exists (Some p2), w2. split; [done|]. split; [by eapply keeps_user_files_trans | done]. }
  destruct (convert_with_imagemagick_safe env pdf_path w2) as (r3 & w3 & -> & Hk3 & Hi3).
  exists r3, w3. split; [done|]. split; [|done].
  eapply keeps_user_files_trans; [|done]. by eapply keeps_user_files_trans.
Qed.

Lemma create_text_image_safe (env : Env) (text : string) :
  converts_safely (create_text_image env text).
Proof.
  intros w. rewrite /create_text_image. eff_unfold.
  destruct (import_PIL env) as [[]|e]; [|leaf].
  simpl. destruct (draw_text env text) as [[]|e]; [|leaf].
  simpl. destruct (text_image_save env _) as [[]|e]; leaf.
Qed.

(** [create_pdf_from_text] never raises; what it returns is a temporary
    PDF file. *)
Lemma create_pdf_from_text_safe (env : Env) (text : string) (w : World) :
  exists r w',
    create_pdf_from_text env text w = (Returns r, w') /\
    keeps_user_files w w' /\
    (forall p, r = Some p -> exists n, p = TempFile n ".pdf").
Proof.
  rewrite /create_pdf_from_text. eff_unfold.
  destruct (import_reportlab env) as [[]|e]; simpl.
  - destruct (build_pdf env text _) as [[]|e]; simpl; do 2 eexists;
      (split; [reflexivity|]; split; [keep_files|]).
    + intros p [= <-]. by eexists.
    + by intros p [=].
  - do 2 eexists. split; [reflexivity|]. split; [keep_files | by intros p [=]].
Qed.

(** [try: os.remove(p) except: pass] does not raise and touches no other
    file. *)
Lemma attempt_remove_keeps (env : Env) (p : Path) (w : World) :
  exists w',
    Eff.attempt (remove env p) w = (Returns tt, w') /\
    (forall q, q ∈ files w -> q <> p -> q ∈ files w').
Proof.
  eff_unfold. destruct (os_remove env p) as [[]|e]; simpl; eexists; (split; [reflexivity|]).
  - intros q Hq Hne. by apply list_elem_of_filter.
  - done.
Qed.

(** A conversion of a temporary file followed by the removal of that
    file: the image, if any, outlives the removal. *)
Lemma convert_then_remove (env : Env) (conv : M (option Path)) (n : nat) (sfx : string) :
  converts_safely conv ->
  sfx <> ".png" ->
  method_runs_safely
    (png_path ← conv;
     Eff.attempt (remove env (TempFile n sfx));;
     mret (return_if_some png_path)).
Proof.
  intros Hc Hs w. rewrite /mbind /eff_bind /Eff.bind.
  destruct (Hc w) as (r & w1 & -> & Hk & Hi).
  destruct (attempt_remove_keeps env (TempFile n sfx) w1) as (w2 & -> & Hsup).
  exists (return_if_some r), w2. split; [done|]. split.
  - intros name Hname. apply Hsup; [by apply Hk | done].
  - destruct r as [p|]; [|done]. destruct (Hi p eq_refl) as [Hin [k ->]].
    split; [|by eexists]. apply Hsup; [done|]. intros [= _ Heq]. by apply Hs.
Qed.

(** The frame of the two methods that go through Word, over what is done
    with the file Word saved: whatever Word does, the method does not
    raise, and Word is quit last. *)
Lemma word_frame_safe (env : Env) (doc_path : Path) (sfx : string) (fmt : nat)
    (body : Path -> M Flow) :
  (forall n, method_runs_safely (body (TempFile n sfx))) ->
  method_runs_safely
    (Eff.try_except
       (Eff.call (import_win32com env);;
        temp_path ← named_temporary_file sfx;
        Eff.call (word_dispatch env);;
        Eff.try_finally
          (Eff.call (word_open env doc_path);;
           Eff.call (word_save_as env doc_path temp_path fmt);;
           Eff.call (word_close env);;
           body temp_path)
          (Eff.attempt (Eff.call (word_quit env))))
       (fun _ => mret FallThrough)).
Proof.
  intros Hbody w.
  assert (Hquit : forall s : World, snd (Eff.attempt (Eff.call (word_quit env)) s) = s).
  { intros s. rewrite /Eff.attempt /Eff.try_except /Eff.call.
    by destruct (word_quit env) as [[]|e]. }
  rewrite /Eff.try_except /Eff.try_finally /mbind /eff_bind /Eff.bind.
  rewrite {1 2}/Eff.call /named_temporary_file.
  destruct (import_win32com env) as [[]|e].
  2: { do 2 eexists. split; [reflexivity|]. split; [keep_files | done]. }
  destruct (word_dispatch env) as [[]|e].
  2: { do 2 eexists. split; [reflexivity|]. split; [keep_files | done]. }
  set (w0 := {| files := files w ++ [TempFile (made w) sfx]; made := S (made w);
                events := events w |}).
  assert (Hw0 : keeps_user_files w w0) by keep_files.
  rewrite {1 2 3}/Eff.call.
  destruct (word_open env doc_path) as [[]|e];
    [|rewrite Hquit; do 2 eexists; split; [reflexivity|]; by split].
  destruct (word_save_as env doc_path _ fmt) as [[]|e];
    [|rewrite Hquit; do 2 eexists; split; [reflexivity|]; by split].
  destruct (word_close env) as [[]|e];
    [|rewrite Hquit; do 2 eexists; split; [reflexivity|]; by split].
  destruct (Hbody (made w) w0) as (flow & w1 & -> & Hk & Hi).
  rewrite Hquit.
  exists flow, w1. split; [done|]. split; [by eapply keeps_user_files_trans | done].
Qed.

Lemma convert_with_word_to_pdf_safe (env : Env) (doc_path : Path) :
  method_runs_safely (convert_with_word_to_pdf env doc_path).
Proof.
  apply (word_frame_safe env doc_path ".pdf" 17
           (fun temp_pdf_path =>
              png_path ← convert_pdf_to_png env temp_pdf_path;
              Eff.attempt (remove env temp_pdf_path);;
              mret (return_if_some png_path))).
  intros n. by apply convert_then_remove; [apply convert_pdf_to_png_safe|].
Qed.

(** The last method, on the extracted text: it does not raise, and an
    image it returns is on disk. *)
Lemma convert_text_safe (env : Env) (text : string) (w : World) :
  exists flow w',
    convert_text env text w = (Returns flow, w') /\
    keeps_user_files w w' /\
    (forall r, flow = Return r -> image_on_disk r w').
Proof.
  rewrite /convert_text. destruct (truthy text).
  2: { exists FallThrough, w. split; [done|]. split; [by intros ? ? | done]. }
  destruct (create_pdf_from_text_safe env text w) as (pdf_path & w1 & Hpdfeq & Hk1 & Hpdf).
  assert (Hflow : exists flow w2,
    match pdf_path with
    | Some pdf =>
        png_path ← convert_pdf_to_png env pdf;
        Eff.attempt (remove env pdf);;
        mret (return_if_some png_path)
    | None => mret FallThrough
    end w1 = (Returns flow, w2) /\
    keeps_user_files w1 w2 /\ flow_image_on_disk flow w2).
  { destruct pdf_path as [pdf|].
    - destruct (Hpdf pdf eq_refl) as [n ->].
      by apply convert_then_remove; [apply convert_pdf_to_png_safe|].
    - exists FallThrough, w1. split; [done|]. split; [by intros ? ? | done]. }
  destruct Hflow as (flow & w2 & Hfl & Hk2 & Hi2).
  rewrite /mbind /eff_bind /Eff.bind in Hfl |- *. rewrite Hpdfeq Hfl.
  destruct flow as [r|].
  - exists (Return r), w2. split; [done|]. split; [by eapply keeps_user_files_trans|].
    intros ? [= <-]. destruct r as [p|]; [|done]. by intros ? [= <-].
  - destruct (create_text_image_safe env text w2) as (r & w3 & -> & Hk3 & Hi3).
    exists (Return r), w3. split; [done|]. split; [|by intros ? [= <-]].
    eapply keeps_user_files_trans; [|done]. by eapply keeps_user_files_trans.
Qed.

(** The method on the text of a document, whatever extracts the text. *)
Lemma text_method_safe (env : Env) (extract : M string) (w : World) :
  (forall w0, exists text, extract w0 = (Returns text, w0)) ->
  exists flow w',
    Eff.try_except (text ← extract; convert_text env text) (fun _ => mret FallThrough) w
      = (Returns flow, w') /\
    keeps_user_files w w' /\
    (forall r, flow = Return r -> image_on_disk r w').
Proof.
  intros Hext. rewrite /Eff.try_except /mbind /eff_bind /Eff.bind.
  destruct (Hext w) as (text & ->).
  destruct (convert_text_safe env text w) as (flow & w' & -> & Hk & Hi).
  by exists flow, w'.
Qed.

Lemma extract_text_from_docx_returns (env : Env) (docx_path : Path) (w : World) :
  exists text, extract_text_from_docx env docx_path w = (Returns text, w).
Proof.
  rewrite /extract_text_from_docx. eff_unfold.
  destruct (docx_text env docx_path) as [text|e]; by eexists.
Qed.

Lemma extract_text_from_doc_returns (env : Env) (doc_path : Path) (w : World) :
  exists text, extract_text_from_doc env doc_path w = (Returns text, w).
Proof.
  rewrite /extract_text_from_doc.
  destruct (antiword env doc_path) as [text|e]; [by eexists|].
  destruct (catdoc env doc_path) as [text|e']; by eexists.
Qed.

Lemma convert_docx_to_png_safe (env : Env) (docx_path : Path) :
  converts_safely (convert_docx_to_png env docx_path).
Proof.
  intros w. rewrite /convert_docx_to_png.
  destruct (convert_with_word_to_pdf_safe env docx_path w) as (flow1 & w1 & Heq1 & Hk1 & Hi1).
  destruct (text_method_safe env (extract_text_from_docx env docx_path) w1
              (extract_text_from_docx_returns env docx_path))
    as (flow2 & w2 & Heq2 & Hk2 & Hi2).
  rewrite /mbind /eff_bind /Eff.bind in Heq2 |- *. rewrite Heq1.
  destruct flow1 as [[p|]|]; [|done|].
  { exists (Some p), w1. split; [done|]. split; [done|]. by intros ? [= <-]. }
  rewrite Heq2. destruct flow2 as [r|].
  - exists r, w2. split; [done|]. split; [by eapply keeps_user_files_trans | by apply Hi2].
  - exists None, w2. split; [done|]. split; [by eapply keeps_user_files_trans | by intros ? [=]].
Qed.

Lemma convert_with_word_to_docx_safe (env : Env) (doc_path : Path) :
  method_runs_safely (convert_with_word_to_docx env doc_path).
Proof.
  apply (word_frame_safe env doc_path ".docx" 16
           (fun temp_docx_path =>
              png_path ← convert_docx_to_png env temp_docx_path;
              Eff.attempt (remove env temp_docx_path);;
              mret (return_if_some png_path))).
  intros n. by apply convert_then_remove; [apply convert_docx_to_png_safe|].
Qed.

Lemma convert_doc_to_png_safe (env : Env) (doc_path : Path) :
  converts_safely (convert_doc_to_png env doc_path).
Proof.
  intros w. rewrite /convert_doc_to_png.
  destruct (convert_with_word_to_pdf_safe env doc_path w) as (flow1 & w1 & Heq1 & Hk1 & Hi1).
  destruct (convert_with_word_to_docx_safe env doc_path w1) as (flow2 & w2 & Heq2 & Hk2 & Hi2).
  destruct (text_method_safe env (extract_text_from_doc env doc_path) w2
              (extract_text_from_doc_returns env doc_path))
    as (flow3 & w3 & Heq3 & Hk3 & Hi3).
  assert (Hk12 : keeps_user_files w w2) by by eapply keeps_user_files_trans.
  rewrite /mbind /eff_bind /Eff.bind in Heq3 |- *. rewrite Heq1.
  destruct flow1 as [[p|]|]; [|done|].
  { exists (Some p), w1. split; [done|]. split; [done|]. by intros ? [= <-]. }
  rewrite Heq2. destruct flow2 as [[p|]|]; [|done|].
  { exists (Some p), w2. split; [done|]. split; [done|]. by intros ? [= <-]. }
  rewrite Heq3. destruct flow3 as [r|].
  - exists r, w3. split; [done|]. split; [by eapply keeps_user_files_trans | by apply Hi3].
  - exists None, w3. split; [done|]. split; [by eapply keeps_user_files_trans | by intros ? [=]].
Qed.

(** *** Temporary files *)






Lemma not_in_unlinked (p : Path) (l : list Path) : p ∉ filter (fun q => q ≠ p) l.
Proof. intros [Hne _]%list_elem_of_filter. done. Qed.

(** **** Which files a computation may remove *)

Section Removes_only.
Context (P : Path -> Prop).











Lemma removes_only_exists_file (p : Path) : removes_only P any_value (exists_file p).
Proof. by intros w. Qed.

End Removes_only.












(** **** The files made on the way *)









End Cascade_facts.

(** ** Process_files.py: further properties of the store *)

Module Store_more.
Import Py Py_facts pandas excel_to_concepts excel_to_concepts_facts Process_files Store_facts.

(** *** The row of a document *)

Lemma add_concept_set (data : gmap string Cell) (row : Dict Cell) (c : Concept) :
  add_concept data row c = dict_set (concept_value c) (aspect data (concept_value c)) row.
Proof. rewrite /add_concept /aspect. by destruct (data !! concept_value c). Qed.

Lemma fold_add_concept_snoc (data : gmap string Cell) (row : Dict Cell)
    (concepts : list Concept) (c : Concept) :
  fold_left (add_concept data) (concepts ++ [c]) row =
  add_concept data (fold_left (add_concept data) concepts row) c.
Proof. by rewrite fold_left_app. Qed.

(** The value under a key after the loop over the concepts: the aspect of
    the key when a concept has it as label, else what the row had. *)
Lemma fold_add_concept_get (data : gmap string Cell) (row : Dict Cell)
    (concepts : list Concept) (k : string) :
  dict_get k (fold_left (add_concept data) concepts row) =
  if bool_decide (k ∈ map concept_value concepts) then Some (aspect data k)
  else dict_get k row.
Proof.
  induction concepts as [|c concepts IH] using rev_ind; [done|].
  rewrite fold_add_concept_snoc add_concept_set map_app /=.
  destruct (decide (concept_value c = k)) as [<-|Hne].
  - rewrite dict_get_set_eq bool_decide_true //.
    apply elem_of_app. right. apply list_elem_of_here.
  - rewrite dict_get_set_ne // IH.
    destruct (bool_decide (k ∈ map concept_value concepts)) eqn:Hk.
    + apply bool_decide_eq_true in Hk. rewrite bool_decide_true //.
      apply elem_of_app. by left.
    + apply bool_decide_eq_false in Hk. rewrite bool_decide_false //.
      intros [?|Hin%list_elem_of_singleton]%elem_of_app; [done | congruence].
Qed.

Lemma dict_keys_set_prefix {V} (k : string) (v : V) (d : Dict V) :
  dict_keys d `prefix_of` dict_keys (dict_set k v d).
Proof.
  rewrite dict_keys_set. destruct (str_in k (dict_keys d)); [done|].
  by apply prefix_app_r.
Qed.

Lemma make_row_keys_prefix (json_data : JsonData) (concepts : list Concept) :
  ["ID"; "File Type"] `prefix_of` dict_keys (make_row json_data concepts).
Proof.
  rewrite /make_row.
  induction concepts as [|c concepts IH] using rev_ind; [done|].
  rewrite fold_add_concept_snoc add_concept_set.
  etrans; [apply IH | apply dict_keys_set_prefix].
Qed.

Lemma dict_get_is_Some {V} (k : string) (d : Dict V) :
  is_Some (dict_get k d) <-> k ∈ dict_keys d.
Proof.
  rewrite -not_eq_None_Some dict_get_None. split; [apply dec_stable | by intros ? ?].
Qed.

(** X1. The row that [update_excel_with_json_data] builds for a sheet starts
    with the keys ID and File Type, has every key once, has a key for every
    concept of the sheet and no other key, and holds under each concept
    label the extracted value of that label, or "Not found" when the
    extraction has none. *)
Theorem make_row_fields (json_data : JsonData) (concepts : list Concept) :
  let row := make_row json_data concepts in
  ["ID"; "File Type"] `prefix_of` dict_keys row
  /\ NoDup (dict_keys row)
  /\ (forall c, c ∈ concepts ->
                dict_get (concept_value c) row
                = Some (aspect (extracted_data json_data) (concept_value c)))
  /\ (forall k, k ∈ dict_keys row <->
                k = "ID" \/ k = "File Type" \/ k ∈ map concept_value concepts).
Proof.
  intros row. split_and!.
  - apply make_row_keys_prefix.
  - apply make_row_keys_NoDup.
  - intros c Hc. rewrite /row /make_row fold_add_concept_get bool_decide_true //.
    apply list_elem_of_fmap. by exists c.
  - intros k. rewrite -dict_get_is_Some /row /make_row fold_add_concept_get.
    destruct (bool_decide (k ∈ map concept_value concepts)) eqn:Hk.
    + apply bool_decide_eq_true in Hk. split; [by auto | by eexists].
    + apply bool_decide_eq_false in Hk.
      change (dict_get k _) with
        (if String.eqb "ID" k then Some (CStr (file_id json_data))
         else if String.eqb "File Type" k then Some (CStr (file_type json_data))
         else None).
      destruct (String.eqb_spec "ID" k) as [<-|H1]; [split; [by auto | by eexists]|].
      destruct (String.eqb_spec "File Type" k) as [<-|H2]; [split; [by auto | by eexists]|].
      split; [by intros [? [=]] | by intros [?|[?|?]]].
Qed.

(** *** Appending a row *)




(** *** The sheets of the file *)



(** *** One row per document *)

Lemma frame_of_row_fresh (json_data : JsonData) (concepts : list Concept) :
  Forall (fun c => concept_value c <> "ID") concepts ->
  has_column (frame_of_row (make_row json_data concepts)) "ID" = true /\
  ids (frame_of_row (make_row json_data concepts)) = [file_id json_data].
Proof.
  intros Hc. split.
  - apply str_in_true. rewrite /frame_of_row /=.
    apply dec_stable. intros Hnot%dict_get_None. by rewrite make_row_ID in Hnot.
  - by rewrite /ids /column_as_str /frame_of_row /= /cell list_to_map_dict_get make_row_ID.
Qed.

Lemma rows_with_id_one (df : DataFrame) (id : string) :
  NoDup (ids df) -> id ∈ ids df -> rows_with_id df id = 1%nat.
Proof.
  rewrite /rows_with_id. generalize (ids df). clear df.
  induction l as [|s l IH]; intros Hnd Hin; [by apply elem_of_nil in Hin|].
  apply NoDup_cons in Hnd as [Hs Hnd].
  destruct (decide (s = id)) as [->|Hne].
  - rewrite filter_cons_True //=. f_equal.
    clear IH Hin Hnd. induction l as [|t l IH]; [done|].
    apply not_elem_of_cons in Hs as [Hne Hs].
    rewrite filter_cons_False; [congruence | by apply IH].
  - rewrite filter_cons_False //. apply IH; [done|].
    by apply elem_of_cons in Hin as [->|Hin].
Qed.

(** X5. One call of [update_excel_with_json_data] keeps the key of a sheet
    between what it reads and what it saves. With no concept labelled "ID"
    and a mapping that is a [dict], when the call returns [True], every
    sheet of the mapping that was read with at most one row per identifier
    (a sheet that the file lacks, or any sheet of a new file, counts as
    empty) is saved with at most one row per identifier, with exactly one
    row for the document of the call, and with every identifier that was
    read. Two rows for one document can so only come from what is read:
    from rows that were there, or from identifiers that read differently
    from how they were saved. *)
Theorem call_keeps_one_row_per_id
    (xl : Excel) (json_data : JsonData) (cm : ConceptMapping) (store : Store) :
  no_ID_concept cm ->
  NoDup (dict_keys cm) ->
  let result := update_excel_with_json_data xl json_data cm store in
  fst result = true ->
  exists sheets,
    snd result = Saved sheets /\
    (forall sheet concepts,
        (sheet, concepts) ∈ cm ->
        well_keyed (sheet_as_read xl store sheet) ->
        exists df',
          sheets !! sheet = Some df' /\
          well_keyed df' /\
          rows_with_id df' (file_id json_data) = 1%nat /\
          (forall id, id ∈ ids (sheet_as_read xl store sheet) -> id ∈ ids df')).
Proof.
  intros Hno Hnd result Htrue.
  assert (forall sheet concepts, (sheet, concepts) ∈ cm ->
                                 Forall (fun c => concept_value c <> "ID") concepts) as Hc.
  { intros sheet concepts Hin. apply Forall_forall. intros c Hcin. by eapply Hno. }
  destruct result as [ok store'] eqn:Hres. simpl in Htrue. subst ok.
  apply update_excel_true in Hres. rewrite /sheet_as_read. destruct store as [|saved|].
  - subst store'. exists (new_sheets json_data cm). split; [done|].
    intros sheet concepts Hin _.
    destruct (new_sheets_spec json_data cm Hnd) as [Hlook _].
    destruct (frame_of_row_fresh json_data concepts (Hc _ _ Hin)) as [Hcol Hids].
    eexists. split; [by apply Hlook|]. split_and!.
    + split; [done|]. rewrite Hids. apply NoDup_singleton.
    + apply rows_with_id_one; rewrite Hids; [apply NoDup_singleton | apply list_elem_of_here].
    + by intros id ?%elem_of_nil.
  - destruct Hres as (existing & existing' & Hread & Hloop & ->).
    exists existing'. split; [done|]. rewrite Hread.
    intros sheet concepts Hin Hkeyed.
    destruct (update_sheets_spec xl json_data cm existing existing' Hnd Hloop) as [Hspec _].
    destruct (Hspec sheet concepts Hin) as (df' & Hdf' & Hlook).
    destruct (upsert_sheet_keyed xl json_data concepts _ df' (Hc _ _ Hin) Hkeyed Hdf')
      as [[Hcol' Hnd'] Hids].
    exists df'. split; [done|]. split_and!; [done | |].
    + apply rows_with_id_one; [done|]. rewrite Hids.
      destruct (str_in _ _) eqn:Hfound; [by apply str_in_true|].
      apply elem_of_app. right. apply list_elem_of_here.
    + intros id Hid. rewrite Hids.
      destruct (str_in _ _); [done | apply elem_of_app; by left].
  - by destruct Hres as (existing & existing' & Hread & _).
Qed.

Lemma call_keeps_one_row_per_id_witness :
  exists sheets df',
    update_excel_with_json_data Samples.pandas_2 Samples.request_482_again Samples.personal
      (Saved {["Personal" := Samples.personal_sheet]})
    = (true, Saved sheets) /\
    sheets !! "Personal" = Some df' /\
    rows_with_id df' "482" = 1%nat.
Proof.
  destruct (call_keeps_one_row_per_id Samples.pandas_2 Samples.request_482_again
              Samples.personal (Saved {["Personal" := Samples.personal_sheet]}))
    as (sheets & Hsaved & Hrows).
  - intros sheet concepts c Hs Hc. apply list_elem_of_singleton in Hs.
    injection Hs as -> ->. apply list_elem_of_singleton in Hc as ->. discriminate.
  - apply NoDup_singleton.
  - vm_compute. reflexivity.
  - destruct (Hrows "Personal" [Samples.concept 1 "Name"]) as (df' & Hlook & _ & Hone & _).
    + apply list_elem_of_here.
    + split; [reflexivity|]. vm_compute. apply NoDup_singleton.
    + exists sheets, df'. split_and!; [|done|done].
      rewrite -Hsaved.
      by destruct (update_excel_with_json_data _ _ _ _) as [[] ?] eqn:Hres;
        [|vm_compute in Hres].
Defined.

End Store_more.

(** ** excel_to_concepts.py: further properties *)

Module excel_to_concepts_more.
Import Py Py_facts pandas excel_to_concepts excel_to_concepts_facts.

Section Parsing.
Variable py_int : string -> option Z.

Lemma parse_sheets_raises (sheets : Workbook) (mapping : ConceptMapping)
    (name : string) (e : string) :
  (name, Raises e) ∈ sheets ->
  exists e', parse_sheets py_int mapping sheets = Raises e'.
Proof.
  revert mapping. induction sheets as [|[n o] sheets IH]; intros mapping Hin.
  - by apply elem_of_nil in Hin.
  - apply elem_of_cons in Hin as [[= <- <-]|Hin].
    + by exists e.
    + rewrite /= /parse_sheet /=. destruct o as [sheet|e0]; [|by exists e0].
      simpl. destruct (_ <? _)%nat; simpl; by apply IH.
Qed.

(** X6. [excel_to_concept_mapping] returns the empty mapping when the
    workbook cannot be opened, and also when a single sheet fails to parse:
    the concepts of the sheets that did parse are not returned either. *)
Theorem unreadable_sheet_gives_empty_mapping :
  (forall e, excel_to_concept_mapping py_int (Raises e) = [])
  /\ (forall sheets name e,
        (name, Raises e) ∈ sheets ->
        excel_to_concept_mapping py_int (Returns sheets) = []).
Proof.
  split; [done|]. intros sheets name e Hin.
  rewrite /excel_to_concept_mapping /excel_to_concept_mapping_try /=.
  by destruct (parse_sheets_raises sheets [] name e Hin) as [e' ->].
Qed.

Lemma elem_of_dict_set {V} (k k' : string) (v v' : V) (d : Dict V) :
  (k', v') ∈ dict_set k v d -> (k' = k /\ v' = v) \/ (k', v') ∈ d.
Proof.
  induction d as [|[k0 v0] d IH]; simpl.
  - intros [= -> ->]%list_elem_of_singleton. by left.
  - destruct (String.eqb k0 k) eqn:Hk.
    + apply String.eqb_eq in Hk as ->.
      intros [[= -> ->]|Hin]%elem_of_cons; [by left | right; by apply list_elem_of_further].
    + intros [[= -> ->]|Hin]%elem_of_cons; [right; apply list_elem_of_here|].
      destruct (IH Hin) as [?|?]; [by left | right; by apply list_elem_of_further].
Qed.

Lemma dict_binding_unique {V} (d : Dict V) (k : string) (v1 v2 : V) :
  NoDup (dict_keys d) -> (k, v1) ∈ d -> (k, v2) ∈ d -> v1 = v2.
Proof.
  rewrite /dict_keys. induction d as [|[k0 v0] d IH]; intros Hnd H1 H2.
  - by apply elem_of_nil in H1.
  - simpl in Hnd. apply NoDup_cons in Hnd as [Hk Hnd].
    assert (forall v, (k, v) ∈ d -> k0 <> k) as Hother.
    { intros v Hin ->. apply Hk. apply list_elem_of_fmap. by exists (k, v). }
    apply elem_of_cons in H1 as [[= -> ->]|H1]; apply elem_of_cons in H2 as [[= ->]|H2].
    + done.
    + by destruct (Hother v2 H2).
    + subst. by destruct (Hother v1 H1).
    + by apply IH.
Qed.

Lemma length_sheet_pairs (sheet : Sheet) :
  length (sheet_pairs py_int (width sheet) (dropna_all sheet)) <= length (data_rows sheet).
Proof.
  rewrite -(length_map concept_value) sheet_pairs_values length_map /labels.
  etrans; [apply length_filter|]. by rewrite /value_cells /iloc_col length_map.
Qed.

(** Where a binding of the parsed mapping comes from. *)
Lemma parse_sheets_origin (sheets : Workbook) (acc mapping : ConceptMapping) :
  parse_sheets py_int acc sheets = Returns mapping ->
  NoDup (dict_keys acc) ->
  NoDup (dict_keys mapping) /\
  (forall name pairs,
      (name, pairs) ∈ mapping ->
      (name, pairs) ∈ acc \/
      exists sheet,
        (name, Returns sheet) ∈ sheets /\
        2 <= length (dropna_all sheet) /\
        pairs = sheet_pairs py_int (width sheet) (dropna_all sheet)).
Proof.
  revert acc. induction sheets as [|[n o] sheets IH]; intros acc Hp Hnd.
  - injection Hp as <-. split; [done|]. intros ?? ?. by left.
  - rewrite /= /parse_sheet /= in Hp. destruct o as [sheet|e]; [|done]. simpl in Hp.
    destruct (length (dropna_all sheet) <? 2)%nat eqn:Hlen; simpl in Hp.
    + destruct (IH acc Hp Hnd) as [Hnd' Hfrom]. split; [done|].
      intros name pairs Hin. destruct (Hfrom name pairs Hin) as [?|(s & ? & ?)]; [by left|].
      right. exists s. split; [by apply list_elem_of_further | done].
    + destruct (IH _ Hp (dict_set_NoDup n _ acc Hnd)) as [Hnd' Hfrom]. split; [done|].
      apply Nat.ltb_ge in Hlen.
      intros name pairs Hin. destruct (Hfrom name pairs Hin) as [Hset|(s & ? & ?)].
      * apply elem_of_dict_set in Hset as [[-> ->]|?]; [|by left].
        right. exists sheet. split; [apply list_elem_of_here | done].
      * right. exists s. split; [by apply list_elem_of_further | done].
Qed.

(** X7. In the mapping that [excel_to_concept_mapping] returns, sheet names
    are all different, no sheet has an empty list of concepts, and every
    sheet comes from a sheet of the workbook that parsed and kept at least
    two rows once blank rows were dropped, with no more concepts than that
    sheet has data rows. *)
Theorem concept_mapping_is_well_formed (xls : Outcome Workbook) :
  let mapping := excel_to_concept_mapping py_int xls in
  NoDup (dict_keys mapping)
  /\ (forall name pairs,
        (name, pairs) ∈ mapping ->
        pairs <> [] /\
        exists sheets sheet,
          xls = Returns sheets /\
          (name, Returns sheet) ∈ sheets /\
          2 <= length (dropna_all sheet) /\
          length pairs <= length (data_rows sheet)).
Proof.
  intros mapping. rewrite /mapping /excel_to_concept_mapping /excel_to_concept_mapping_try.
  destruct xls as [sheets|e]; simpl; [|split; [apply NoDup_nil_2 | by intros ?? ?%elem_of_nil]].
  destruct (parse_sheets py_int [] sheets) as [parsed|e] eqn:Hp; simpl;
    [|split; [apply NoDup_nil_2 | by intros ?? ?%elem_of_nil]].
  destruct (parse_sheets_origin sheets [] parsed Hp NoDup_nil_2) as [Hnd Hfrom].
  split.
  - rewrite /dict_keys. change (map fst ?l) with (fst <$> l).
    eapply NoDup_fmap_2_strong; [|by apply NoDup_filter, (NoDup_fmap_1 fst)].
    intros [k1 v1] [k2 v2] [_ H1]%list_elem_of_filter [_ H2]%list_elem_of_filter Hk.
    simpl in Hk. subst k2. f_equal. by eapply dict_binding_unique.
  - intros name pairs [Hne Hin]%list_elem_of_filter. simpl in Hne.
    split; [by destruct pairs|].
    destruct (Hfrom name pairs Hin) as [[]%elem_of_nil|(sheet & Hs & Hlen & ->)].
    exists sheets, sheet. split_and!; [done | done | done|]. apply length_sheet_pairs.
Qed.

End Parsing.

Lemma unreadable_sheet_gives_empty_mapping_witness :
  excel_to_concept_mapping Samples.no_int
    (Returns [("Languages", Returns Samples.languages); ("Broken", Raises "bad sheet")]) = [].
Proof.
  apply (proj2 (unreadable_sheet_gives_empty_mapping Samples.no_int) _ "Broken" "bad sheet").
  apply list_elem_of_further, list_elem_of_here.
Defined.

Lemma concept_mapping_is_well_formed_witness :
  length [Samples.concept 1 "Hebrew"; Samples.concept 2 "English"]
  <= length (data_rows Samples.languages).
Proof.
  destruct (concept_mapping_is_well_formed Samples.no_int
              (readable [("Languages", Samples.languages)])) as [_ Hwf].
  destruct (Hwf "Languages" [Samples.concept 1 "Hebrew"; Samples.concept 2 "English"])
    as (_ & sheets & sheet & Heq & Hin & _ & Hlen).
  - vm_compute. apply list_elem_of_here.
  - injection Heq as <-. apply list_elem_of_singleton in Hin.
    injection Hin as <-. exact Hlen.
Defined.

End excel_to_concepts_more.

(** ** Process_files.py: further properties of the pipeline *)

Module Process_files_more.
Import Py Py_facts Claude_as_OCR pandas excel_to_concepts Process_files Process_files_facts.

(** *** The concept values asked from the extractor *)

Lemma add_concept_values_spec (concepts : list Concept) (acc : list string) :
  NoDup acc ->
  NoDup (fold_left add_concept_value concepts acc) /\
  (forall v, v ∈ fold_left add_concept_value concepts acc <->
             v ∈ acc \/ v ∈ map concept_value concepts).
Proof.
  revert acc. induction concepts as [|c concepts IH]; intros acc Hacc; simpl.
  - split; [done|]. intros v. split; [by left | by intros [?|?%elem_of_nil]].
  - rewrite /add_concept_value. destruct (str_in (concept_value c) acc) eqn:Hin.
    + apply str_in_true in Hin. destruct (IH acc Hacc) as [Hnd Hiff]. split; [done|].
      intros v. rewrite Hiff elem_of_cons. split; [by intros [?|?]; auto|].
      intros [?|[->|?]]; auto.
    + apply str_in_false in Hin.
      destruct (IH (acc ++ [concept_value c])) as [Hnd Hiff].
      { apply NoDup_app. split; [done|]. split; [|apply NoDup_singleton].
        by intros x Hx ->%list_elem_of_singleton. }
      split; [done|]. intros v.
      rewrite Hiff elem_of_app list_elem_of_singleton elem_of_cons.
      split; [intros [[?|?]|?]; auto | intros [?|[?|?]]; auto].
Qed.

(** X8. The list of concept values that [process_single_file] hands to the
    extractor holds every concept value of every sheet of the mapping,
    holds nothing else, and holds each value once, however many sheets
    repeat it. *)
Theorem concept_values_are_collected_once (cm : ConceptMapping) :
  NoDup (collect_concept_values cm)
  /\ (forall v, v ∈ collect_concept_values cm <->
                exists sheet concepts c,
                  (sheet, concepts) ∈ cm /\ c ∈ concepts /\ concept_value c = v).
Proof.
  rewrite /collect_concept_values.
  assert (forall acc, NoDup acc ->
            NoDup (fold_left (fun acc sheet => fold_left add_concept_value (snd sheet) acc)
                             cm acc) /\
            (forall v, v ∈ fold_left (fun acc sheet =>
                                        fold_left add_concept_value (snd sheet) acc) cm acc <->
                       v ∈ acc \/
                       exists sheet concepts c,
                         (sheet, concepts) ∈ cm /\ c ∈ concepts /\ concept_value c = v))
    as Hgen.
  { induction cm as [|[sheet concepts] cm IH]; intros acc Hacc; simpl.
    - split; [done|]. intros v. split; [by left|].
      by intros [?|(? & ? & ? & ?%elem_of_nil & _)].
    - destruct (add_concept_values_spec concepts acc Hacc) as [Hnd1 Hiff1].
      destruct (IH _ Hnd1) as [Hnd Hiff]. split; [done|].
      intros v. rewrite Hiff Hiff1. split.
      + intros [[?|Hin]|(s & cs & c & Hs & Hc & Hv)]; [by left | |].
        * apply list_elem_of_fmap in Hin as (c & -> & Hc).
          right. exists sheet, concepts, c. split; [apply list_elem_of_here | done].
        * right. exists s, cs, c. split; [by apply list_elem_of_further | done].
      + intros [?|(s & cs & c & Hs & Hc & Hv)]; [by left; left|].
        apply elem_of_cons in Hs as [[= -> ->]|Hs].
        * left. right. apply list_elem_of_fmap. by exists c.
        * right. by exists s, cs, c. }
  destruct (Hgen [] NoDup_nil_2) as [Hnd Hiff]. split; [done|].
  intros v. rewrite Hiff. split; [by intros [?%elem_of_nil|?] | by right].
Qed.

(** *** One file *)

(** The three ways [process_single_file] ends. *)
Lemma process_single_file_cases (env : Process_files.Env) (file_path : string)
    (cm : ConceptMapping) (output_dir : string) (trace : list Event) :
  let ext := lower (snd (splitext file_path)) in
  let concepts := collect_concept_values cm in
  process_single_file env file_path cm output_dir trace = (Returns None, trace)
  \/ (ext ∈ supported_extensions /\
      exists id ocr_text,
        extract_file_id (basename file_path) = Some id /\
        process_file_with_combined_ocr (ocr_env env) file_path None = Returns ocr_text /\
        (process_single_file env file_path cm output_dir trace =
           (Returns None,
            trace ++ [OcrCalled file_path; AspectsRequested ocr_text concepts (drop 1 ext)])
         \/ exists extracted,
              extract_aspects_with_claude env ocr_text concepts (drop 1 ext)
                = Returns extracted /\
              let data := <[metadata_key := metadata (basename file_path) ext (now env)]>
                            extracted in
              process_single_file env file_path cm output_dir trace =
                (Returns (Some {| file_id := id; extracted_data := data;
                                  file_type := drop 1 ext |}),
                 trace ++ [OcrCalled file_path;
                           AspectsRequested ocr_text concepts (drop 1 ext);
                           JsonWritten (json_path_of output_dir file_path) data]))).
Proof.
  intros ext concepts.
  destruct (str_in ext supported_extensions) eqn:Hext.
  2: { left. apply process_single_file_unsupported. by apply str_in_false. }
  destruct (extract_file_id (basename file_path)) as [id|] eqn:Hid.
  2: { left. by apply process_single_file_no_id. }
  right. split; [by apply str_in_true|].
  destruct (process_file_with_combined_ocr_returns (ocr_env env) file_path None)
    as [ocr_text Hocr].
  exists id, ocr_text. split; [done|]. split; [done|].
  rewrite /process_single_file /process_single_file_try -/ext Hext Hid.
  rewrite /truthy_opt (search_digits_some_nonempty _ _ Hid). eff_unfold.
  rewrite Hocr /= -/concepts.
  destruct (extract_aspects_with_claude env _ _ _) as [data|e] eqn:Hx; simpl.
  2: { left. by rewrite -!assoc. }
  destruct (mkdir env output_dir) as [[]|e]; simpl.
  2: { left. by rewrite -!assoc. }
  destruct (dump_json env _ _) as [[]|e]; simpl.
  2: { left. by rewrite -!assoc. }
  right. exists data. split; [done|]. by rewrite -!assoc.
Qed.

(** X9. When [process_single_file] returns a result, the result and the
    outside world agree: the ID is the first digit run of the file name,
    the file type is the lower-cased extension without its dot, one of
    png, pdf, docx; the data are what the extractor returned for the OCR
    text, with the metadata block stored under its key (replacing an
    extracted entry of that name); and exactly these data were written to
    [<output_dir>/<stem>_aspects.json], after one OCR call and one
    extraction request. *)
Theorem result_agrees_with_json_file
    (env : Process_files.Env) (file_path : string) (cm : ConceptMapping)
    (output_dir : string) (trace trace' : list Event) (json_data : JsonData) :
  process_single_file env file_path cm output_dir trace = (Returns (Some json_data), trace') ->
  let ext := lower (snd (splitext file_path)) in
  exists ocr_text extracted,
    ext ∈ [".png"; ".pdf"; ".docx"] /\
    extract_file_id (basename file_path) = Some (file_id json_data) /\
    file_type json_data = drop 1 ext /\
    process_file_with_combined_ocr (ocr_env env) file_path None = Returns ocr_text /\
    extract_aspects_with_claude env ocr_text (collect_concept_values cm) (drop 1 ext)
      = Returns extracted /\
    extracted_data json_data
      = <[metadata_key := metadata (basename file_path) ext (now env)]> extracted /\
    trace' = trace ++ [OcrCalled file_path;
                       AspectsRequested ocr_text (collect_concept_values cm) (drop 1 ext);
                       JsonWritten (json_path_of output_dir file_path)
                                   (extracted_data json_data)].
Proof.
  intros Hrun ext.
  destruct (process_single_file_cases env file_path cm output_dir trace)
    as [Hnone|(Hext & id & ocr_text & Hid & Hocr & [Hnone|(extracted & Hx & Hsome)])].
  - by rewrite Hnone in Hrun.
  - by rewrite Hnone in Hrun.
  - simpl in Hsome. rewrite Hsome in Hrun. injection Hrun as <- <-.
    by exists ocr_text, extracted.
Qed.

Lemma result_agrees_with_json_file_witness :
  exists json_data,
    fst (process_single_file Samples.env_ok "in/request_482.PDF" Samples.personal "out" [])
      = Returns (Some json_data) /\
    file_id json_data = "482" /\
    file_type json_data = "pdf" /\
    snd (process_single_file Samples.env_ok "in/request_482.PDF" Samples.personal "out" [])
      = [OcrCalled "in/request_482.PDF";
         AspectsRequested "Jane Doe, born 1980" ["Name"] "pdf";
         JsonWritten "out/request_482_aspects.json" (extracted_data json_data)].
Proof.
  destruct (process_single_file Samples.env_ok "in/request_482.PDF" Samples.personal "out" [])
    as [o trace'] eqn:Hrun.
  assert (exists json_data, o = Returns (Some json_data)) as [json_data ->].
  { apply (f_equal fst) in Hrun. vm_compute in Hrun. rewrite -Hrun. by eexists. }
  destruct (result_agrees_with_json_file _ _ _ _ _ _ _ Hrun)
    as (ocr_text & extracted & _ & Hid & Htype & Hocr & _ & _ & Htrace).
  exists json_data. split; [done|].
  vm_compute in Hid, Hocr. injection Hid as Hid. injection Hocr as Hocr.
  split; [done|]. split; [by rewrite Htype|]. rewrite Htrace -Hocr. reflexivity.
Defined.

(** *** The batch *)

Lemma written_count_app (a b : list Event) :
  written_count (a ++ b) = (written_count a + written_count b)%nat.
Proof. by rewrite /written_count filter_app length_app. Qed.

Lemma ocr_paths_app (a b : list Event) : ocr_paths (a ++ b) = ocr_paths a ++ ocr_paths b.
Proof. apply omap_app. Qed.

Lemma process_and_store_step (xl : Excel) (env : Process_files.Env) (cm : ConceptMapping)
    (output_dir : string) (n : nat) (st : Store) (tr : list Event) (file_path : string) :
  let result := process_and_store xl env cm output_dir (n, st, tr) file_path in
  exists new,
    snd result = tr ++ new /\
    n <= fst (fst result) <= n + written_count new /\
    written_count new <= 1 /\
    (forall p, p ∈ ocr_paths new -> p = file_path /\ eligible file_path) /\
    (written_count new = 0%nat -> snd (fst result) = st).
Proof.
  rewrite /process_and_store.
  destruct (process_single_file_cases env file_path cm output_dir tr)
    as [->|(Hext & id & ocr_text & Hid & Hocr & [->|(extracted & Hx & Hsome)])].
  - exists []. rewrite /= app_nil_r Nat.add_0_r.
    split_and!; [done | done | done | by auto | by intros ? ?%elem_of_nil | done].
  - eexists. split; [done|]. rewrite /= Nat.add_0_r.
    split_and!; [done | done | by auto | | done].
    intros p ->%list_elem_of_singleton. split; [done|]. split; [done | by eexists].
  - simpl in Hsome. rewrite Hsome.
    destruct (update_excel_with_json_data xl _ cm st) as [ok st'].
    eexists. split; [done|]. simpl.
    assert (written_count
              [OcrCalled file_path;
               AspectsRequested ocr_text (collect_concept_values cm)
                 (drop 1 (lower (snd (splitext file_path))));
               JsonWritten (json_path_of output_dir file_path)
                 (<[metadata_key := metadata (basename file_path)
                                      (lower (snd (splitext file_path))) (now env)]>
                    extracted)] = 1%nat) as Hone by done.
    split_and!; [by destruct ok; auto | rewrite Hone; destruct ok; lia | done | | done].
    intros p ->%list_elem_of_singleton. split; [done|]. split; [done | by eexists].
Qed.

Lemma process_files_fold (xl : Excel) (env : Process_files.Env) (cm : ConceptMapping)
    (output_dir : string) (files : list string) (n : nat) (st : Store) (tr : list Event) :
  let result := fold_left (process_and_store xl env cm output_dir) files (n, st, tr) in
  exists new,
    snd result = tr ++ new /\
    n <= fst (fst result) <= n + written_count new /\
    written_count new <= length files /\
    (forall p, p ∈ ocr_paths new -> p ∈ files /\ eligible p) /\
    (written_count new = 0%nat -> snd (fst result) = st).
Proof.
  revert n st tr. induction files as [|f files IH]; intros n st tr; cbn [fold_left].
  - exists []. rewrite /= app_nil_r Nat.add_0_r.
    split_and!; [done | done | done | done | by intros ? ?%elem_of_nil | done].
  - destruct (process_and_store_step xl env cm output_dir n st tr f)
      as (new1 & Htr1 & Hn1 & Hle1 & Hocr1 & Hst1).
    destruct (process_and_store xl env cm output_dir (n, st, tr) f) as [[n1 st1] tr1].
    simpl in *. subst tr1.
    destruct (IH n1 st1 (tr ++ new1))
      as (new2 & Htr2 & Hn2 & Hle2 & Hocr2 & Hst2).
    exists (new1 ++ new2). rewrite Htr2 written_count_app ocr_paths_app.
    split_and!; [by rewrite assoc | lia | lia | lia | |].
    + intros p [Hp|Hp]%elem_of_app.
      * destruct (Hocr1 p Hp) as [-> ?]. split; [apply list_elem_of_here | done].
      * destruct (Hocr2 p Hp). split; [by apply list_elem_of_further | done].
    + intros Hzero. rewrite Hst2; [lia|]. apply Hst1. lia.
Qed.

(** X10. For the loop of [process_client_files] over the files of a
    directory: the number it returns is at most the number of JSON files
    written (a file counts only when the update of the workbook returned
    [True]), which is at most the number of files; OCR is called only for
    listed files that are not lock files ([~$...]), have one of the
    extensions png, pdf, docx and a digit in their name; and when no JSON
    file was written the workbook file is as it was before the batch. *)
Theorem batch_counts_written_files
    (xl : Excel) (env : Process_files.Env) (cm : ConceptMapping) (output_dir : string)
    (files : list string) (store : Store) :
  let result := process_client_files xl env cm output_dir files store in
  let successful_files := fst (fst result) in
  successful_files <= written_count (snd result)
  /\ written_count (snd result) <= length files
  /\ (forall p, p ∈ ocr_paths (snd result) ->
                p ∈ files /\
                startswith (basename p) "~$" = false /\
                lower (snd (splitext p)) ∈ [".png"; ".pdf"; ".docx"] /\
                is_Some (extract_file_id (basename p)))
  /\ (written_count (snd result) = 0%nat -> snd (fst result) = store).
Proof.
  rewrite /process_client_files.
  set (listed := filter (fun f => startswith (basename f) "~$" = false) files).
  destruct (process_files_fold xl env cm output_dir listed 0 store [])
    as (new & Htr & Hn & Hle & Hocr & Hst).
  simpl in Htr, Hn. rewrite Htr. split_and!.
  - lia.
  - etrans; [exact Hle|]. apply length_filter.
  - intros p Hp. destruct (Hocr p Hp) as [[Hlock Hin]%list_elem_of_filter [Hext Hid]].
    done.
  - done.
Qed.

(** *** The extension tests of the two modules *)

Ltac combine_cases env :=
  rewrite /combine_ocr_results /combine_ocr_results_try;
  destruct (anthropic_vertex env) as [[]|?]; simpl;
  [ match goal with
    | |- context [messages_create env ?prompt] =>
        destruct (messages_create env prompt) as [?|?] eqn:?; simpl
    end;
    (eexists; split; [done|]); [right | by left]
  | eexists; split; [done | by left] ].

(** X11. The extensions that [process_single_file] lets through are the
    ones [process_file_with_combined_ocr] handles: for such a file the text
    that comes back is never the "Unsupported file type" message; it is
    either a message that starts with "Error" or the reply of the model to
    a prompt built from OCR results, the lower-cased extension without its
    dot as file type, and "hebrew" or "english" as language. *)
Theorem supported_file_gets_reply_or_error (env : Claude_as_OCR.Env) (file_path : string) :
  lower (snd (splitext file_path)) ∈ [".png"; ".pdf"; ".docx"] ->
  exists text,
    process_file_with_combined_ocr env file_path None = Returns text /\
    (startswith text "Error" = true \/
     exists r language,
       language ∈ ["hebrew"; "english"] /\
       messages_create env
         (build_prompt r (Some (drop 1 (lower (snd (splitext file_path))))) (Some language))
       = Returns text).
Proof.
  intros Hext.
  rewrite /process_file_with_combined_ocr /process_file_with_combined_ocr_try /gather /=.
  destruct (import_OCR_Combined env) as [[]|e]; simpl; [|eexists; split; [done | by left]].
  assert (forall r : OcrResults,
             (if mentions_hebrew r then Some "hebrew" else Some "english")
             = Some (if mentions_hebrew r then "hebrew" else "english")) as Hlang
    by by intros r; destruct (mentions_hebrew r).
  assert (forall r : OcrResults,
             (if mentions_hebrew r then "hebrew" else "english") ∈ ["hebrew"; "english"])
    as Hin.
  { intros r. destruct (mentions_hebrew r);
      [apply list_elem_of_here | apply list_elem_of_further, list_elem_of_here]. }
  apply elem_of_cons in Hext as [->|Hext]; simpl.
  { destruct (process_png_file env file_path) as [r|e]; simpl;
      [|eexists; split; [done | by left]].
    rewrite Hlang. combine_cases env. exists r. eexists. split; [apply Hin | eassumption]. }
  apply elem_of_cons in Hext as [->|Hext]; simpl.
  { destruct (process_pdf_file env file_path) as [r|e]; simpl;
      [|eexists; split; [done | by left]].
    rewrite Hlang. combine_cases env. exists r. eexists. split; [apply Hin | eassumption]. }
  apply list_elem_of_singleton in Hext as ->. simpl.
  destruct (process_docx_file env file_path) as [r|e]; simpl;
    [|eexists; split; [done | by left]].
  rewrite /docx_language.
  destruct (lookup_result "Note" r) as [[note|]|]; simpl;
    [| eexists; split; [done | by left] |].
  - destruct (contains "hebrew" (lower note)); simpl; combine_cases env;
      exists r; eexists; (split; [|eassumption]);
      [apply list_elem_of_here | apply list_elem_of_further, list_elem_of_here].
  - combine_cases env. exists r. eexists. split; [|eassumption].
    apply list_elem_of_further, list_elem_of_here.
Qed.

Lemma supported_file_gets_reply_or_error_witness :
  exists text,
    process_file_with_combined_ocr Samples.ocr_ok "in/request_482.pdf" None = Returns text.
Proof.
  destruct (supported_file_gets_reply_or_error Samples.ocr_ok "in/request_482.pdf")
    as (text & Htext & _).
  - by apply str_in_true.
  - by exists text.
Defined.

End Process_files_more.

(** ** debug_OCR_THROW_PNG.py: further properties *)

Module Cascade_more.
Import Py Py_facts debug_OCR_THROW_PNG Cascade_facts.

(** *** Where poppler is looked for *)

(** X12. [get_poppler_path] returns a path only on Windows, only one of
    its five candidate places, and only one that exists, the first such in
    order; elsewhere, or when none of the places exists, it returns
    [None]. *)
Theorem poppler_path_exists (env : Env) :
  match get_poppler_path env with
  | Some p =>
      platform_system env = "Windows" /\
      path_exists env p = true /\
      exists before after,
        poppler_candidates env = before ++ p :: after /\
        Forall (fun q => path_exists env q = false) before
  | None =>
      platform_system env <> "Windows" \/
      Forall (fun q => path_exists env q = false) (poppler_candidates env)
  end.
Proof.
  rewrite /get_poppler_path /poppler_candidates.
  destruct (String.eqb_spec (platform_system env) "Windows") as [Hwin|Hother]; [|by left].
  set (p1 := join (join (join (script_dir env) "poppler") "Library") "bin").
  set (p2 := join (join (script_dir env) "poppler") "bin").
  destruct (path_exists env p1) eqn:H1.
  { split_and!; [done | done|]. exists []. eexists. split; [done|]. by constructor. }
  destruct (path_exists env p2) eqn:H2.
  { split_and!; [done | done|]. exists [p1]. eexists. split; [done|]. by repeat constructor. }
  cbn [find]. destruct (path_exists env "C:\Program Files\poppler\bin") eqn:H3.
  { split_and!; [done | done|]. exists [p1; p2]. eexists. split; [done|].
    by repeat constructor. }
  destruct (path_exists env "C:\Program Files (x86)\poppler\bin") eqn:H4.
  { split_and!; [done | done|]. exists [p1; p2; "C:\Program Files\poppler\bin"]. eexists.
    split; [done|]. by repeat constructor. }
  destruct (path_exists env "C:\poppler\bin") eqn:H5.
  { split_and!; [done | done|].
    exists [p1; p2; "C:\Program Files\poppler\bin"; "C:\Program Files (x86)\poppler\bin"], [].
    split; [done|]. by repeat constructor. }
  right. by repeat constructor.
Qed.

(** *** What a conversion returns *)

(** X13. [convert_file_to_png] never raises and removes no file of the
    user. For a PDF, DOCX or DOC it returns the name of a temporary PNG
    file that is on disk, or [None]; for an image it returns the path
    object it was given and touches nothing; for any other extension it
    returns [None] and touches nothing. *)
Theorem convert_file_to_png_result (env : Env) (file_path : Path) (w : World) :
  exists r w',
    convert_file_to_png env file_path w = (Returns r, w') /\
    keeps_user_files w w' /\
    match r with
    | Some (Name p) =>
        extension_of file_path ∈ document_extensions /\
        p ∈ files w' /\ exists n, p = TempFile n ".png"
    | Some (PathObject p) =>
        extension_of file_path ∈ image_extensions /\ p = file_path /\ w' = w
    | None =>
        (extension_of file_path ∉ image_extensions) /\
        (extension_of file_path ∉ document_extensions -> w' = w)
    end.
Proof.
  rewrite /convert_file_to_png /extension_of /document_extensions /image_extensions.
  set (ext := lower _).
  assert (Hdoc : forall (conv : M (option Path)) ,
    converts_safely conv ->
    ext ∈ [".pdf"; ".docx"; ".doc"] ->
    exists r w',
      (r0 ← conv; mret (Name <$> r0)) w = (Returns r, w') /\
      keeps_user_files w w' /\
      match r with
      | Some (Name p) =>
          ext ∈ [".pdf"; ".docx"; ".doc"] /\ p ∈ files w' /\ exists n, p = TempFile n ".png"
      | Some (PathObject p) =>
          ext ∈ [".png"; ".jpg"; ".jpeg"; ".gif"; ".webp"] /\ p = file_path /\ w' = w
      | None =>
          (ext ∉ [".png"; ".jpg"; ".jpeg"; ".gif"; ".webp"]) /\
          (ext ∉ [".pdf"; ".docx"; ".doc"] -> w' = w)
      end).
  { intros conv Hc Hext. rewrite /mbind /eff_bind /Eff.bind.
    destruct (Hc w) as (r & w' & -> & Hk & Hi).
    exists (Name <$> r), w'. split; [done|]. split; [done|].
    destruct r as [p|]; simpl.
    - destruct (Hi p eq_refl) as [Hin Hpng]. by split_and!.
    - split; [|done]. intros Himg.
      repeat (apply elem_of_cons in Hext as [->|Hext];
              [by repeat (apply elem_of_cons in Himg as [Himg|Himg]; [done|]);
                  apply elem_of_nil in Himg|]).
      by apply elem_of_nil in Hext. }
  destruct (String.eqb_spec ext ".pdf") as [Hpdf|Hpdf].
  { apply Hdoc; [apply convert_pdf_to_png_safe|]. rewrite Hpdf. set_solver. }
  destruct (String.eqb_spec ext ".docx") as [Hdocx|Hdocx].
  { apply Hdoc; [apply convert_docx_to_png_safe|]. rewrite Hdocx. set_solver. }
  destruct (String.eqb_spec ext ".doc") as [Hd|Hd].
  { apply Hdoc; [apply convert_doc_to_png_safe|]. rewrite Hd. set_solver. }
  destruct (str_in ext _) eqn:Himg.
  - exists (Some (PathObject file_path)), w. split; [done|]. split; [by intros ? ?|].
    by apply str_in_true in Himg.
  - exists None, w. split; [done|]. split; [by intros ? ?|].
    by apply str_in_false in Himg.
Qed.

(** *** The loop of [process_client_files_folder] *)

(** An image is handed back as the path object that was given. *)
Lemma image_is_returned_as_given (env : Env) (file_path : Path) (w : World) :
  extension_of file_path ∈ image_extensions ->
  convert_file_to_png env file_path w = (Returns (Some (PathObject file_path)), w).
Proof.
  rewrite /convert_file_to_png /extension_of /image_extensions.
  set (ext := lower _). intros Himg.
  destruct (String.eqb_spec ext ".pdf") as [Hpdf|_]; [rewrite Hpdf in Himg; not_listed Himg|].
  destruct (String.eqb_spec ext ".docx") as [Hdocx|_]; [rewrite Hdocx in Himg; not_listed Himg|].
  destruct (String.eqb_spec ext ".doc") as [Hdoc|_]; [rewrite Hdoc in Himg; not_listed Himg|].
  apply str_in_true in Himg. by rewrite Himg.
Qed.

(** Anything else gives the name of a temporary PNG file, or nothing. *)
Lemma document_is_converted_safely (env : Env) (file_path : Path) (w : World) :
  extension_of file_path ∉ image_extensions ->
  exists r w',
    convert_file_to_png env file_path w = (Returns (Name <$> r), w') /\
    keeps_user_files w w' /\ image_on_disk r w'.
Proof.
  rewrite /convert_file_to_png /extension_of /image_extensions.
  set (ext := lower _). intros Himg.
  assert (Hdoc : forall conv : M (option Path),
    converts_safely conv ->
    exists r w',
      (r0 ← conv; mret (Name <$> r0)) w = (Returns (Name <$> r), w') /\
      keeps_user_files w w' /\ image_on_disk r w').
  { intros conv Hc. rewrite /mbind /eff_bind /Eff.bind.
    destruct (Hc w) as (r & w' & -> & Hk & Hi). by exists r, w'. }
  destruct (String.eqb ext ".pdf"); [apply Hdoc, convert_pdf_to_png_safe|].
  destruct (String.eqb ext ".docx"); [apply Hdoc, convert_docx_to_png_safe|].
  destruct (String.eqb ext ".doc"); [apply Hdoc, convert_doc_to_png_safe|].
  apply str_in_false in Himg. rewrite Himg.
  exists None, w. split; [done|]. split; [by intros ? ? | by intros ? [=]].
Qed.

(** X14. For an image file, one turn of the loop of
    [process_client_files_folder] runs OCR on the file itself and then
    removes that very file, the one the user supplied, from the disk (when
    [os.remove] succeeds); every other file stays. *)
Theorem image_file_is_removed_after_ocr (env : Env) (file_path : Path) (w : World) :
  extension_of file_path ∈ image_extensions ->
  file_path ∈ files w ->
  os_remove env file_path = Returns tt ->
  exists w',
    process_file env file_path w = (Returns (Some (claude_ocr env file_path)), w') /\
    (file_path ∉ files w') /\
    (forall q, q <> file_path -> q ∈ files w <-> q ∈ files w').
Proof.
  intros Himg Hin Hrm. rewrite /process_file /mbind /eff_bind /Eff.bind.
  rewrite (image_is_returned_as_given env file_path w Himg).
  rewrite /exists_file /= bool_decide_true //.
  rewrite /Eff.attempt /Eff.try_except /remove /mbind /eff_bind /Eff.bind /Eff.call Hrm /=.
  eexists. split; [reflexivity|]. simpl. split; [apply not_in_unlinked|].
  intros q Hq. rewrite list_elem_of_filter. tauto.
Qed.

Lemma image_file_is_removed_after_ocr_witness :
  exists w',
    process_file Samples.host_with_pymupdf (UserFile "scan_7.PNG") Samples.scans
      = (Returns (Some "Jane Doe"), w') /\
    (UserFile "scan_7.PNG" ∉ files w') /\
    (forall q, q <> UserFile "scan_7.PNG" -> q ∈ files Samples.scans <-> q ∈ files w').
Proof.
  apply (image_file_is_removed_after_ocr Samples.host_with_pymupdf
           (UserFile "scan_7.PNG") Samples.scans).
  - apply str_in_true. vm_compute. reflexivity.
  - simpl. apply list_elem_of_here.
  - reflexivity.
Defined.

(** X15. For any file that is not an image, one turn of the loop never
    raises and removes no file of the user; a text it returns is the OCR
    of a temporary PNG file. *)
Theorem documents_are_kept_after_ocr (env : Env) (file_path : Path) (w : World) :
  extension_of file_path ∉ image_extensions ->
  exists r w',
    process_file env file_path w = (Returns r, w') /\
    keeps_user_files w w' /\
    (forall text, r = Some text -> exists n, text = claude_ocr env (TempFile n ".png")).
Proof.
  intros Himg. rewrite /process_file /mbind /eff_bind /Eff.bind.
  destruct (document_is_converted_safely env file_path w Himg) as (r & w1 & -> & Hk & Hi).
  destruct r as [p|]; simpl.
  2: { exists None, w1. split; [done|]. split; [done | by intros ? [=]]. }
  destruct (Hi p eq_refl) as [Hin [n ->]].
  rewrite /exists_file.
  destruct (bool_decide (TempFile n ".png" <> file_path) && _).
  - destruct (attempt_remove_keeps env (TempFile n ".png") w1) as (w2 & -> & Hsup).
    exists (Some (claude_ocr env (TempFile n ".png"))), w2. split; [done|]. split.
    + intros name Hname. apply Hsup; [by apply Hk | done].
    + intros text [= <-]. by exists n.
  - exists (Some (claude_ocr env (TempFile n ".png"))), w1. split; [done|]. split; [done|].
    intros text [= <-]. by exists n.
Qed.

Lemma documents_are_kept_after_ocr_witness :
  exists r w',
    process_file Samples.host_with_pymupdf (UserFile "request_482.pdf") Samples.disk
      = (Returns r, w') /\
    keeps_user_files Samples.disk w' /\
    (forall text, r = Some text ->
                  exists n, text = claude_ocr Samples.host_with_pymupdf (TempFile n ".png")).
Proof.
  apply (documents_are_kept_after_ocr Samples.host_with_pymupdf
           (UserFile "request_482.pdf") Samples.disk).
  apply str_in_false. vm_compute. reflexivity.
Defined.

(** *** The text of a document as the last resort *)

(** With Pillow at hand, a text that is not empty always ends as an image:
    through a PDF of the text, or drawn directly. *)
Lemma convert_text_gives_image (env : Env) (text : string) (w : World) :
  truthy text = true ->
  import_PIL env = Returns tt ->
  (forall t p, draw_text_image env t p = Returns tt) ->
  exists p w',
    convert_text env text w = (Returns (Return (Some p)), w') /\
    keeps_user_files w w' /\ image_on_disk (Some p) w'.
Proof.
  intros Htext HPIL Hdraw. rewrite /convert_text Htext.
  destruct (create_pdf_from_text_safe env text w) as (pdf_path & w1 & Hpdfeq & Hk1 & Hpdf).
  assert (Hflow : exists flow w2,
    match pdf_path with
    | Some pdf =>
        png_path ← convert_pdf_to_png env pdf;
        Eff.attempt (remove env pdf);;
        mret (return_if_some png_path)
    | None => mret FallThrough
    end w1 = (Returns flow, w2) /\
    keeps_user_files w1 w2 /\ flow_image_on_disk flow w2).
  { destruct pdf_path as [pdf|].
    - destruct (Hpdf pdf eq_refl) as [n ->].
      by apply convert_then_remove; [apply convert_pdf_to_png_safe|].
    - exists FallThrough, w1. split; [done|]. split; [by intros ? ? | done]. }
  destruct Hflow as (flow & w2 & Hfl & Hk2 & Hi2).
  assert (Hk : keeps_user_files w w2) by by eapply keeps_user_files_trans.
  rewrite /mbind /eff_bind /Eff.bind in Hfl |- *. rewrite Hpdfeq Hfl.
  destruct flow as [[p|]|]; [|done|].
  - exists p, w2. split; [done|]. split; [done|]. by intros ? [= <-].
  - rewrite /create_text_image. eff_unfold. rewrite HPIL /=.
    assert (forall p, text_image_save env p = Returns tt) as Hsave.
    { intros p. specialize (Hdraw text p). rewrite /draw_text_image in Hdraw.
      by destruct (draw_text env text). }
    specialize (Hdraw text (TempFile 0 ".png")). rewrite /draw_text_image in Hdraw.
    destruct (draw_text env text) as [[]|e]; [|done]. rewrite /= Hsave /=.
    do 2 eexists. split; [reflexivity|]. split.
    + intros name Hname. apply elem_of_app. left. by apply Hk.
    + intros ? [= <-]. split; [|by eexists].
      apply elem_of_app. right. apply list_elem_of_here.
Qed.

(** [extract_text_from_docx] gives the text of the document, or a message
    in its place; the result is empty only if the document's text is. *)
Lemma extract_text_from_docx_truthy (env : Env) (docx_path : Path) (w : World) :
  docx_text env docx_path <> Returns "" ->
  exists text,
    extract_text_from_docx env docx_path w = (Returns text, w) /\ truthy text = true.
Proof.
  intros Htext. rewrite /extract_text_from_docx. eff_unfold.
  destruct (docx_text env docx_path) as [[|c text]|e]; [done | by eexists | by eexists].
Qed.

Lemma extract_text_from_doc_truthy (env : Env) (doc_path : Path) (w : World) :
  antiword env doc_path <> Returns "" ->
  catdoc env doc_path <> Returns "" ->
  exists text,
    extract_text_from_doc env doc_path w = (Returns text, w) /\ truthy text = true.
Proof.
  intros Hanti Hcat. rewrite /extract_text_from_doc.
  destruct (antiword env doc_path) as [[|c text]|e]; [done | by eexists |].
  destruct (catdoc env doc_path) as [[|c text]|e']; [done | by eexists | by eexists].
Qed.

(** The method on the text, when the text is not empty and Pillow is at
    hand. *)
Lemma text_method_gives_image (env : Env) (extract : M string) (w : World) :
  (exists text, extract w = (Returns text, w) /\ truthy text = true) ->
  import_PIL env = Returns tt ->
  (forall t p, draw_text_image env t p = Returns tt) ->
  exists p w',
    Eff.try_except (text ← extract; convert_text env text) (fun _ => mret FallThrough) w
      = (Returns (Return (Some p)), w') /\
    keeps_user_files w w' /\ image_on_disk (Some p) w'.
Proof.
  intros (text & Hext & Htext) HPIL Hdraw.
  destruct (convert_text_gives_image env text w Htext HPIL Hdraw) as (p & w' & Heq & Hk & Hi).
  rewrite /Eff.try_except /mbind /eff_bind /Eff.bind Hext Heq. by exists p, w'.
Qed.

(** X16. With Pillow at hand, [convert_docx_to_png] gives an image for
    every DOCX whose text is not empty, whatever else is missing on the
    host: also when the text cannot be read, in which case the image may be
    that of the message that stands for the text. *)
Theorem docx_with_text_gives_image (env : Env) (docx_path : Path) (w : World) :
  import_PIL env = Returns tt ->
  (forall t p, draw_text_image env t p = Returns tt) ->
  docx_text env docx_path <> Returns "" ->
  exists p w',
    convert_docx_to_png env docx_path w = (Returns (Some p), w') /\
    p ∈ files w' /\ exists n, p = TempFile n ".png".
Proof.
  intros HPIL Hdraw Htext. rewrite /convert_docx_to_png.
  destruct (convert_with_word_to_pdf_safe env docx_path w) as (flow1 & w1 & Heq1 & Hk1 & Hi1).
  destruct (text_method_gives_image env (extract_text_from_docx env docx_path) w1
              (extract_text_from_docx_truthy env docx_path w1 Htext) HPIL Hdraw)
    as (p2 & w2 & Heq2 & Hk2 & Hi2).
  rewrite /mbind /eff_bind /Eff.bind in Heq2 |- *. rewrite Heq1.
  destruct flow1 as [[p|]|]; [|done|].
  - by exists p, w1.
  - rewrite Heq2. exists p2, w2. split; [done|]. by apply Hi2.
Qed.

Lemma docx_with_text_gives_image_witness :
  exists p w',
    convert_docx_to_png Samples.host_without_word (UserFile "cv_12.docx") Samples.disk
      = (Returns (Some p), w') /\
    p ∈ files w' /\ exists n, p = TempFile n ".png".
Proof.
  apply (docx_with_text_gives_image Samples.host_without_word (UserFile "cv_12.docx")
           Samples.disk).
  - reflexivity.
  - intros t p. reflexivity.
  - simpl. discriminate.
Defined.

(** X17. With Pillow at hand, [convert_doc_to_png] gives an image for
    every DOC for which neither antiword nor catdoc prints an empty text:
    when both tools are missing, the image may be that of the message that
    asks to convert the file. *)
Theorem doc_with_text_gives_image (env : Env) (doc_path : Path) (w : World) :
  import_PIL env = Returns tt ->
  (forall t p, draw_text_image env t p = Returns tt) ->
  antiword env doc_path <> Returns "" ->
  catdoc env doc_path <> Returns "" ->
  exists p w',
    convert_doc_to_png env doc_path w = (Returns (Some p), w') /\
    p ∈ files w' /\ exists n, p = TempFile n ".png".
Proof.
  intros HPIL Hdraw Hanti Hcat. rewrite /convert_doc_to_png.
  destruct (convert_with_word_to_pdf_safe env doc_path w) as (flow1 & w1 & Heq1 & Hk1 & Hi1).
  destruct (convert_with_word_to_docx_safe env doc_path w1) as (flow2 & w2 & Heq2 & Hk2 & Hi2).
  destruct (text_method_gives_image env (extract_text_from_doc env doc_path) w2
              (extract_text_from_doc_truthy env doc_path w2 Hanti Hcat) HPIL Hdraw)
    as (p3 & w3 & Heq3 & Hk3 & Hi3).
  rewrite /mbind /eff_bind /Eff.bind in Heq3 |- *. rewrite Heq1.
  destruct flow1 as [[p|]|]; [|done|].
  { by exists p, w1. }
  rewrite Heq2. destruct flow2 as [[p|]|]; [|done|].
  { by exists p, w2. }
  rewrite Heq3. exists p3, w3. split; [done|]. by apply Hi3.
Qed.

Lemma doc_with_text_gives_image_witness :
  exists p w',
    convert_doc_to_png Samples.host_without_word (UserFile "letter_3.doc") Samples.disk
      = (Returns (Some p), w') /\
    p ∈ files w' /\ exists n, p = TempFile n ".png".
Proof.
  apply (doc_with_text_gives_image Samples.host_without_word (UserFile "letter_3.doc")
           Samples.disk).
  - reflexivity.
  - intros t p. reflexivity.
  - simpl. discriminate.
  - simpl. discriminate.
Defined.

End Cascade_more.

(** ** Claude_as_OCR.py: further properties *)

Module Claude_as_OCR_more.
Import Py Py_facts Claude_as_OCR.

(** *** MIME types *)

Lemma lower_char_idemp (c : ascii) : lower_char (lower_char c) = lower_char c.
Proof. by destruct c as [[] [] [] [] [] [] [] []]. Qed.

Lemma lower_upper_char (c : ascii) : lower_char (upper_char c) = lower_char c.
Proof. by destruct c as [[] [] [] [] [] [] [] []]. Qed.

Lemma lower_idemp (s : string) : lower (lower s) = lower s.
Proof.
  induction s as [|c s IH]; [done|].
  rewrite /lower /=. rewrite lower_char_idemp. f_equal. exact IH.
Qed.

Lemma lower_upper (s : string) : lower (upper s) = lower s.
Proof.
  induction s as [|c s IH]; [done|].
  rewrite /lower /upper /=. rewrite lower_upper_char. f_equal. exact IH.
Qed.

(** Reading a dictionary written as a list of items. *)
Lemma find_key_spec (items : list (string * string)) (key : string) :
  match find (fun kv => String.eqb (fst kv) key) items with
  | Some kv => kv ∈ items /\ fst kv = key
  | None => key ∉ map fst items
  end.
Proof.
  induction items as [|[k v] items IH]; cbn [find fst].
  - apply not_elem_of_nil.
  - destruct (String.eqb_spec k key) as [->|Hne].
    + split; [apply list_elem_of_here | done].
    + destruct (find _ items) as [kv|].
      * destruct IH as [Hin Hkey]. split; [by apply list_elem_of_further | done].
      * cbn [map fst]. apply not_elem_of_cons. split; [congruence | done].
Qed.

(** X19. [get_mime_type] does not look at the case of the extension, and
    gives "application/octet-stream" exactly for the extensions that, in
    lower case, are none of the eight it knows. *)
Theorem mime_type_ignores_case (file_extension : string) :
  get_mime_type (upper file_extension) = get_mime_type file_extension /\
  get_mime_type (lower file_extension) = get_mime_type file_extension /\
  (get_mime_type file_extension = "application/octet-stream" <->
   lower file_extension ∉ map fst mime_types).
Proof.
  rewrite /get_mime_type lower_upper lower_idemp. split_and!; [done | done|].
  pose proof (find_key_spec mime_types (lower file_extension)) as Hfind.
  destruct (find _ mime_types) as [kv|]; [|done].
  destruct Hfind as [Hin Hkey]. split.
  - intros Hmime. exfalso. rewrite /mime_types in Hin.
    repeat (apply elem_of_cons in Hin as [->|Hin]; [discriminate Hmime|]).
    by apply elem_of_nil in Hin.
  - intros Hnot. exfalso. apply Hnot. rewrite -Hkey. by apply list_elem_of_fmap_2.
Qed.

(** *** The folder loop *)

(** One turn: nothing for another extension; for a supported one, one file
    with the combined text, unless the directory or the file cannot be
    written, which ends the loop. *)
Lemma save_combined_result_step (env : Env) (folder : Folder) (file_path : string)
    (saved : list (string * string)) :
  let ext := lower (snd (splitext file_path)) in
  ((ext ∉ [".png"; ".pdf"; ".docx"]) /\
   save_combined_result env folder file_path saved = (Returns tt, saved))
  \/ (ext ∈ [".png"; ".pdf"; ".docx"] /\
      ((exists e, save_combined_result env folder file_path saved = (Raises e, saved)) \/
       save_combined_result env folder file_path saved
         = (Returns tt, saved ++ [combined_file env file_path])) /\
      ((forall d, mkdir folder d = Returns tt) ->
       (forall p t, write_text folder p t = Returns tt) ->
       save_combined_result env folder file_path saved
         = (Returns tt, saved ++ [combined_file env file_path]))).
Proof.
  intros ext. rewrite /save_combined_result -/ext /combined_file /combined_text.
  destruct (str_in ext _) eqn:Hext; simpl.
  2: { left. split; [by apply str_in_false | done]. }
  right. split; [by apply str_in_true|].
  destruct (Process_files_facts.process_file_with_combined_ocr_returns env file_path None)
    as [text ->].
  rewrite /mbind /eff_bind /Eff.bind /Eff.call /Eff.modify. split.
  - destruct (mkdir folder "OCR_Results") as [[]|e]; [|left; by eexists].
    destruct (write_text folder _ text) as [[]|e]; [by right | left; by eexists].
  - intros Hmkdir Hwrite. by rewrite Hmkdir Hwrite.
Qed.

Lemma save_combined_results_spec (env : Env) (folder : Folder) (files : list string)
    (saved : list (string * string)) :
  let result := save_combined_results env folder files saved in
  let expected :=
    map (combined_file env)
        (filter (fun f => lower (snd (splitext f)) ∈ [".png"; ".pdf"; ".docx"]) files) in
  exists written,
    snd result = saved ++ written /\
    written `prefix_of` expected /\
    (fst result = Returns tt -> written = expected) /\
    ((forall d, mkdir folder d = Returns tt) ->
     (forall p t, write_text folder p t = Returns tt) ->
     fst result = Returns tt).
Proof.
  revert saved. induction files as [|f files IH]; intros saved; cbn zeta.
  { exists []. rewrite /= app_nil_r. by split_and!. }
  cbn [save_combined_results]. rewrite /mbind /eff_bind /Eff.bind.
  destruct (save_combined_result_step env folder f saved)
    as [[Hext ->]|(Hext & [[e ->]| ->] & Hok)].
  - rewrite filter_cons_False; [exact Hext|]. apply IH.
  - rewrite filter_cons_True; [exact Hext|]. exists []. rewrite /= app_nil_r.
    split_and!; [done | by apply prefix_nil | done|].
    intros Hmkdir Hwrite. by specialize (Hok Hmkdir Hwrite).
  - rewrite filter_cons_True; [exact Hext|].
    destruct (IH (saved ++ [combined_file env f])) as (written & Hsnd & Hpre & Hret & Hall).
    exists (combined_file env f :: written). cbn zeta in *.
    split_and!.
    + by rewrite Hsnd -assoc.
    + by apply prefix_cons.
    + intros Hr. by rewrite (Hret Hr).
    + done.
Qed.

(** X20. [process_client_files_folder] writes, in the order of the
    listing, one file [OCR_Results/<stem>_combined.txt] with the combined
    text for each listed file that is no lock file ([~$...]) and has one of
    the extensions png, pdf, docx, and nothing for any other file. A
    directory or file that cannot be written ends the loop with the
    exception: the files before it are written, the ones after it are not
    processed. It does nothing when the folder does not exist. *)
Theorem folder_loop_writes_one_text_per_file (env : Env) (folder : Folder)
    (saved : list (string * string)) :
  let result := process_client_files_folder env folder saved in
  let expected := map (combined_file env) (processed (default [] (listing folder))) in
  exists written,
    snd result = saved ++ written /\
    written `prefix_of` expected /\
    (fst result = Returns tt -> written = expected) /\
    ((forall d, mkdir folder d = Returns tt) ->
     (forall p t, write_text folder p t = Returns tt) ->
     fst result = Returns tt) /\
    (listing folder = None -> result = (Returns tt, saved)).
Proof.
  rewrite /process_client_files_folder /processed.
  destruct (listing folder) as [files|]; cbn zeta; simpl default.
  2: { exists []. rewrite /= app_nil_r. by split_and!. }
  pose proof (save_combined_results_spec env folder
                (filter (fun f => startswith (basename f) "~$" = false) files) saved)
    as (written & Hsnd & Hpre & Hret & Hall).
  cbn zeta in *.
  destruct (filter (fun f => startswith (basename f) "~$" = false) files) as [|f rest] eqn:Hl.
  { exists []. rewrite /= app_nil_r. by split_and!. }
  exists written. by split_and!.
Qed.

End Claude_as_OCR_more.
